(** * Sengine: window, render-pass guard and application driver

    A shallow embedding of the C++ sources of the Sengine scaffold, one
    module per source unit:
    - [Assertion]   Sengine/Utils/Assert.h
    - [Renderer2D]  Sengine/Render/2D/Renderer2D.{h,cpp}
    - [Win32]       the constants and macros Swindow.h uses from <Windows.h>
    - [Swindow]     ThirdParty/swindow/Swindow.h (Windows variant)
    - [Sengine]     Sengine/Applicatiom: Window, ISengineApp, Application
    - [Renderer]    Sengine/Render/Renderer.{h,cpp}, the facade over Renderer2D
    - [SengineEditor]  Editor/src/Main.cpp, the editor's tick
    - [SwindowImGui]   Swindow.h, the callbacks of the ImGui backend

    Conventions.
    - A C++ [int] is a [Z]; where the source does arithmetic on it or
      narrows to it the 32-bit wrap-around is written out ([wrap_int]).
    - A function that may call [std::abort] returns an [exec]: the state in
      which it returned, or the state in which the process was aborted.
    - Objects are records and member functions pass them explicitly.  What
      the platform answers (handles, key states, queued messages) is an
      argument of the function that asks.
    - Client code (window callbacks, application hooks) is a function on the
      client's own state; calls to it are also recorded in a history. *)

From Stdlib Require Import ZArith List String Ascii Bool Lia DecimalString.
Import ListNotations.
Local Open Scope string_scope.
Local Open Scope list_scope.
Local Open Scope Z_scope.

(** ** Machine integers *)

Definition wrap_int (z : Z) : Z := (z + 2 ^ 31) mod 2 ^ 32 - 2 ^ 31.

(** ** Outcome of a call that may abort the process *)

Inductive exec (S : Type) : Type :=
| Returns (s : S)   (* the call returned normally, leaving state [s] *)
| Aborts (s : S).   (* std::abort() was reached in state [s] *)
Arguments Returns {S} s.
Arguments Aborts {S} s.

Definition aborted {S : Type} (r : exec S) : bool :=
  match r with Aborts _ => true | Returns _ => false end.

Definition final_state {S : Type} (r : exec S) : S :=
  match r with Aborts s => s | Returns s => s end.

(** ** Sengine/Utils/Assert.h *)

Module Assertion.

(** The part of the file system [Assert] touches: the text of
    AssertLog.txt, and whether opening it for appending succeeds
    ([logFile.is_open()]). *)
Record Disk : Type := mkDisk {
  AssertLog_txt : string;
  AssertLog_opens : bool
}.

Definition endl : string := String (ascii_of_nat 10) EmptyString.

(** [operator<<] on an [int]. *)
Definition show_int (line : Z) : string :=
  NilZero.string_of_int (Z.to_int line).

(** The text streamed into the log file. *)
Definition log_text (conditionStr file : string) (line : Z) (message : string)
  : string :=
  ("Assertion failed in file " ++ file ++ " at line: " ++ show_int line ++ endl
     ++ "Condition: " ++ conditionStr ++ endl
     ++ "Message: " ++ message ++ endl ++ endl)%string.

(** [std::ofstream logFile("AssertLog.txt", std::ios::app)] followed by the
    guarded write. *)
Definition append_log (text : string) (d : Disk) : Disk :=
  if AssertLog_opens d
  then {| AssertLog_txt := (AssertLog_txt d ++ text)%string;
          AssertLog_opens := AssertLog_opens d |}
  else d.

(** [static void Assert(bool condition, const char* conditionStr,
                        const char* file, int line, const char* message)] *)
Definition Assert (condition : bool) (conditionStr file : string) (line : Z)
           (message : string) (d : Disk) : exec Disk :=
  if condition
  then Aborts (append_log (log_text conditionStr file line message) d)
  else Returns d.

(** [#define SE_Assert(cond, msg)
       Sengine::Assertion::Assert((cond), #cond, __FILE__, __LINE__, msg)]
    The stringified condition, [__FILE__] and [__LINE__] are what the
    preprocessor supplies at the place of use, so they are arguments here. *)
Definition SE_Assert (cond : bool) (cond_text : string) (msg : string)
           (FILE : string) (LINE : Z) (d : Disk) : exec Disk :=
  Assert cond cond_text FILE LINE msg d.

End Assertion.

(** ** Sengine/Render/2D/Renderer2D.{h,cpp} *)

Module Renderer2D.
Import Assertion.

(** Process-wide state seen by the renderer: the static counter
    [inline static int m_CurrentRenderIndex = 0] and the disk that
    [SE_Assert] logs to. *)
Record Process : Type := mkProcess {
  m_CurrentRenderIndex : Z;
  disk : Disk
}.

Definition initial (d : Disk) : Process :=
  {| m_CurrentRenderIndex := 0; disk := d |}.

(** [__FILE__] inside Renderer2D.cpp; the two [SE_Assert]s sit on lines 11
    and 21 of that file. *)
Definition FILE_Renderer2D_cpp : string := "Renderer2D.cpp".

Definition with_disk (p : Process) (r : exec Disk) (k : Disk -> Process)
  : exec Process :=
  match r with
  | Aborts d => Aborts {| m_CurrentRenderIndex := m_CurrentRenderIndex p; disk := d |}
  | Returns d => Returns (k d)
  end.

(** [void Renderer2D::BeginRender()] *)
Definition BeginRender (p : Process) : exec Process :=
  with_disk p
    (SE_Assert (m_CurrentRenderIndex p =? 1) "m_CurrentRenderIndex == 1"
       "[Render 2D] Error: Has not called End Render function after the draw function"
       FILE_Renderer2D_cpp 11 (disk p))
    (fun d => {| m_CurrentRenderIndex := wrap_int (m_CurrentRenderIndex p + 1);
                 disk := d |}).

(** [void Renderer2D::EndRender()] *)
Definition EndRender (p : Process) : exec Process :=
  Returns {| m_CurrentRenderIndex := 0; disk := disk p |}.

(** [void Renderer2D::DrawQuad()] *)
Definition DrawQuad (p : Process) : exec Process :=
  with_disk p
    (SE_Assert (m_CurrentRenderIndex p =? 0) "m_CurrentRenderIndex == 0"
       "[Render 2D] Error: Has not called either Begin Render function before draw function"
       FILE_Renderer2D_cpp 21 (disk p))
    (fun d => {| m_CurrentRenderIndex := m_CurrentRenderIndex p; disk := d |}).

(** A client program, as far as the renderer is concerned, is the sequence
    of calls it makes. *)
Inductive Call : Type := CallBeginRender | CallDrawQuad | CallEndRender.

Definition call (c : Call) : Process -> exec Process :=
  match c with
  | CallBeginRender => BeginRender
  | CallDrawQuad => DrawQuad
  | CallEndRender => EndRender
  end.

(** Running a sequence of calls: an abort ends the process, the remaining
    calls never happen. *)
Fixpoint run (calls : list Call) (p : Process) : exec Process :=
  match calls with
  | [] => Returns p
  | c :: rest =>
      match call c p with
      | Aborts p' => Aborts p'
      | Returns p' => run rest p'
      end
  end.

(** One Begin, Draw, End bracket, and [n] of them in a row. *)
Definition bracket : list Call := [CallBeginRender; CallDrawQuad; CallEndRender].

Fixpoint brackets (n : nat) : list Call :=
  match n with
  | O => []
  | S n' => bracket ++ brackets n'
  end.

(** Whether, reading the calls made so far, a [BeginRender] has been seen
    since the last [EndRender] (or since the start). *)
Definition scan (begun : bool) (c : Call) : bool :=
  match c with
  | CallBeginRender => true
  | CallEndRender => false
  | CallDrawQuad => begun
  end.

Definition begun_since_end (calls : list Call) : bool :=
  fold_left scan calls false.

(** The counter mirrors [scan]: it is 1 exactly when a pass is open. *)
Definition tracks (b : bool) (p : Process) : Prop :=
  m_CurrentRenderIndex p = if b then 1 else 0.

End Renderer2D.

(** ** Windows SDK constants

    Swindow.h takes these from <Windows.h>; the values are the ones the
    Windows SDK headers (WinUser.h) fix. *)

Module Win32.

(** Handles ([HWND], [HDC], [HGLRC], [HINSTANCE]) and function addresses;
    0 is the null handle. *)
Definition HANDLE : Type := Z.

Definition WM_DESTROY : Z := 2.       (* 0x0002 *)
Definition WM_SIZE : Z := 5.          (* 0x0005 *)
Definition WM_CLOSE : Z := 16.        (* 0x0010 *)
Definition WM_NCDESTROY : Z := 130.   (* 0x0082 *)
Definition WM_KEYDOWN : Z := 256.     (* 0x0100 *)
Definition WM_KEYUP : Z := 257.       (* 0x0101 *)
Definition WM_CHAR : Z := 258.        (* 0x0102 *)
Definition WM_MOUSEMOVE : Z := 512.   (* 0x0200 *)
Definition WM_LBUTTONDOWN : Z := 513. (* 0x0201 *)
Definition WM_LBUTTONUP : Z := 514.   (* 0x0202 *)
Definition WM_RBUTTONDOWN : Z := 516. (* 0x0204 *)
Definition WM_RBUTTONUP : Z := 517.   (* 0x0205 *)

Definition VK_LBUTTON : Z := 1.
Definition VK_RBUTTON : Z := 2.
Definition VK_BACK : Z := 8.
Definition VK_TAB : Z := 9.
Definition VK_RETURN : Z := 13.
Definition VK_SHIFT : Z := 16.
Definition VK_CONTROL : Z := 17.
Definition VK_MENU : Z := 18.
Definition VK_ESCAPE : Z := 27.
Definition VK_SPACE : Z := 32.
Definition VK_LEFT : Z := 37.
Definition VK_UP : Z := 38.
Definition VK_RIGHT : Z := 39.
Definition VK_DOWN : Z := 40.
Definition VK_F1 : Z := 112.
Definition VK_F2 : Z := 113.
Definition VK_F3 : Z := 114.
Definition VK_F4 : Z := 115.
Definition VK_F5 : Z := 116.
Definition VK_F6 : Z := 117.
Definition VK_F7 : Z := 118.
Definition VK_F8 : Z := 119.
Definition VK_F9 : Z := 120.
Definition VK_F10 : Z := 121.
Definition VK_F11 : Z := 122.
Definition VK_F12 : Z := 123.

(** [LOWORD(l)] and [HIWORD(l)]: bits 0..15 and 16..31 of the argument. *)
Definition LOWORD (l : Z) : Z := Z.land l 65535.
Definition HIWORD (l : Z) : Z := Z.land (Z.shiftr l 16) 65535.

(** [MAKELPARAM(lo, hi)], the way the system packs a client-area size or a
    cursor position into [lParam]. *)
Definition MAKELPARAM (lo hi : Z) : Z :=
  Z.lor (Z.land lo 65535) (Z.shiftl (Z.land hi 65535) 16).

(** A queued message, as [WindowProc] receives it. *)
Record MSG : Type := mkMSG {
  uMsg : Z;
  wParam : Z;
  lParam : Z
}.

End Win32.

(** ** ThirdParty/swindow/Swindow.h *)

Module Swindow.
Import Win32.

(** [enum class KeyCode : uint8_t].  The enumerators carry the prefix
    [Key_] here ([KeyCode::A] is [Key_A]). *)
Inductive KeyCode : Type :=
| Key_Unknown | Key_A | Key_B | Key_C | Key_D | Key_E | Key_F | Key_G
| Key_H | Key_I | Key_J | Key_K | Key_L | Key_M | Key_N | Key_O | Key_P
| Key_Q | Key_R | Key_S | Key_T | Key_U | Key_V | Key_W | Key_X | Key_Y
| Key_Z | Key_Num0 | Key_Num1 | Key_Num2 | Key_Num3 | Key_Num4 | Key_Num5
| Key_Num6 | Key_Num7 | Key_Num8 | Key_Num9 | Key_Escape | Key_Enter
| Key_Space | Key_Backspace | Key_Tab | Key_Shift | Key_Ctrl | Key_Alt
| Key_Left | Key_Right | Key_Up | Key_Down | Key_F1 | Key_F2 | Key_F3
| Key_F4 | Key_F5 | Key_F6 | Key_F7 | Key_F8 | Key_F9 | Key_F10 | Key_F11
| Key_F12 | Key_Count.

(** The enumerator values: [Unknown = 0], then consecutive. *)
Definition KeyCode_value (k : KeyCode) : Z :=
  match k with
  | Key_Unknown => 0 | Key_A => 1 | Key_B => 2 | Key_C => 3 | Key_D => 4
  | Key_E => 5 | Key_F => 6 | Key_G => 7 | Key_H => 8 | Key_I => 9
  | Key_J => 10 | Key_K => 11 | Key_L => 12 | Key_M => 13 | Key_N => 14
  | Key_O => 15 | Key_P => 16 | Key_Q => 17 | Key_R => 18 | Key_S => 19
  | Key_T => 20 | Key_U => 21 | Key_V => 22 | Key_W => 23 | Key_X => 24
  | Key_Y => 25 | Key_Z => 26 | Key_Num0 => 27 | Key_Num1 => 28
  | Key_Num2 => 29 | Key_Num3 => 30 | Key_Num4 => 31 | Key_Num5 => 32
  | Key_Num6 => 33 | Key_Num7 => 34 | Key_Num8 => 35 | Key_Num9 => 36
  | Key_Escape => 37 | Key_Enter => 38 | Key_Space => 39
  | Key_Backspace => 40 | Key_Tab => 41 | Key_Shift => 42 | Key_Ctrl => 43
  | Key_Alt => 44 | Key_Left => 45 | Key_Right => 46 | Key_Up => 47
  | Key_Down => 48 | Key_F1 => 49 | Key_F2 => 50 | Key_F3 => 51
  | Key_F4 => 52 | Key_F5 => 53 | Key_F6 => 54 | Key_F7 => 55
  | Key_F8 => 56 | Key_F9 => 57 | Key_F10 => 58 | Key_F11 => 59
  | Key_F12 => 60 | Key_Count => 61
  end.

Definition KeyCode_of_value (v : Z) : KeyCode :=
  match v with
  | 1 => Key_A | 2 => Key_B | 3 => Key_C | 4 => Key_D | 5 => Key_E
  | 6 => Key_F | 7 => Key_G | 8 => Key_H | 9 => Key_I | 10 => Key_J
  | 11 => Key_K | 12 => Key_L | 13 => Key_M | 14 => Key_N | 15 => Key_O
  | 16 => Key_P | 17 => Key_Q | 18 => Key_R | 19 => Key_S | 20 => Key_T
  | 21 => Key_U | 22 => Key_V | 23 => Key_W | 24 => Key_X | 25 => Key_Y
  | 26 => Key_Z | 27 => Key_Num0 | 28 => Key_Num1 | 29 => Key_Num2
  | 30 => Key_Num3 | 31 => Key_Num4 | 32 => Key_Num5 | 33 => Key_Num6
  | 34 => Key_Num7 | 35 => Key_Num8 | 36 => Key_Num9 | 37 => Key_Escape
  | 38 => Key_Enter | 39 => Key_Space | 40 => Key_Backspace | 41 => Key_Tab
  | 42 => Key_Shift | 43 => Key_Ctrl | 44 => Key_Alt | 45 => Key_Left
  | 46 => Key_Right | 47 => Key_Up | 48 => Key_Down | 49 => Key_F1
  | 50 => Key_F2 | 51 => Key_F3 | 52 => Key_F4 | 53 => Key_F5
  | 54 => Key_F6 | 55 => Key_F7 | 56 => Key_F8 | 57 => Key_F9
  | 58 => Key_F10 | 59 => Key_F11 | 60 => Key_F12 | 61 => Key_Count
  | _ => Key_Unknown
  end.

(** [operator==] on [KeyCode] compares the underlying values. *)
Definition KeyCode_eqb (a b : KeyCode) : bool :=
  KeyCode_value a =? KeyCode_value b.

(** [enum class MouseButton] *)
Inductive MouseButton : Type :=
| MouseButton_Unknown
| LeftMouseButton
| RightMouseButton.

(** [static_cast<MouseButton>(v)].  The source only casts [VK_LBUTTON] and
    [VK_RBUTTON], whose values are those of [LeftMouseButton] and
    [RightMouseButton]; 0 is [Unknown]. *)
Definition MouseButton_of_int (v : Z) : MouseButton :=
  if v =? 1 then LeftMouseButton
  else if v =? 2 then RightMouseButton
  else MouseButton_Unknown.

(** [std::unordered_map] built from an initializer list and queried with
    [find]: the first pair with an equal key is the one kept. *)
Fixpoint find {K V : Type} (eqb : K -> K -> bool) (key : K) (m : list (K * V))
  : option V :=
  match m with
  | [] => None
  | (k, v) :: rest => if eqb k key then Some v else find eqb key rest
  end.

(** ['A'] .. ['Z'] are the character codes 65 .. 90. *)
Definition chr (c : ascii) : Z := Z.of_nat (nat_of_ascii c).
Arguments chr c%_char.

(** The [keyMap] of [Win32NativeWindow::ConvertNativeKeyCodes]. *)
Definition keyMap_Convert : list (Z * KeyCode) :=
  [ (chr "A", Key_A); (chr "B", Key_B); (chr "C", Key_C); (chr "D", Key_D);
    (chr "E", Key_E); (chr "F", Key_F); (chr "G", Key_G); (chr "H", Key_H);
    (chr "I", Key_I); (chr "J", Key_J); (chr "K", Key_K); (chr "L", Key_L);
    (chr "M", Key_M); (chr "N", Key_N); (chr "O", Key_O); (chr "P", Key_P);
    (chr "Q", Key_Q); (chr "R", Key_R); (chr "S", Key_S); (chr "T", Key_T);
    (chr "U", Key_U); (chr "V", Key_V); (chr "W", Key_W); (chr "X", Key_X);
    (chr "Y", Key_Y); (chr "Z", Key_Z); (VK_ESCAPE, Key_Escape);
    (VK_RETURN, Key_Enter); (VK_SPACE, Key_Space);
    (VK_BACK, Key_Backspace); (VK_TAB, Key_Tab); (VK_SHIFT, Key_Shift);
    (VK_CONTROL, Key_Ctrl); (VK_MENU, Key_Alt); (VK_LEFT, Key_Left);
    (VK_RIGHT, Key_Right); (VK_UP, Key_Up); (VK_DOWN, Key_Down);
    (VK_F1, Key_F1); (VK_F2, Key_F2); (VK_F3, Key_F3); (VK_F4, Key_F4);
    (VK_F5, Key_F5); (VK_F6, Key_F6); (VK_F7, Key_F7); (VK_F8, Key_F8);
    (VK_F9, Key_F9); (VK_F10, Key_F10); (VK_F11, Key_F11);
    (VK_F12, Key_F12) ].

(** [KeyCode Win32NativeWindow::ConvertNativeKeyCodes(int key)] *)
Definition ConvertNativeKeyCodes (key : Z) : KeyCode :=
  match find Z.eqb key keyMap_Convert with
  | Some code => code
  | None => Key_Unknown
  end.

(** The [keyMap] of [Win32NativeWindow::GetNativeKeyCodes]. *)
Definition keyMap_GetNative : list (KeyCode * Z) :=
  [ (Key_A, chr "A"); (Key_B, chr "B"); (Key_C, chr "C"); (Key_D, chr "D");
    (Key_E, chr "E"); (Key_F, chr "F"); (Key_G, chr "G"); (Key_H, chr "H");
    (Key_I, chr "I"); (Key_J, chr "J"); (Key_K, chr "K"); (Key_L, chr "L");
    (Key_M, chr "M"); (Key_N, chr "N"); (Key_O, chr "O"); (Key_P, chr "P");
    (Key_Q, chr "Q"); (Key_R, chr "R"); (Key_S, chr "S"); (Key_T, chr "T");
    (Key_U, chr "U"); (Key_V, chr "V"); (Key_W, chr "W"); (Key_X, chr "X");
    (Key_Y, chr "Y"); (Key_Z, chr "Z"); (Key_Escape, VK_ESCAPE);
    (Key_Enter, VK_RETURN); (Key_Space, VK_SPACE);
    (Key_Backspace, VK_BACK); (Key_Tab, VK_TAB); (Key_Shift, VK_SHIFT);
    (Key_Ctrl, VK_CONTROL); (Key_Alt, VK_MENU); (Key_Left, VK_LEFT);
    (Key_Right, VK_RIGHT); (Key_Up, VK_UP); (Key_Down, VK_DOWN);
    (Key_F1, VK_F1); (Key_F2, VK_F2); (Key_F3, VK_F3); (Key_F4, VK_F4);
    (Key_F5, VK_F5); (Key_F6, VK_F6); (Key_F7, VK_F7); (Key_F8, VK_F8);
    (Key_F9, VK_F9); (Key_F10, VK_F10); (Key_F11, VK_F11);
    (Key_F12, VK_F12) ].

(** [int Win32NativeWindow::GetNativeKeyCodes(KeyCode code)] *)
Definition GetNativeKeyCodes (code : KeyCode) : Z :=
  match find KeyCode_eqb code keyMap_GetNative with
  | Some key => key
  | None => -1
  end.

(** [struct WindowDescription] *)
Record WindowDescription : Type := mkWindowDescription {
  Title : string;
  Width : Z;
  Height : Z
}.

(** [struct WindowCallbacks].  A [std::function] is empty ([None]) or holds
    client code.  Client code is a transformer of the client's own state
    [Client]; it returns, and it does not reach back into the window that
    invokes it. *)
Record WindowCallbacks (Client : Type) : Type := mkWindowCallbacks {
  WindowResizeCallback : option (Z -> Z -> Client -> Client);
  WindowCloseCallback : option (Client -> bool * Client);
  WindowKeyCallback : option (KeyCode -> bool -> Client -> Client);
  WindowMouseCallback : option (MouseButton -> bool -> Client -> Client);
  WindowMouseMoveCallback : option (Z -> Z -> Client -> Client);
  WindowCharacterCallback : option (Z -> Client -> Client)
}.
Arguments mkWindowCallbacks {Client}.
Arguments WindowResizeCallback {Client}.
Arguments WindowCloseCallback {Client}.
Arguments WindowKeyCallback {Client}.
Arguments WindowMouseCallback {Client}.
Arguments WindowMouseMoveCallback {Client}.
Arguments WindowCharacterCallback {Client}.

Definition no_callbacks {Client : Type} : WindowCallbacks Client :=
  mkWindowCallbacks None None None None None None.

(** [class Win32NativeWindow] (the back pointer [m_Window] is the
    enclosing [Window] below). *)
Record Win32NativeWindow : Type := mkWin32NativeWindow {
  m_WindowHandle : HANDLE;
  m_DeviceContext : HANDLE;
  m_Instance : HANDLE;
  m_OpenGLContext : HANDLE
}.

(** [class Window] *)
Record Window (Client : Type) : Type := mkWindow {
  m_WindowDescription : WindowDescription;
  m_WindowCallbacks : WindowCallbacks Client;
  m_NativeWindow : Win32NativeWindow;
  m_IsRunning : bool
}.
Arguments mkWindow {Client}.
Arguments m_WindowDescription {Client}.
Arguments m_WindowCallbacks {Client}.
Arguments m_NativeWindow {Client}.
Arguments m_IsRunning {Client}.

(** A record of one callback invocation with its arguments, kept as a
    history next to the client state. *)
Inductive Invocation : Type :=
| ResizeInvoked (width height : Z)
| CloseInvoked
| KeyInvoked (key : KeyCode) (action : bool)
| MouseInvoked (button : MouseButton) (action : bool)
| MouseMoveInvoked (x y : Z)
| CharacterInvoked (character : Z).

(** What the window system holds for the process. *)
Record System : Type := mkSystem {
  live_window : bool;          (* the window made by CreateWindowEx exists *)
  user_data : bool;            (* its GWLP_USERDATA points to the native window *)
  current_context : HANDLE;    (* the context last passed to wglMakeCurrent *)
  quit_posted : bool;          (* PostQuitMessage was called *)
  message_boxes : list string; (* captions of the MessageBox dialogs shown *)
  buffer_swaps : nat           (* number of SwapBuffers calls *)
}.

(** The rest of the process next to a [Window]. *)
Record Process (Client : Type) : Type := mkProcess {
  client : Client;
  invoked : list Invocation;
  system : System;
  stdout : list string;        (* lines written by Internal::Logger::Log *)
  registered : bool            (* [static bool registered] of RegisterWindowClass *)
}.
Arguments mkProcess {Client}.
Arguments client {Client}.
Arguments invoked {Client}.
Arguments system {Client}.
Arguments stdout {Client}.
Arguments registered {Client}.

(** Results of the platform calls made while a window and its context are
    created: they are inputs of the model. *)
Record Platform : Type := mkPlatform {
  GetModuleHandle_result : HANDLE;
  RegisterClassEx_ok : bool;
CreateWindowEx_result : HANDLE;
GetDC_result : HANDLE;
wglCreateContext_result : HANDLE;
wglGetProcAddress_result : HANDLE;
LoadLibraryA_result : HANDLE;
GetProcAddress_result : HANDLE;
wglCreateContext_legacy_result : HANDLE;
wglCreateContextAttribsARB_result : HANDLE
}.

(** [LRESULT] of the window procedure: the literal 0, or whatever
    [DefWindowProc] answered. *)
Inductive LRESULT : Type := LRESULT_0 | LRESULT_DefWindowProc.

Section WithClient.
Context {Client : Type}.

Definition set_system (s : System) (p : Process Client) : Process Client :=
  mkProcess (client p) (invoked p) s (stdout p) (registered p).

Definition MessageBox (caption : string) (p : Process Client) : Process Client :=
  set_system
    (mkSystem (live_window (system p)) (user_data (system p))
       (current_context (system p)) (quit_posted (system p))
       (message_boxes (system p) ++ [caption]) (buffer_swaps (system p)))
    p.

Definition wglMakeCurrent (context : HANDLE) (p : Process Client) : Process Client :=
  set_system
    (mkSystem (live_window (system p)) (user_data (system p))
       context (quit_posted (system p)) (message_boxes (system p))
       (buffer_swaps (system p)))
    p.

Definition PostQuitMessage (p : Process Client) : Process Client :=
  set_system
    (mkSystem (live_window (system p)) (user_data (system p))
       (current_context (system p)) true (message_boxes (system p))
       (buffer_swaps (system p)))
    p.

(** [Internal::Logger::Log] *)
Definition Log (message : string) (p : Process Client) : Process Client :=
  mkProcess (client p) (invoked p) (system p) (stdout p ++ [message]) (registered p).

(** Running client code held in a callback slot. *)
Definition invoke (i : Invocation) (f : Client -> Client) (p : Process Client)
  : Process Client :=
  mkProcess (f (client p)) (invoked p ++ [i]) (system p) (stdout p) (registered p).

(** [bool Window::GetIsRunning() const] *)
Definition GetIsRunning (w : Window Client) : bool := m_IsRunning w.

(** [void Window::SetIsRunning(bool value)] *)
Definition SetIsRunning (value : bool) (w : Window Client) : Window Client :=
  mkWindow (m_WindowDescription w) (m_WindowCallbacks w) (m_NativeWindow w) value.

(** [void Window::SetWindowSize(int width, int height)] *)
Definition SetWindowSize (width height : Z) (w : Window Client) : Window Client :=
  mkWindow
    (mkWindowDescription (Title (m_WindowDescription w)) width height)
    (m_WindowCallbacks w) (m_NativeWindow w) (m_IsRunning w).

Definition GetWindowDescription (w : Window Client) : WindowDescription :=
  m_WindowDescription w.

Definition GetWindowCallbacks (w : Window Client) : WindowCallbacks Client :=
  m_WindowCallbacks w.

Definition set_callbacks (c : WindowCallbacks Client) (w : Window Client)
  : Window Client :=
  mkWindow (m_WindowDescription w) c (m_NativeWindow w) (m_IsRunning w).

(** The callback setters: each replaces one slot. *)
Definition SetWindowResizeCallback (cb : Z -> Z -> Client -> Client)
           (w : Window Client) : Window Client :=
  let c := m_WindowCallbacks w in
  set_callbacks
    (mkWindowCallbacks (Some cb) (WindowCloseCallback c) (WindowKeyCallback c)
       (WindowMouseCallback c) (WindowMouseMoveCallback c)
       (WindowCharacterCallback c)) w.

Definition SetWindowCloseCallback (cb : Client -> bool * Client)
           (w : Window Client) : Window Client :=
  let c := m_WindowCallbacks w in
  set_callbacks
    (mkWindowCallbacks (WindowResizeCallback c) (Some cb) (WindowKeyCallback c)
       (WindowMouseCallback c) (WindowMouseMoveCallback c)
       (WindowCharacterCallback c)) w.

Definition SetWindowKeyCallback (cb : KeyCode -> bool -> Client -> Client)
           (w : Window Client) : Window Client :=
  let c := m_WindowCallbacks w in
  set_callbacks
    (mkWindowCallbacks (WindowResizeCallback c) (WindowCloseCallback c) (Some cb)
       (WindowMouseCallback c) (WindowMouseMoveCallback c)
       (WindowCharacterCallback c)) w.

Definition SetWindowMouseCallback (cb : MouseButton -> bool -> Client -> Client)
           (w : Window Client) : Window Client :=
  let c := m_WindowCallbacks w in
  set_callbacks
    (mkWindowCallbacks (WindowResizeCallback c) (WindowCloseCallback c)
       (WindowKeyCallback c) (Some cb) (WindowMouseMoveCallback c)
       (WindowCharacterCallback c)) w.

Definition SetWindowMouseMoveCallback (cb : Z -> Z -> Client -> Client)
           (w : Window Client) : Window Client :=
  let c := m_WindowCallbacks w in
  set_callbacks
    (mkWindowCallbacks (WindowResizeCallback c) (WindowCloseCallback c)
       (WindowKeyCallback c) (WindowMouseCallback c) (Some cb)
       (WindowCharacterCallback c)) w.

Definition SetWindowCharacterCallback (cb : Z -> Client -> Client)
           (w : Window Client) : Window Client :=
  let c := m_WindowCallbacks w in
  set_callbacks
    (mkWindowCallbacks (WindowResizeCallback c) (WindowCloseCallback c)
       (WindowKeyCallback c) (WindowMouseCallback c) (WindowMouseMoveCallback c)
       (Some cb)) w.

(** [LRESULT CALLBACK WindowProc(HWND, UINT uMsg, WPARAM wParam, LPARAM lParam)].
    [GetWindowLongPtr(hwnd, GWLP_USERDATA)] is null as long as the
    constructor has not stored the native window in the user data.
    [DefWindowProc] is the system's default handling; it does not touch
    the [Window] object. *)
Definition WindowProc (m : MSG) (w : Window Client) (p : Process Client)
  : LRESULT * (Window Client * Process Client) :=
  if negb (user_data (system p)) then (LRESULT_DefWindowProc, (w, p))
  else if uMsg m =? WM_CHAR then
    match WindowCharacterCallback (GetWindowCallbacks w) with
    | Some cb =>
        let character := Z.land (wParam m) 255 in
        if character =? 8
        then (LRESULT_DefWindowProc, (w, invoke (CharacterInvoked 8) (cb 8) p))
        else (LRESULT_DefWindowProc,
              (w, invoke (CharacterInvoked character) (cb character) p))
    | None => (LRESULT_DefWindowProc, (w, p))
    end
  else if uMsg m =? WM_SIZE then
    match WindowResizeCallback (GetWindowCallbacks w) with
    | Some cb =>
        let width := LOWORD (lParam m) in
        let height := HIWORD (lParam m) in
        let w' := SetWindowSize width height w in
        (LRESULT_DefWindowProc,
         (w', invoke (ResizeInvoked width height) (cb width height) p))
    | None => (LRESULT_DefWindowProc, (w, p))
    end
  else if (uMsg m =? WM_KEYDOWN) || (uMsg m =? WM_KEYUP) then
    match WindowKeyCallback (GetWindowCallbacks w) with
    | Some cb =>
        let key := ConvertNativeKeyCodes (wrap_int (wParam m)) in
        let isPressed := uMsg m =? WM_KEYDOWN in
        (LRESULT_DefWindowProc,
         (w, invoke (KeyInvoked key isPressed) (cb key isPressed) p))
    | None => (LRESULT_DefWindowProc, (w, p))
    end
  else if (uMsg m =? WM_LBUTTONDOWN) || (uMsg m =? WM_LBUTTONUP) then
    match WindowMouseCallback (GetWindowCallbacks w) with
    | Some cb =>
        let button := MouseButton_of_int VK_LBUTTON in
        let isPressed := uMsg m =? WM_LBUTTONDOWN in
        (LRESULT_DefWindowProc,
         (w, invoke (MouseInvoked button isPressed) (cb button isPressed) p))
    | None => (LRESULT_DefWindowProc, (w, p))
    end
  else if (uMsg m =? WM_RBUTTONDOWN) || (uMsg m =? WM_RBUTTONUP) then
    match WindowMouseCallback (GetWindowCallbacks w) with
    | Some cb =>
        let button := MouseButton_of_int VK_RBUTTON in
        let isPressed := uMsg m =? WM_LBUTTONDOWN in
        (LRESULT_DefWindowProc,
         (w, invoke (MouseInvoked button isPressed) (cb button isPressed) p))
    | None => (LRESULT_DefWindowProc, (w, p))
    end
  else if uMsg m =? WM_MOUSEMOVE then
    match WindowMouseMoveCallback (GetWindowCallbacks w) with
    | Some cb =>
        let mouseX := LOWORD (lParam m) in
        let mouseY := HIWORD (lParam m) in
        (LRESULT_DefWindowProc,
         (w, invoke (MouseMoveInvoked mouseX mouseY) (cb mouseX mouseY) p))
    | None => (LRESULT_DefWindowProc, (w, p))
    end
  else if uMsg m =? WM_CLOSE then
    match WindowCloseCallback (GetWindowCallbacks w) with
    | Some cb =>
        let p' := invoke CloseInvoked (fun c => snd (cb c)) p in
        if fst (cb (client p))
        then (LRESULT_0, (SetIsRunning false w, p'))
        else (LRESULT_0, (w, p'))
    | None => (LRESULT_0, (SetIsRunning false w, p))
    end
  else if uMsg m =? WM_DESTROY then
    (LRESULT_0, (w, PostQuitMessage p))
  else (LRESULT_DefWindowProc, (w, p)).

(** Delivering a batch of messages to the window procedure, in order. *)
Definition dispatch (ms : list MSG) (w : Window Client) (p : Process Client)
  : Window Client * Process Client :=
  fold_left (fun wp m => snd (WindowProc m (fst wp) (snd wp))) ms (w, p).

Definition set_native (n : Win32NativeWindow) (w : Window Client) : Window Client :=
  mkWindow (m_WindowDescription w) (m_WindowCallbacks w) n (m_IsRunning w).

(** [void Win32NativeWindow::RegisterWindowClass(HINSTANCE)] *)
Definition RegisterWindowClass (pf : Platform) (p : Process Client)
  : Process Client :=
  if registered p then p
  else
    let p1 := if RegisterClassEx_ok pf then p else MessageBox "Error" p in
    mkProcess (client p1) (invoked p1) (system p1) (stdout p1) true.

(** [Win32NativeWindow::Win32NativeWindow(const WindowPtr& window)].
    [uninit] is the indeterminate content the members have before the
    constructor body assigns them.  Title and size of the description
    only shape the system's window.  Messages the system sends while the
    window is being made and shown find every callback slot empty. *)
Definition Win32NativeWindow_new (pf : Platform) (uninit : Win32NativeWindow)
           (p : Process Client) : Win32NativeWindow * Process Client :=
  let instance := GetModuleHandle_result pf in
  let p1 := RegisterWindowClass pf p in
  let handle := CreateWindowEx_result pf in
  if handle =? 0 then
    (mkWin32NativeWindow handle (m_DeviceContext uninit) instance
       (m_OpenGLContext uninit),
     MessageBox "CreateWindowEx Failed" p1)
  else
    (mkWin32NativeWindow handle (GetDC_result pf) instance (m_OpenGLContext uninit),
     set_system
       (mkSystem true true (current_context (system p1))
          (quit_posted (system p1)) (message_boxes (system p1))
          (buffer_swaps (system p1)))
       p1).

(** [void* Win32NativeWindow::GetExternalAddress(const char* name)] *)
Definition GetExternalAddress (pf : Platform) : HANDLE :=
  let proc := wglGetProcAddress_result pf in
  if proc =? 0 then
    if negb (LoadLibraryA_result pf =? 0) then GetProcAddress_result pf else proc
  else proc.

(** [void Win32NativeWindow::CreateContext(int major, int minor, bool legacy)] *)
Definition Native_CreateContext (pf : Platform) (major minor : Z) (legacy : bool)
           (n : Win32NativeWindow) (p : Process Client)
  : Win32NativeWindow * Process Client :=
  let tempContext := wglCreateContext_result pf in
  let p1 := wglMakeCurrent tempContext p in
  if GetExternalAddress pf =? 0 then
    (n, MessageBox "Context Creation Failed" p1)
  else
    let glContext :=
      if legacy then wglCreateContext_legacy_result pf
      else wglCreateContextAttribsARB_result pf in
    if glContext =? 0 then
      (n, wglMakeCurrent 0 (MessageBox "Error Creating Context" p1))
    else
      (mkWin32NativeWindow (m_WindowHandle n) (m_DeviceContext n) (m_Instance n)
         glContext,
       wglMakeCurrent glContext (wglMakeCurrent 0 p1)).

(** [DestroyWindow(hwnd)]: the system sends WM_DESTROY and then
    WM_NCDESTROY to the window procedure of a window that exists, and
    the window is gone afterwards. *)
Definition DestroyWindow (hwnd : HANDLE) (w : Window Client) (p : Process Client)
  : Window Client * Process Client :=
  if live_window (system p) && negb (hwnd =? 0) then
    let wp := dispatch [mkMSG WM_DESTROY 0 0; mkMSG WM_NCDESTROY 0 0] w p in
    (fst wp,
     set_system
       (mkSystem false false (current_context (system (snd wp)))
          (quit_posted (system (snd wp))) (message_boxes (system (snd wp)))
          (buffer_swaps (system (snd wp))))
       (snd wp))
  else (w, p).

(** [void Win32NativeWindow::Destroy()]; deleting the context, releasing
    the device context and unregistering the class leave no trace in the
    modelled state. *)
Definition Native_Destroy (w : Window Client) (p : Process Client)
  : Window Client * Process Client :=
  let p1 := wglMakeCurrent 0 p in
  DestroyWindow (m_WindowHandle (m_NativeWindow w)) w p1.

(** [void Win32NativeWindow::PollEvents()]; [queue] is what [PeekMessage]
    hands out until the queue is empty. *)
Definition Native_PollEvents (queue : list MSG) (w : Window Client)
           (p : Process Client) : Window Client * Process Client :=
  dispatch queue w p.

(** [void Win32NativeWindow::RefreshScreen()] *)
Definition RefreshScreen (p : Process Client) : Process Client :=
  set_system
    (mkSystem (live_window (system p)) (user_data (system p))
       (current_context (system p)) (quit_posted (system p))
       (message_boxes (system p)) (S (buffer_swaps (system p))))
    p.

(** [bool Win32NativeWindow::IsKeyDown(KeyCode code)]; [key_state] is
    [GetAsyncKeyState], a [SHORT] converted to [bool]. *)
Definition IsKeyDown (key_state : Z -> Z) (code : KeyCode) : bool :=
  let nativeCode := GetNativeKeyCodes code in
  negb (key_state nativeCode =? 0).

(** [WindowPtr Window::Create(const WindowDescription& description)] *)
Definition Create (description : WindowDescription) (pf : Platform)
           (uninit : Win32NativeWindow) (p : Process Client)
  : Window Client * Process Client :=
  let np := Win32NativeWindow_new pf uninit p in
  (mkWindow description no_callbacks (fst np) true,
   Log "Created Window" (snd np)).

(** [void Window::Destroy() const] *)
Definition Destroy (w : Window Client) (p : Process Client)
  : Window Client * Process Client :=
  let wp := Native_Destroy w p in
  (fst wp, Log "Destroyed Window" (snd wp)).

(** [void Window::CreateContext(int major, int minor, bool legacy) const] *)
Definition CreateContext (pf : Platform) (major minor : Z) (legacy : bool)
           (w : Window Client) (p : Process Client)
  : Window Client * Process Client :=
  let np := Native_CreateContext pf major minor legacy (m_NativeWindow w) p in
  (set_native (fst np) w, snd np).

(** [void Window::PollEvents() const] *)
Definition PollEvents (queue : list MSG) (w : Window Client) (p : Process Client)
  : Window Client * Process Client :=
  Native_PollEvents queue w p.

(** [void Window::SwapBuffers() const] *)
Definition SwapBuffers (p : Process Client) : Process Client := RefreshScreen p.

(** [bool Window::GetIsKeyDown(KeyCode code)] *)
Definition GetIsKeyDown (key_state : Z -> Z) (code : KeyCode) : bool :=
  IsKeyDown key_state code.

End WithClient.

End Swindow.

(** ** Sengine/Applicatiom: Window.{h,cpp}, ISengineApp.h, Application.{h,cpp} *)

Module Sengine.
Import Win32.

(** Result of code that dereferences smart pointers and runs the tick loop
    over a finite supply of input. *)
Inductive outcome (A : Type) : Type :=
| Done (a : A)
| NullDereference   (* [->] applied to an empty [shared_ptr] *)
| Starved.          (* the supplied frames ran out with the loop still running *)
Arguments Done {A} a.
Arguments NullDereference {A}.
Arguments Starved {A}.

Definition bind {A B : Type} (o : outcome A) (k : A -> outcome B) : outcome B :=
  match o with
  | Done a => k a
  | NullDereference => NullDereference
  | Starved => Starved
  end.

Notation "x <- c ;; k" := (bind c (fun x => k))
  (at level 61, c at next level, right associativity).

Definition deref {A : Type} (ptr : option A) : outcome A :=
  match ptr with
  | Some a => Done a
  | None => NullDereference
  end.

(** [struct WindowDescription : Swindow::WindowDescription {}] *)
Definition WindowDescription : Type := Swindow.WindowDescription.

(** [class Window]: its only member is
    [std::shared_ptr<Swindow::Window> m_NativeWindow]. *)
Record Window (Client : Type) : Type := mkWindow {
  m_NativeWindow : option (Swindow.Window Client)
}.
Arguments mkWindow {Client}.
Arguments m_NativeWindow {Client}.

(** [class ISengineApp]: the hooks of the client application, acting on
    the client's own state. *)
Class ISengineApp (App : Type) : Type := {
  GetWindowDescription : App -> WindowDescription;
  OnEarlyInit : App -> bool * App;
  OnInit : App -> bool * App;
  OnTick : App -> App;
  OnDestroy : App -> App;
  OnLateDestroy : App -> App
}.

(** The calls the driver makes, in the order it makes them. *)
Inductive Step : Type :=
| CalledOnEarlyInit
| CalledWindowCreate
| CalledOnInit
| CalledPollEvents
| CalledOnTick
| CalledSwapBuffers
| CalledOnDestroy
| CalledWindowDestroy
| CalledOnLateDestroy.

(** The steps one pass through the body of the tick loop may add. *)
Definition tick_step (s : Step) : bool :=
  match s with
  | CalledPollEvents | CalledOnTick | CalledSwapBuffers => true
  | _ => false
  end.

(** [class Application], together with the process around it and the
    history of the calls made so far. *)
Record Application (App Client : Type) : Type := mkApplication {
  m_ClientApp : option App;
  m_Window : option (Window Client);
  process : Swindow.Process Client;
  history : list Step
}.
Arguments mkApplication {App Client}.
Arguments m_ClientApp {App Client}.
Arguments m_Window {App Client}.
Arguments process {App Client}.
Arguments history {App Client}.

(** What one pass of the tick loop reads from the platform: the queued
    messages, and the key states [GetAsyncKeyState] reports. *)
Record Frame : Type := mkFrame {
  queue : list MSG;
  key_state : Z -> Z
}.

(** Which [return] statement of [Application::Init] was taken. *)
Inductive InitReturn : Type :=
| EarlyInit_false   (* if (!m_ClientApp->OnEarlyInit()) return false; *)
| Create_null       (* if (!m_Window->Create(...)) return false; *)
| OnInit_false      (* if (!m_ClientApp->OnInit()) return false; *)
| Init_true.        (* return true; *)

Definition Init_value (r : InitReturn) : bool :=
  match r with
  | Init_true => true
  | _ => false
  end.

Section WithClient.
Context {Client : Type}.

(** [std::shared_ptr<Window> Window::Create(const WindowDescription&)].
    A member function: it fills [m_NativeWindow] of the object it is
    called on and returns a pointer to a new, default-constructed
    [Window].  The first component is that pointer ([None] would be the
    empty pointer), the second the object and the process afterwards. *)
Definition Create (description : WindowDescription) (pf : Swindow.Platform)
           (uninit : Swindow.Win32NativeWindow)
           (this : Window Client) (p : Swindow.Process Client)
  : option (Window Client) * (Window Client * Swindow.Process Client) :=
  let wp := Swindow.Create description pf uninit p in
  let wp' := Swindow.CreateContext pf 4 6 false (fst wp) (snd wp) in
  (Some (mkWindow None), (mkWindow (Some (fst wp')), snd wp')).

(** [void Window::Destroy() const] *)
Definition Destroy (this : Window Client) (p : Swindow.Process Client)
  : outcome (Window Client * Swindow.Process Client) :=
  native <- deref (m_NativeWindow this) ;;
  let wp := Swindow.Destroy native p in
  Done (mkWindow (Some (fst wp)), snd wp).

(** [bool Window::GetIsRunning() const] *)
Definition GetIsRunning (this : Window Client) : outcome bool :=
  native <- deref (m_NativeWindow this) ;;
  Done (Swindow.GetIsRunning native).

(** [void Window::SetIsRunning(bool value) const] *)
Definition SetIsRunning (value : bool) (this : Window Client)
  : outcome (Window Client) :=
  native <- deref (m_NativeWindow this) ;;
  Done (mkWindow (Some (Swindow.SetIsRunning value native))).

(** [void Window::PollEvents() const] *)
Definition PollEvents (queue : list MSG) (this : Window Client)
           (p : Swindow.Process Client)
  : outcome (Window Client * Swindow.Process Client) :=
  native <- deref (m_NativeWindow this) ;;
  let wp := Swindow.PollEvents queue native p in
  Done (mkWindow (Some (fst wp)), snd wp).

(** [void Window::SwapBuffers() const] *)
Definition SwapBuffers (this : Window Client) (p : Swindow.Process Client)
  : outcome (Swindow.Process Client) :=
  native <- deref (m_NativeWindow this) ;;
  Done (Swindow.SwapBuffers p).

(** [bool Window::GetIsKeyDown(Swindow::KeyCode code) const] *)
Definition GetIsKeyDown (key_state : Z -> Z) (code : Swindow.KeyCode)
           (this : Window Client) : outcome bool :=
  native <- deref (m_NativeWindow this) ;;
  Done (Swindow.GetIsKeyDown key_state code).

Section WithApp.
Context {App : Type} `{ISengineApp App}.

Definition note (s : Step) (a : Application App Client) : Application App Client :=
  mkApplication (m_ClientApp a) (m_Window a) (process a) (history a ++ [s]).

Definition set_ClientApp (app : App) (a : Application App Client) : Application App Client :=
  mkApplication (Some app) (m_Window a) (process a) (history a).

Definition set_Window (w : Window Client) (a : Application App Client) : Application App Client :=
  mkApplication (m_ClientApp a) (Some w) (process a) (history a).

Definition set_process (p : Swindow.Process Client) (a : Application App Client)
  : Application App Client :=
  mkApplication (m_ClientApp a) (m_Window a) p (history a).

(** [bool Application::Init()], returning which [return] was taken. *)
Definition Init (pf : Swindow.Platform) (uninit : Swindow.Win32NativeWindow)
           (a : Application App Client) : outcome (InitReturn * Application App Client) :=
  app <- deref (m_ClientApp a) ;;
  let early := OnEarlyInit app in
  let a1 := note CalledOnEarlyInit (set_ClientApp (snd early) a) in
  if negb (fst early) then Done (EarlyInit_false, a1)
  else
    let a2 := set_Window (mkWindow None) a1 in
    this <- deref (m_Window a2) ;;
    app2 <- deref (m_ClientApp a2) ;;
    let created := Create (GetWindowDescription app2) pf uninit this (process a2) in
    let a3 :=
      note CalledWindowCreate
        (set_process (snd (snd created)) (set_Window (fst (snd created)) a2)) in
    match fst created with
    | None => Done (Create_null, a3)
    | Some _ =>
        app3 <- deref (m_ClientApp a3) ;;
        let init := OnInit app3 in
        let a4 := note CalledOnInit (set_ClientApp (snd init) a3) in
        if negb (fst init) then Done (OnInit_false, a4)
        else Done (Init_true, a4)
    end.

(** The body of the [while] loop of [Application::Tick]. *)
Definition Tick_body (f : Frame) (a : Application App Client) : outcome (Application App Client) :=
  w <- deref (m_Window a) ;;
  polled <- PollEvents (queue f) w (process a) ;;
  let a1 := note CalledPollEvents
              (set_process (snd polled) (set_Window (fst polled) a)) in
  w1 <- deref (m_Window a1) ;;
  escape <- GetIsKeyDown (key_state f) Swindow.Key_Escape w1 ;;
  a2 <- (if escape
         then w2 <- SetIsRunning false w1 ;; Done (set_Window w2 a1)
         else Done a1) ;;
  app <- deref (m_ClientApp a2) ;;
  let a3 := note CalledOnTick (set_ClientApp (OnTick app) a2) in
  w3 <- deref (m_Window a3) ;;
  p4 <- SwapBuffers w3 (process a3) ;;
  Done (note CalledSwapBuffers (set_process p4 a3)).

(** [void Application::Tick()]: one [Frame] is consumed per pass. *)
Fixpoint Tick (frames : list Frame) (a : Application App Client) : outcome (Application App Client) :=
  w <- deref (m_Window a) ;;
  running <- GetIsRunning w ;;
  if running then
    match frames with
    | [] => Starved
    | f :: rest => a' <- Tick_body f a ;; Tick rest a'
    end
  else Done a.

(** [void Application::Destroy()] *)
Definition App_Destroy (a : Application App Client) : outcome (Application App Client) :=
  app <- deref (m_ClientApp a) ;;
  let a1 := note CalledOnDestroy (set_ClientApp (OnDestroy app) a) in
  w <- deref (m_Window a1) ;;
  destroyed <- Destroy w (process a1) ;;
  let a2 := note CalledWindowDestroy
              (set_process (snd destroyed) (set_Window (fst destroyed) a1)) in
  app2 <- deref (m_ClientApp a2) ;;
  Done (note CalledOnLateDestroy (set_ClientApp (OnLateDestroy app2) a2)).

(** [void Application::CreateApplication(const std::shared_ptr<ISengineApp>& app)]
    called with a pointer that holds a client application.  The call with
    any pointer, the empty one included, is [CreateApplication_shared_ptr]
    below. *)
Definition CreateApplication (app : App) (pf : Swindow.Platform)
           (uninit : Swindow.Win32NativeWindow) (frames : list Frame)
           (a : Application App Client) : outcome (Application App Client) :=
  let a0 := set_ClientApp app a in
  init <- Init pf uninit a0 ;;
  if negb (Init_value (fst init)) then Done (snd init)
  else
    a1 <- Tick frames (snd init) ;;
    App_Destroy a1.

(** A driver object before [CreateApplication] is called on it. *)
Definition fresh (p : Swindow.Process Client) : Application App Client :=
  mkApplication None None p [].

(** [void Application::CreateApplication(const std::shared_ptr<ISengineApp>& app)]
    with the argument as the source takes it: a shared pointer, which may be
    empty ([None]).  [m_ClientApp = app] stores it as it is. *)
Definition CreateApplication_shared_ptr (app : option App) (pf : Swindow.Platform)
           (uninit : Swindow.Win32NativeWindow) (frames : list Frame)
           (a : Application App Client) : outcome (Application App Client) :=
  let a0 := mkApplication app (m_Window a) (process a) (history a) in
  init <- Init pf uninit a0 ;;
  if negb (Init_value (fst init)) then Done (snd init)
  else
    a1 <- Tick frames (snd init) ;;
    App_Destroy a1.

End WithApp.
End WithClient.

Definition init_return {A : Type} (o : outcome (InitReturn * A)) : option InitReturn :=
  match o with
  | Done r => Some (fst r)
  | _ => None
  end.

(** Whether [Init] left through the [return false] that follows
    [m_Window->Create]. *)
Definition took_Create_null {A : Type} (o : outcome (InitReturn * A)) : bool :=
  match init_return o with
  | Some Create_null => true
  | _ => false
  end.

(** The driver after a successful [Init]: client application and window are
    set, and the window holds its native window. *)
Definition ready {App Client : Type} (a : Application App Client) : Prop :=
  exists (app : App) (w : Swindow.Window Client),
    m_ClientApp a = Some app /\ m_Window a = Some (mkWindow (Some w)).

Definition is_running {App Client : Type} (a : Application App Client) : bool :=
  match m_Window a with
  | Some (mkWindow (Some w)) => Swindow.GetIsRunning w
  | _ => false
  end.

(** The Escape key is reported down in this frame. *)
Definition escape_down (f : Frame) : bool :=
  negb (key_state f VK_ESCAPE =? 0).

End Sengine.

(** ** Sample data used to exercise the model *)

Module Sample.
Import Win32.

(** A client that counts how often it was called back and refuses to close. *)
Definition count_resize (width height : Z) (n : nat) : nat := S n.
Definition count_mouse (b : Swindow.MouseButton) (action : bool) (n : nat) : nat := S n.
Definition refuse_close (n : nat) : bool * nat := (false, S n).
Definition accept_close (n : nat) : bool * nat := (true, S n).

Definition description : Swindow.WindowDescription :=
  Swindow.mkWindowDescription "Test" 800 600.

(** The window the system has after a successful creation. *)
Definition running_system : Swindow.System :=
  Swindow.mkSystem true true 3 false [] 0.

Definition process : Swindow.Process nat :=
  Swindow.mkProcess 0%nat [] running_system [] true.

Definition native : Swindow.Win32NativeWindow :=
  Swindow.mkWin32NativeWindow 1 2 4 3.

Definition window : Swindow.Window nat :=
  Swindow.mkWindow description Swindow.no_callbacks native true.

(** Platform results: everything succeeds, and window creation failing. *)
Definition platform_ok : Swindow.Platform :=
  Swindow.mkPlatform 4 true 1 2 5 6 0 0 7 3.

Definition platform_no_window : Swindow.Platform :=
  Swindow.mkPlatform 4 true 0 0 0 0 0 0 0 0.

(** A process in which no window has been made yet. *)
Definition boot : Swindow.Process nat :=
  Swindow.mkProcess 0%nat [] (Swindow.mkSystem false false 0 false [] 0) [] false.

(** A client application whose hooks succeed and count their calls. *)
Definition counting_app : Sengine.ISengineApp nat := {|
  Sengine.GetWindowDescription := fun _ => description;
  Sengine.OnEarlyInit := fun n => (true, S n);
  Sengine.OnInit := fun n => (true, S n);
  Sengine.OnTick := S;
  Sengine.OnDestroy := S;
  Sengine.OnLateDestroy := S
|}.

(** A client application whose [OnInit] fails. *)
Definition failing_app : Sengine.ISengineApp nat := {|
  Sengine.GetWindowDescription := fun _ => description;
  Sengine.OnEarlyInit := fun n => (true, S n);
  Sengine.OnInit := fun n => (false, S n);
  Sengine.OnTick := S;
  Sengine.OnDestroy := S;
  Sengine.OnLateDestroy := S
|}.

Definition no_keys (vk : Z) : Z := 0.
Definition escape_held (vk : Z) : Z := if vk =? VK_ESCAPE then -32768 else 0.

End Sample.

(** ** Sengine/Render/Renderer.{h,cpp}: the renderer facade *)

Module Renderer.

(** [struct Camera2D {}] and [struct Camera3D {}] have no members. *)
Definition Camera2D : Type := unit.
Definition Camera3D : Type := unit.

(** [void Renderer::BeginRender2D(const Camera2D& camera)] *)
Definition BeginRender2D (camera : Camera2D) (p : Renderer2D.Process)
  : exec Renderer2D.Process :=
  Renderer2D.BeginRender p.

(** [void Renderer::EndRender2D()] *)
Definition EndRender2D (p : Renderer2D.Process) : exec Renderer2D.Process :=
  Renderer2D.EndRender p.

(** [void Renderer::Draw2D()] *)
Definition Draw2D (p : Renderer2D.Process) : exec Renderer2D.Process :=
  Renderer2D.DrawQuad p.

(** [void Renderer::BeginRender3D(const Camera3D& camera)]: empty body. *)
Definition BeginRender3D (camera : Camera3D) (p : Renderer2D.Process)
  : exec Renderer2D.Process :=
  Returns p.

(** [void Renderer::EndRenderer()]: empty body. *)
Definition EndRenderer (p : Renderer2D.Process) : exec Renderer2D.Process :=
  Returns p.

(** The calls a client can make through the facade. *)
Inductive Call : Type :=
| CallBeginRender2D
| CallEndRender2D
| CallDraw2D
| CallBeginRender3D
| CallEndRenderer.

Definition call (c : Call) : Renderer2D.Process -> exec Renderer2D.Process :=
  match c with
  | CallBeginRender2D => BeginRender2D tt
  | CallEndRender2D => EndRender2D
  | CallDraw2D => Draw2D
  | CallBeginRender3D => BeginRender3D tt
  | CallEndRenderer => EndRenderer
  end.

Fixpoint run (calls : list Call) (p : Renderer2D.Process) : exec Renderer2D.Process :=
  match calls with
  | [] => Returns p
  | c :: rest =>
      match call c p with
      | Aborts p' => Aborts p'
      | Returns p' => run rest p'
      end
  end.

(** The 2D calls among facade calls, as calls of [Renderer2D]. *)
Fixpoint calls_2D (calls : list Call) : list Renderer2D.Call :=
  match calls with
  | [] => []
  | CallBeginRender2D :: rest => Renderer2D.CallBeginRender :: calls_2D rest
  | CallEndRender2D :: rest => Renderer2D.CallEndRender :: calls_2D rest
  | CallDraw2D :: rest => Renderer2D.CallDrawQuad :: calls_2D rest
  | CallBeginRender3D :: rest => calls_2D rest
  | CallEndRenderer :: rest => calls_2D rest
  end.

(** The ordering discipline, written down independently of the guard: a
    BeginRender needs no pass open, a DrawQuad needs one open, an EndRender
    is always allowed and closes the pass. *)
Fixpoint ordered_from (begun : bool) (calls : list Renderer2D.Call) : bool :=
  match calls with
  | [] => true
  | Renderer2D.CallBeginRender :: rest => negb begun && ordered_from true rest
  | Renderer2D.CallDrawQuad :: rest => begun && ordered_from begun rest
  | Renderer2D.CallEndRender :: rest => ordered_from false rest
  end.

Definition ordered (calls : list Renderer2D.Call) : bool := ordered_from false calls.

(** One bracket with [k] draws in it. *)
Definition bracket_of (k : nat) : list Renderer2D.Call :=
  Renderer2D.CallBeginRender :: repeat Renderer2D.CallDrawQuad k
    ++ [Renderer2D.CallEndRender].

(** [old] is an initial part of [new]: the log only ever grows at its end. *)
Definition extends (old new : string) : Prop :=
  exists added : string, new = (old ++ added)%string.

End Renderer.

(** ** Editor/src/Main.cpp: the editor's tick *)

Module SengineEditor.

(** OpenGL commands issued by the editor; the float arguments of
    [glClearColor] are kept as the literals of the source. *)
Inductive GLCommand : Type :=
| glClear (mask : Z)
| glClearColor (red green blue alpha : string).

Definition GL_DEPTH_BUFFER_BIT : Z := 256.     (* 0x00000100 *)
Definition GL_COLOR_BUFFER_BIT : Z := 16384.   (* 0x00004000 *)

(** What [Editor::OnTick] acts on: the commands sent to the GL context so
    far and the process state of the renderer. *)
Record Frame : Type := mkFrame {
  gl : list GLCommand;
  renderer : Renderer2D.Process
}.

Definition with_renderer (f : Frame) (r : exec Renderer2D.Process) : exec Frame :=
  match r with
  | Returns p => Returns (mkFrame (gl f) p)
  | Aborts p => Aborts (mkFrame (gl f) p)
  end.

Definition then_ (r : exec Frame) (k : Frame -> exec Frame) : exec Frame :=
  match r with
  | Returns f => k f
  | Aborts f => Aborts f
  end.

(** [void Editor::OnTick()] *)
Definition OnTick (f : Frame) : exec Frame :=
  let f1 := mkFrame (gl f ++ [glClear (Z.lor GL_DEPTH_BUFFER_BIT GL_COLOR_BUFFER_BIT)])
              (renderer f) in
  let f2 := mkFrame (gl f1 ++ [glClearColor "0.25f" "0.6f" "0.75f" "1.0f"])
              (renderer f1) in
  then_ (with_renderer f2 (Renderer.BeginRender2D tt (renderer f2))) (fun f3 =>
  then_ (with_renderer f3 (Renderer.Draw2D (renderer f3))) (fun f4 =>
  with_renderer f4 (Renderer.EndRender2D (renderer f4)))).

(** [n] ticks in a row, as the tick loop makes them. *)
Fixpoint ticks (n : nat) (f : Frame) : exec Frame :=
  match n with
  | O => Returns f
  | S n' => then_ (OnTick f) (ticks n')
  end.

End SengineEditor.

(** ** Swindow.h, SW_IMGUI_IMPLEMENTATION: the callbacks of the ImGui backend *)

Module SwindowImGui.

(** The members of [ImGuiIO] the installed callbacks write.  Arrays are
    maps from index to element.  [MousePos] holds the integers the callback
    converts to [float]; the window procedure only passes values from 0 to
    65535, which the conversion represents exactly.  [InputCharacters]
    lists the arguments [AddInputCharacter(unsigned int)] was called with, in
    order. *)
Record ImGuiIO : Type := mkImGuiIO {
  MousePos : Z * Z;
  MouseDown : Z -> bool;
  KeysDown : Z -> bool;
  InputCharacters : list Z
}.

(** [array[i] = v] *)
Definition store (array : Z -> bool) (i : Z) (v : bool) : Z -> bool :=
  fun j => if j =? i then v else array j.

(** [static int ConvertKeyCode(Swindow::KeyCode code)] *)
Definition ConvertKeyCode (code : Swindow.KeyCode) : Z := Swindow.KeyCode_value code.

(** [static_cast<int>(button)] *)
Definition MouseButton_value (button : Swindow.MouseButton) : Z :=
  match button with
  | Swindow.MouseButton_Unknown => 0
  | Swindow.LeftMouseButton => 1
  | Swindow.RightMouseButton => 2
  end.

Definition MouseButton_eqb (a b : Swindow.MouseButton) : bool :=
  MouseButton_value a =? MouseButton_value b.

Section Backend.
(** [IM_ARRAYSIZE(io.KeysDown)], fixed by the ImGui headers. *)
Variable KeysDown_size : Z.

(** The lambda given to [SetWindowMouseMoveCallback]. *)
Definition on_mouse_move (x y : Z) (io : ImGuiIO) : ImGuiIO :=
  mkImGuiIO (x, y) (MouseDown io) (KeysDown io) (InputCharacters io).

(** The lambda given to [SetWindowMouseCallback]. *)
Definition on_mouse_button (button : Swindow.MouseButton) (isPressed : bool)
           (io : ImGuiIO) : ImGuiIO :=
  let io1 :=
    if MouseButton_eqb button Swindow.LeftMouseButton
    then mkImGuiIO (MousePos io)
           (store (MouseDown io) 0 (negb (MouseButton_value button =? 0) && isPressed))
           (KeysDown io) (InputCharacters io)
    else io in
  if MouseButton_eqb button Swindow.RightMouseButton
  then mkImGuiIO (MousePos io1)
         (store (MouseDown io1) 1 (negb (MouseButton_value button =? 0) && isPressed))
         (KeysDown io1) (InputCharacters io1)
  else io1.

(** The implicit conversion of a [char], given by its byte, to the
    [unsigned int] parameter of [AddInputCharacter].  [char] is signed on the
    targets of the Win32 code (MSVC, x86/x64): a byte of 128 or more is a
    negative [char], and converting it to [unsigned int] adds 2^32. *)
Definition char_to_unsigned_int (character : Z) : Z :=
  if character <? 128 then character else character - 256 + 2 ^ 32.

(** The lambda given to [SetWindowCharacterCallback]. *)
Definition on_character (character : Z) (io : ImGuiIO) : ImGuiIO :=
  mkImGuiIO (MousePos io) (MouseDown io) (KeysDown io)
    (InputCharacters io ++ [char_to_unsigned_int character]).

(** The lambda given to [SetWindowKeyCallback]. *)
Definition on_key (key : Swindow.KeyCode) (isPressed : bool) (io : ImGuiIO) : ImGuiIO :=
  let imguiKey := ConvertKeyCode key in
  if (0 <=? imguiKey) && (imguiKey <? KeysDown_size)
  then mkImGuiIO (MousePos io) (MouseDown io) (store (KeysDown io) imguiKey isPressed)
         (InputCharacters io)
  else io.

(** The [if (install_callbacks)] block of [ImGui_ImplSwindow_Init]. *)
Definition install (install_callbacks : bool) (w : Swindow.Window ImGuiIO)
  : Swindow.Window ImGuiIO :=
  if install_callbacks then
    Swindow.SetWindowKeyCallback on_key
      (Swindow.SetWindowCharacterCallback on_character
         (Swindow.SetWindowMouseCallback on_mouse_button
            (Swindow.SetWindowMouseMoveCallback on_mouse_move w)))
  else w.

End Backend.

End SwindowImGui.

(** ** Sample data for the ImGui backend *)

Module SampleImGui.

Definition io : SwindowImGui.ImGuiIO :=
  SwindowImGui.mkImGuiIO (0, 0) (fun _ => false) (fun _ => false) [].

End SampleImGui.

(** ** Key codes without a native code *)

Module Keys.

(** The enumerators that occur in neither key table: [Unknown], the number
    keys and [Count]. *)
Definition unmapped (k : Swindow.KeyCode) : bool :=
  match k with
  | Swindow.Key_Unknown
  | Swindow.Key_Num0 | Swindow.Key_Num1 | Swindow.Key_Num2 | Swindow.Key_Num3
  | Swindow.Key_Num4 | Swindow.Key_Num5 | Swindow.Key_Num6 | Swindow.Key_Num7
  | Swindow.Key_Num8 | Swindow.Key_Num9 | Swindow.Key_Count => true
  | _ => false
  end.

End Keys.

(** ** Invariants of the driver *)

Module Engine.

(** The engine's window after a successful native creation: the driver is
    ready, the window procedure finds its window, and no callback is
    registered (the engine's [Window] offers no way to register one). *)
Definition attached {App Client : Type} (a : Sengine.Application App Client) : Prop :=
  exists (app : App) (w : Swindow.Window Client),
    Sengine.m_ClientApp a = Some app
    /\ Sengine.m_Window a = Some (Sengine.mkWindow (Some w))
    /\ Swindow.m_WindowCallbacks w = Swindow.no_callbacks
    /\ Swindow.m_WindowHandle (Swindow.m_NativeWindow w) <> 0
    /\ Swindow.live_window (Swindow.system (Sengine.process a)) = true
    /\ Swindow.user_data (Swindow.system (Sengine.process a)) = true.

(** The engine's window when the native creation failed: as above, but the
    window procedure never finds a window. *)
Definition detached {App Client : Type} (a : Sengine.Application App Client) : Prop :=
  exists (app : App) (w : Swindow.Window Client),
    Sengine.m_ClientApp a = Some app
    /\ Sengine.m_Window a = Some (Sengine.mkWindow (Some w))
    /\ Swindow.user_data (Swindow.system (Sengine.process a)) = false.

(** A close request, respectively a destroy message, is among the messages. *)
Definition has_close (ms : list Win32.MSG) : bool :=
  existsb (fun m => Win32.uMsg m =? Win32.WM_CLOSE) ms.

Definition has_destroy (ms : list Win32.MSG) : bool :=
  existsb (fun m => Win32.uMsg m =? Win32.WM_DESTROY) ms.

Definition close_requested (f : Sengine.Frame) : bool := has_close (Sengine.queue f).

(** The run went through an empty pointer. *)
Definition null_dereferenced {A : Type} (o : Sengine.outcome A) : bool :=
  match o with
  | Sengine.NullDereference => true
  | _ => false
  end.

(** One pass of the tick loop, as the calls it makes. *)
Definition pass : list Sengine.Step :=
  [Sengine.CalledPollEvents; Sengine.CalledOnTick; Sengine.CalledSwapBuffers].

Definition is_WindowDestroy (s : Sengine.Step) : bool :=
  match s with
  | Sengine.CalledWindowDestroy => true
  | _ => false
  end.

(** The frame stops the loop of an attached window. *)
Definition stops (f : Sengine.Frame) : bool :=
  close_requested f || Sengine.escape_down f.

(** The life of one window: created, given a context, fed the messages
    [during], destroyed. *)
Definition window_lifetime {Client : Type} (description : Swindow.WindowDescription)
           (pf : Swindow.Platform) (uninit : Swindow.Win32NativeWindow)
           (major minor : Z) (legacy : bool) (during : list Win32.MSG)
           (p : Swindow.Process Client)
  : Swindow.Window Client * Swindow.Process Client :=
  let created := Swindow.Create description pf uninit p in
  let context := Swindow.CreateContext pf major minor legacy (fst created) (snd created) in
  let lived := Swindow.dispatch during (fst context) (snd context) in
  Swindow.Destroy (fst lived) (snd lived).

Fixpoint iterate {A : Type} (f : A -> A) (n : nat) (a : A) : A :=
  match n with
  | O => a
  | S n' => iterate f n' (f a)
  end.

Definition count_ticks (h : list Sengine.Step) : nat :=
  List.length (filter (fun s => match s with Sengine.CalledOnTick => true | _ => false end) h).

Definition client_app {App Client : Type} (a : Sengine.Application App Client)
  : option App := Sengine.m_ClientApp a.

End Engine.

(** * Verified properties *)

(** ** The assertion helper *)

Section AssertionFacts.
Import Assertion.

Lemma Assert_aborted (condition : bool) (cs f : string) (l : Z) (m : string) (d : Disk) :
  aborted (Assert condition cs f l m d) = condition.
Proof. unfold Assert. destruct condition; reflexivity. Qed.

Lemma SE_Assert_false (cs m f : string) (l : Z) (d : Disk) :
  SE_Assert false cs m f l d = Returns d.
Proof. reflexivity. Qed.

Lemma SE_Assert_true (cs m f : string) (l : Z) (d : Disk) :
  SE_Assert true cs m f l d = Aborts (append_log (log_text cs f l m) d).
Proof. reflexivity. Qed.

End AssertionFacts.

(** C9 as written claims that every abort comes after the record has been
    appended.  With a log file that cannot be opened the process is aborted
    all the same and AssertLog.txt is left as it was. *)
Lemma Assert_aborts_without_logging :
  Assertion.Assert true "x == 0" "Main.cpp" 7 "boom"
    {| Assertion.AssertLog_txt := "old"; Assertion.AssertLog_opens := false |}
  = Aborts {| Assertion.AssertLog_txt := "old"; Assertion.AssertLog_opens := false |}
  /\ Assertion.AssertLog_txt
       (final_state
          (Assertion.Assert true "x == 0" "Main.cpp" 7 "boom"
             {| Assertion.AssertLog_txt := "old"; Assertion.AssertLog_opens := false |}))
     <> ("old" ++ Assertion.log_text "x == 0" "Main.cpp" 7 "boom")%string.
Proof. split; [reflexivity | vm_compute; discriminate]. Qed.

(** C9 (amended): [Assert] aborts exactly when its condition argument is
    true, the inverse of the usual polarity.  On that path the record made of
    file, line, condition text and message is appended to AssertLog.txt
    before the abort whenever the log file opens, and the file is left
    untouched when it does not.  When the condition is false the call returns
    with the disk unchanged.  [SE_Assert] behaves the same. *)
Theorem Assert_inverted_polarity :
  forall (condition : bool) (cs f : string) (l : Z) (m : string) (d : Assertion.Disk),
    (aborted (Assertion.Assert condition cs f l m d) = true <-> condition = true)
    /\ (condition = true -> Assertion.AssertLog_opens d = true ->
        Assertion.Assert condition cs f l m d
        = Aborts {| Assertion.AssertLog_txt :=
                      (Assertion.AssertLog_txt d ++ Assertion.log_text cs f l m)%string;
                    Assertion.AssertLog_opens := true |})
    /\ (condition = true -> Assertion.AssertLog_opens d = false ->
        Assertion.Assert condition cs f l m d = Aborts d)
    /\ (condition = false -> Assertion.Assert condition cs f l m d = Returns d)
    /\ (aborted (Assertion.SE_Assert condition cs m f l d) = true <-> condition = true).
Proof.
  intros condition cs f l m d.
  assert (Hiff : aborted (Assertion.Assert condition cs f l m d) = true
                 <-> condition = true)
    by (rewrite Assert_aborted; tauto).
  repeat split; try apply Hiff.
  - intros -> Hopen. unfold Assertion.Assert, Assertion.append_log.
    rewrite Hopen. reflexivity.
  - intros -> Hopen. unfold Assertion.Assert, Assertion.append_log.
    rewrite Hopen. reflexivity.
  - intros ->. reflexivity.
Qed.

Lemma Assert_inverted_polarity_witness :
  Assertion.Assert true "x == 0" "Main.cpp" 7 "boom"
    {| Assertion.AssertLog_txt := "old"; Assertion.AssertLog_opens := true |}
  = Aborts {| Assertion.AssertLog_txt :=
                ("old" ++ Assertion.log_text "x == 0" "Main.cpp" 7 "boom")%string;
              Assertion.AssertLog_opens := true |}.
Proof.
  apply (proj1 (proj2 (Assert_inverted_polarity true "x == 0" "Main.cpp" 7 "boom"
    {| Assertion.AssertLog_txt := "old"; Assertion.AssertLog_opens := true |})));
    reflexivity.
Defined.

(** ** The render-pass guard *)

Section Renderer2DFacts.
Import Assertion Renderer2D.

Lemma BeginRender_at_0 (d : Disk) :
  BeginRender {| m_CurrentRenderIndex := 0; disk := d |}
  = Returns {| m_CurrentRenderIndex := 1; disk := d |}.
Proof. reflexivity. Qed.

Lemma BeginRender_at_1 (d : Disk) :
  exists d', BeginRender {| m_CurrentRenderIndex := 1; disk := d |}
             = Aborts {| m_CurrentRenderIndex := 1; disk := d' |}.
Proof. eexists. reflexivity. Qed.

Lemma DrawQuad_at_0 (d : Disk) :
  exists d', DrawQuad {| m_CurrentRenderIndex := 0; disk := d |}
             = Aborts {| m_CurrentRenderIndex := 0; disk := d' |}.
Proof. eexists. reflexivity. Qed.

Lemma DrawQuad_returns (p p' : Process) :
  DrawQuad p = Returns p' -> p' = p /\ m_CurrentRenderIndex p <> 0.
Proof.
  unfold DrawQuad, SE_Assert, Assert, with_disk.
  destruct (Z.eqb_spec (m_CurrentRenderIndex p) 0) as [E | E]; [discriminate |].
  intros [= <-]. destruct p; auto.
Qed.

Lemma BeginRender_returns (p p' : Process) :
  BeginRender p = Returns p' ->
  m_CurrentRenderIndex p <> 1
  /\ p' = {| m_CurrentRenderIndex := wrap_int (m_CurrentRenderIndex p + 1);
             disk := disk p |}.
Proof.
  unfold BeginRender, SE_Assert, Assert, with_disk.
  destruct (Z.eqb_spec (m_CurrentRenderIndex p) 1) as [E | E]; [discriminate |].
  intros [= <-]. auto.
Qed.

Lemma run_app (xs ys : list Call) (p : Process) :
  run (xs ++ ys) p
  = match run xs p with
    | Aborts p' => Aborts p'
    | Returns p' => run ys p'
    end.
Proof.
  revert p. induction xs as [| c xs IH]; intros p; simpl; [reflexivity |].
  destruct (call c p); [apply IH | reflexivity].
Qed.

Lemma run_bracket (d : Disk) : run bracket (initial d) = Returns (initial d).
Proof. reflexivity. Qed.

Lemma run_brackets (n : nat) (d : Disk) :
  run (brackets n) (initial d) = Returns (initial d).
Proof.
  induction n as [| n IH]; [reflexivity |].
  cbn [brackets]. rewrite run_app, run_bracket. exact IH.
Qed.

Lemma call_tracks (c : Call) (b : bool) (p p' : Process) :
  tracks b p -> call c p = Returns p' -> tracks (scan b c) p'.
Proof.
  unfold tracks. intros Hb Hc. destruct c; simpl in *.
  - apply BeginRender_returns in Hc as [Hne ->]. simpl.
    destruct b; [congruence |]. rewrite Hb. reflexivity.
  - apply DrawQuad_returns in Hc as [-> _]. exact Hb.
  - injection Hc as <-. reflexivity.
Qed.

Lemma run_tracks (calls : list Call) :
  forall (b : bool) (p p' : Process),
    tracks b p -> run calls p = Returns p' -> tracks (fold_left scan calls b) p'.
Proof.
  induction calls as [| c calls IH]; intros b p p' Hb Hrun; simpl in *.
  - injection Hrun as <-. exact Hb.
  - destruct (call c p) as [q | q] eqn:Hc; [| discriminate].
    eapply IH; [eapply call_tracks; eassumption | exact Hrun].
Qed.

Lemma reachable_index (calls : list Call) (d : Disk) (p : Process) :
  run calls (initial d) = Returns p ->
  m_CurrentRenderIndex p = 0 \/ m_CurrentRenderIndex p = 1.
Proof.
  intros Hrun.
  pose proof (run_tracks calls false (initial d) p eq_refl Hrun) as Ht.
  unfold tracks in Ht. destruct (fold_left scan calls false); auto.
Qed.

(** [begun_since_end] is false for any calls that are empty or end in an
    EndRender, followed by calls without a BeginRender. *)
Lemma begun_since_end_false (p q : list Call) :
  p = [] \/ (exists p', p = p' ++ [CallEndRender]) ->
  ~ In CallBeginRender q ->
  begun_since_end (p ++ q) = false.
Proof.
  intros Hp Hq. unfold begun_since_end. rewrite fold_left_app.
  assert (Hfalse : fold_left scan p false = false).
  { destruct Hp as [-> | [p' ->]]; [reflexivity |].
    rewrite fold_left_app. reflexivity. }
  rewrite Hfalse. clear Hp Hfalse.
  induction q as [| c q IH]; [reflexivity |].
  destruct c; simpl.
  - exfalso. apply Hq. now left.
  - apply IH. intros Hin. apply Hq. now right.
  - apply IH. intros Hin. apply Hq. now right.
Qed.

Lemma draw_without_begin (pre : list Call) (d : Disk) :
  begun_since_end pre = false ->
  aborted (run (pre ++ [CallDrawQuad]) (initial d)) = true.
Proof.
  intros Hpre. rewrite run_app.
  destruct (run pre (initial d)) as [p | p] eqn:Hrun; [| reflexivity].
  pose proof (run_tracks pre false (initial d) p eq_refl Hrun) as Ht.
  unfold begun_since_end in Hpre. unfold tracks in Ht. rewrite Hpre in Ht.
  destruct p as [i dk]. simpl in Ht. subst i. reflexivity.
Qed.

End Renderer2DFacts.

(** C1: from the initial guard state, any number of Begin, Draw, End
    brackets in that order runs to completion without an abort (and leaves the
    guard and the disk as they were); and a DrawQuad issued after calls among
    which no BeginRender follows the last EndRender (or the start) aborts the
    process. *)
Theorem bracket_order_enforced :
  (forall (n : nat) (d : Assertion.Disk),
      Renderer2D.run (Renderer2D.brackets n) (Renderer2D.initial d)
      = Returns (Renderer2D.initial d))
  /\ (forall (pre : list Renderer2D.Call) (d : Assertion.Disk),
         Renderer2D.begun_since_end pre = false ->
         aborted (Renderer2D.run (pre ++ [Renderer2D.CallDrawQuad]) (Renderer2D.initial d))
         = true).
Proof. split; [exact run_brackets | exact draw_without_begin]. Qed.

Lemma bracket_order_enforced_witness :
  Renderer2D.begun_since_end
    [Renderer2D.CallBeginRender; Renderer2D.CallDrawQuad; Renderer2D.CallEndRender] = false
  /\ aborted (Renderer2D.run
                ([Renderer2D.CallBeginRender; Renderer2D.CallDrawQuad; Renderer2D.CallEndRender]
                   ++ [Renderer2D.CallDrawQuad])
                (Renderer2D.initial (Assertion.mkDisk "" true))) = true.
Proof.
  split; [reflexivity |].
  apply (proj2 bracket_order_enforced); reflexivity.
Defined.

(** C6: in every state reached from the initial one by calls that did not
    abort, the counter is 0 or 1.  BeginRender takes 0 to 1 and is the only
    call that raises the counter; at 1 it aborts and leaves the counter at 1.
    A DrawQuad that returns changes nothing.  EndRender returns from any
    state, with the counter at 0. *)
Theorem render_index_is_0_or_1 :
  (forall (calls : list Renderer2D.Call) (d : Assertion.Disk) (p : Renderer2D.Process),
      Renderer2D.run calls (Renderer2D.initial d) = Returns p ->
      Renderer2D.m_CurrentRenderIndex p = 0 \/ Renderer2D.m_CurrentRenderIndex p = 1)
  /\ (forall d : Assertion.Disk,
         Renderer2D.BeginRender (Renderer2D.mkProcess 0 d)
         = Returns (Renderer2D.mkProcess 1 d))
  /\ (forall d : Assertion.Disk,
         exists d', Renderer2D.BeginRender (Renderer2D.mkProcess 1 d)
                    = Aborts (Renderer2D.mkProcess 1 d'))
  /\ (forall p p' : Renderer2D.Process,
         Renderer2D.DrawQuad p = Returns p' -> p' = p)
  /\ (forall p : Renderer2D.Process,
         Renderer2D.EndRender p = Returns (Renderer2D.mkProcess 0 (Renderer2D.disk p))).
Proof.
  split; [exact reachable_index |].
  split; [exact BeginRender_at_0 |].
  split; [exact BeginRender_at_1 |].
  split; [| reflexivity].
  intros p p' H. apply DrawQuad_returns in H. tauto.
Qed.

Lemma render_index_is_0_or_1_witness :
  Renderer2D.run [Renderer2D.CallBeginRender; Renderer2D.CallDrawQuad]
    (Renderer2D.initial (Assertion.mkDisk "" true))
  = Returns (Renderer2D.mkProcess 1 (Assertion.mkDisk "" true))
  /\ (Renderer2D.m_CurrentRenderIndex (Renderer2D.mkProcess 1 (Assertion.mkDisk "" true)) = 0
      \/ Renderer2D.m_CurrentRenderIndex (Renderer2D.mkProcess 1 (Assertion.mkDisk "" true)) = 1).
Proof.
  split; [reflexivity |].
  apply (proj1 render_index_is_0_or_1
           [Renderer2D.CallBeginRender; Renderer2D.CallDrawQuad]
           (Assertion.mkDisk "" true)).
  reflexivity.
Defined.

(** ** Key code tables *)

Section KeyCodeFacts.
Import Win32 Swindow.

Lemma KeyCode_of_value_value (k : KeyCode) : KeyCode_of_value (KeyCode_value k) = k.
Proof. destruct k; reflexivity. Qed.

Lemma KeyCode_eqb_eq (a b : KeyCode) : KeyCode_eqb a b = true -> a = b.
Proof.
  unfold KeyCode_eqb. intros H. apply Z.eqb_eq in H.
  rewrite <- (KeyCode_of_value_value a), <- (KeyCode_of_value_value b).
  now rewrite H.
Qed.

Lemma find_absent {K V : Type} (eqb : K -> K -> bool)
      (eqb_eq : forall a b, eqb a b = true -> a = b) (key : K) (m : list (K * V)) :
  ~ In key (map fst m) -> find eqb key m = None.
Proof.
  induction m as [| [k v] m IH]; simpl; intros Hnot; [reflexivity |].
  destruct (eqb k key) eqn:E.
  - exfalso. apply Hnot. left. now apply eqb_eq.
  - apply IH. intros Hin. apply Hnot. now right.
Qed.

Lemma Convert_absent (key : Z) :
  ~ In key (map fst keyMap_Convert) -> ConvertNativeKeyCodes key = Key_Unknown.
Proof.
  intros H. unfold ConvertNativeKeyCodes.
  rewrite (find_absent Z.eqb (fun a b => proj1 (Z.eqb_eq a b)) key _ H).
  reflexivity.
Qed.

Lemma GetNative_absent (code : KeyCode) :
  ~ In code (map fst keyMap_GetNative) -> GetNativeKeyCodes code = -1.
Proof.
  intros H. unfold GetNativeKeyCodes.
  rewrite (find_absent KeyCode_eqb KeyCode_eqb_eq code _ H).
  reflexivity.
Qed.

Lemma native_round_trip (key : Z) :
  In key (map fst keyMap_Convert) ->
  GetNativeKeyCodes (ConvertNativeKeyCodes key) = key.
Proof.
  intros H. cbv [keyMap_Convert map fst In] in H.
  repeat (destruct H as [<- | H]; [vm_compute; reflexivity |]).
  contradiction.
Qed.

End KeyCodeFacts.

(** C7: a native key code that occurs in the table of
    ConvertNativeKeyCodes is mapped back to itself by GetNativeKeyCodes;
    a native key code that does not occur there converts to
    KeyCode::Unknown; and a KeyCode that does not occur in the table of
    GetNativeKeyCodes yields -1. *)
Theorem key_code_round_trip :
  (forall key : Z,
      In key (map fst Swindow.keyMap_Convert) ->
      Swindow.GetNativeKeyCodes (Swindow.ConvertNativeKeyCodes key) = key)
  /\ (forall key : Z,
         ~ In key (map fst Swindow.keyMap_Convert) ->
         Swindow.ConvertNativeKeyCodes key = Swindow.Key_Unknown)
  /\ (forall code : Swindow.KeyCode,
         ~ In code (map fst Swindow.keyMap_GetNative) ->
         Swindow.GetNativeKeyCodes code = -1).
Proof.
  split; [exact native_round_trip |].
  split; [exact Convert_absent | exact GetNative_absent].
Qed.

Lemma key_code_round_trip_witness :
  In Win32.VK_ESCAPE (map fst Swindow.keyMap_Convert)
  /\ Swindow.GetNativeKeyCodes (Swindow.ConvertNativeKeyCodes Win32.VK_ESCAPE)
     = Win32.VK_ESCAPE.
Proof.
  assert (Hin : In Win32.VK_ESCAPE (map fst Swindow.keyMap_Convert))
    by (vm_compute; tauto).
  split; [exact Hin |].
  apply (proj1 key_code_round_trip Win32.VK_ESCAPE Hin).
Defined.

(** ** The window procedure *)

Section WindowProcFacts.
Import Win32 Swindow.
Context {Client : Type}.

Lemma word16_mod (x : Z) : Z.land x 65535 = x mod 2 ^ 16.
Proof. change 65535 with (Z.ones 16). apply Z.land_ones. lia. Qed.

Lemma LOWORD_MAKELPARAM (lo hi : Z) :
  0 <= lo < 65536 -> LOWORD (MAKELPARAM lo hi) = lo.
Proof.
  intros Hlo. unfold LOWORD, MAKELPARAM.
  rewrite (word16_mod lo), (Z.mod_small lo) by (change (2 ^ 16) with 65536; lia).
  rewrite word16_mod.
  rewrite <- (Z.mod_small lo (2 ^ 16)) at 2 by (change (2 ^ 16) with 65536; lia).
  apply Z.bits_inj'. intros n Hn.
  destruct (Z.lt_ge_cases n 16) as [Hlt | Hge].
  - rewrite !Z.mod_pow2_bits_low by lia.
    rewrite Z.lor_spec, Z.shiftl_spec_low by lia.
    apply orb_false_r.
  - rewrite !Z.mod_pow2_bits_high by lia. reflexivity.
Qed.

Lemma HIWORD_MAKELPARAM (lo hi : Z) :
  0 <= lo < 65536 -> 0 <= hi < 65536 -> HIWORD (MAKELPARAM lo hi) = hi.
Proof.
  intros Hlo Hhi. unfold HIWORD, MAKELPARAM.
  rewrite (word16_mod lo), (Z.mod_small lo) by (change (2 ^ 16) with 65536; lia).
  rewrite (word16_mod hi), (Z.mod_small hi) by (change (2 ^ 16) with 65536; lia).
  rewrite word16_mod.
  rewrite <- (Z.mod_small hi (2 ^ 16)) at 2 by (change (2 ^ 16) with 65536; lia).
  apply Z.bits_inj'. intros n Hn.
  destruct (Z.lt_ge_cases n 16) as [Hlt | Hge].
  - rewrite !Z.mod_pow2_bits_low by lia.
    rewrite Z.shiftr_spec, Z.lor_spec, Z.shiftl_spec by lia.
    replace (n + 16 - 16) with n by lia.
    rewrite <- (Z.mod_small lo (2 ^ 16)) by (change (2 ^ 16) with 65536; lia).
    rewrite Z.mod_pow2_bits_high by lia. reflexivity.
  - rewrite !Z.mod_pow2_bits_high by lia. reflexivity.
Qed.

Lemma WindowProc_size_registered (m : MSG) (w : Window Client) (p : Process Client)
      (cb : Z -> Z -> Client -> Client) :
  user_data (system p) = true ->
  uMsg m = WM_SIZE ->
  WindowResizeCallback (GetWindowCallbacks w) = Some cb ->
  snd (WindowProc m w p)
  = (SetWindowSize (LOWORD (lParam m)) (HIWORD (lParam m)) w,
     invoke (ResizeInvoked (LOWORD (lParam m)) (HIWORD (lParam m)))
       (cb (LOWORD (lParam m)) (HIWORD (lParam m))) p).
Proof.
  intros Hu Hm Hcb. unfold WindowProc. rewrite Hu, Hm, Hcb. reflexivity.
Qed.

Lemma WindowProc_size_unregistered (m : MSG) (w : Window Client) (p : Process Client) :
  uMsg m = WM_SIZE ->
  WindowResizeCallback (GetWindowCallbacks w) = None ->
  snd (WindowProc m w p) = (w, p).
Proof.
  intros Hm Hcb. unfold WindowProc. rewrite Hm, Hcb.
  destruct (user_data (system p)); reflexivity.
Qed.

Lemma WindowProc_close (m : MSG) (w : Window Client) (p : Process Client) :
  user_data (system p) = true ->
  uMsg m = WM_CLOSE ->
  fst (snd (WindowProc m w p))
  = match WindowCloseCallback (GetWindowCallbacks w) with
    | Some cb => if fst (cb (client p)) then SetIsRunning false w else w
    | None => SetIsRunning false w
    end.
Proof.
  intros Hu Hm. unfold WindowProc. rewrite Hu, Hm. simpl.
  destruct (WindowCloseCallback (GetWindowCallbacks w)) as [cb |]; [| reflexivity].
  destruct (fst (cb (client p))); reflexivity.
Qed.

Lemma WindowProc_right_button (m : MSG) (w : Window Client) (p : Process Client)
      (cb : MouseButton -> bool -> Client -> Client) :
  user_data (system p) = true ->
  uMsg m = WM_RBUTTONDOWN \/ uMsg m = WM_RBUTTONUP ->
  WindowMouseCallback (GetWindowCallbacks w) = Some cb ->
  snd (WindowProc m w p)
  = (w, invoke (MouseInvoked RightMouseButton false) (cb RightMouseButton false) p).
Proof.
  intros Hu Hm Hcb. unfold WindowProc. rewrite Hu.
  destruct Hm as [Hm | Hm]; rewrite Hm, Hcb; reflexivity.
Qed.

(** Only a close request can change the running flag. *)
Lemma WindowProc_keeps_running (m : MSG) (w : Window Client) (p : Process Client) :
  uMsg m <> WM_CLOSE ->
  m_IsRunning (fst (snd (WindowProc m w p))) = m_IsRunning w.
Proof.
  intros Hm. unfold WindowProc.
  repeat match goal with
         | |- context [if ?b then _ else _] => destruct b eqn:?
         | |- context [match ?o with Some _ => _ | None => _ end] => destruct o
         end;
    try reflexivity;
    match goal with
    | E : (uMsg m =? WM_CLOSE) = true |- _ => apply Z.eqb_eq in E; contradiction
    end.
Qed.

(** The window procedure finds its window from the moment a successful
    constructor has stored it until the window is destroyed: handling a
    message never clears the user data. *)
Lemma WindowProc_keeps_user_data (m : MSG) (w : Window Client) (p : Process Client) :
  user_data (system (snd (snd (WindowProc m w p)))) = user_data (system p).
Proof.
  unfold WindowProc.
  repeat match goal with
         | |- context [if ?b then _ else _] => destruct b eqn:?
         | |- context [match ?o with Some _ => _ | None => _ end] => destruct o
         end;
    reflexivity.
Qed.

Lemma dispatch_keeps_user_data (ms : list MSG) :
  forall (w : Window Client) (p : Process Client),
    user_data (system (snd (dispatch ms w p))) = user_data (system p).
Proof.
  unfold dispatch.
  induction ms as [| m ms IH]; intros w p; [reflexivity |].
  simpl. destruct (WindowProc m w p) as [lr [w1 p1]] eqn:E. simpl.
  rewrite (IH w1 p1).
  change p1 with (snd (snd (lr, (w1, p1)))). rewrite <- E.
  apply WindowProc_keeps_user_data.
Qed.

Lemma Create_sets_user_data (description : WindowDescription) (pf : Platform)
      (uninit : Win32NativeWindow) (p : Process Client) :
  CreateWindowEx_result pf <> 0 ->
  user_data (system (snd (Swindow.Create description pf uninit p))) = true.
Proof.
  intros Hwnd. unfold Swindow.Create, Win32NativeWindow_new.
  destruct (Z.eqb_spec (CreateWindowEx_result pf) 0) as [E | E]; [contradiction |].
  reflexivity.
Qed.

Lemma dispatch_keeps_running (ms : list MSG) :
  forall (w : Window Client) (p : Process Client),
    Forall (fun m => uMsg m <> WM_CLOSE) ms ->
    m_IsRunning (fst (dispatch ms w p)) = m_IsRunning w.
Proof.
  unfold dispatch.
  induction ms as [| m ms IH]; intros w p Hall; [reflexivity |].
  inversion Hall as [| ? ? Hm Hrest]; subst. simpl.
  destruct (WindowProc m w p) as [lr [w1 p1]] eqn:E. simpl.
  rewrite (IH w1 p1 Hrest).
  change w1 with (fst (snd (lr, (w1, p1)))). rewrite <- E.
  now apply WindowProc_keeps_running.
Qed.

Lemma DestroyWindow_keeps_running (hwnd : HANDLE) (w : Window Client)
      (p : Process Client) :
  m_IsRunning (fst (DestroyWindow hwnd w p)) = m_IsRunning w.
Proof.
  unfold DestroyWindow.
  destruct (live_window (system p) && negb (hwnd =? 0)); [| reflexivity].
  cbn [fst]. apply dispatch_keeps_running.
  repeat constructor; discriminate.
Qed.

Lemma Destroy_keeps_running (w : Window Client) (p : Process Client) :
  m_IsRunning (fst (Swindow.Destroy w p)) = m_IsRunning w.
Proof.
  unfold Swindow.Destroy, Native_Destroy. cbn [fst].
  apply DestroyWindow_keeps_running.
Qed.

End WindowProcFacts.

(** C3 (the code at the failing input): the claim promises the new size
    whether or not a resize callback is registered.  A window of 800 by 600
    without a resize callback that receives the resize event for 1024 by 768
    still describes itself as 800 by 600: SetWindowSize is only reached
    under the test for the callback. *)
Lemma resize_without_callback_keeps_old_size :
  Win32.LOWORD (Win32.lParam (Win32.mkMSG Win32.WM_SIZE 0 (Win32.MAKELPARAM 1024 768))) = 1024
  /\ Win32.HIWORD (Win32.lParam (Win32.mkMSG Win32.WM_SIZE 0 (Win32.MAKELPARAM 1024 768))) = 768
  /\ Swindow.WindowResizeCallback (Swindow.GetWindowCallbacks Sample.window) = None
  /\ Swindow.Width
       (Swindow.GetWindowDescription
          (fst (snd (Swindow.WindowProc
                       (Win32.mkMSG Win32.WM_SIZE 0 (Win32.MAKELPARAM 1024 768))
                       Sample.window Sample.process)))) = 800
  /\ Swindow.Width
       (Swindow.GetWindowDescription
          (fst (snd (Swindow.WindowProc
                       (Win32.mkMSG Win32.WM_SIZE 0 (Win32.MAKELPARAM 1024 768))
                       Sample.window Sample.process)))) <> 1024.
Proof. repeat split; try reflexivity. vm_compute. discriminate. Qed.

(** The path of the WM_SIZE case that does track the size: for every resize
    event carrying width w and height h that the window procedure processes
    while a resize callback is registered, WindowDescription.Width is w and
    WindowDescription.Height is h afterwards, and the callback is invoked,
    once, with w and h.  While no resize callback is registered the event
    changes nothing. *)
Theorem resize_updates_size_under_callback :
  forall (Client : Type) (w h wParam : Z)
         (win : Swindow.Window Client) (p : Swindow.Process Client),
    0 <= w < 65536 -> 0 <= h < 65536 ->
    Swindow.user_data (Swindow.system p) = true ->
    (forall cb : Z -> Z -> Client -> Client,
        Swindow.WindowResizeCallback (Swindow.GetWindowCallbacks win) = Some cb ->
        Swindow.Width
          (Swindow.GetWindowDescription
             (fst (snd (Swindow.WindowProc
                          (Win32.mkMSG Win32.WM_SIZE wParam (Win32.MAKELPARAM w h)) win p))))
        = w
        /\ Swindow.Height
             (Swindow.GetWindowDescription
                (fst (snd (Swindow.WindowProc
                             (Win32.mkMSG Win32.WM_SIZE wParam (Win32.MAKELPARAM w h)) win p))))
           = h
        /\ snd (snd (Swindow.WindowProc
                       (Win32.mkMSG Win32.WM_SIZE wParam (Win32.MAKELPARAM w h)) win p))
           = Swindow.invoke (Swindow.ResizeInvoked w h) (cb w h) p)
    /\ (Swindow.WindowResizeCallback (Swindow.GetWindowCallbacks win) = None ->
        snd (Swindow.WindowProc
               (Win32.mkMSG Win32.WM_SIZE wParam (Win32.MAKELPARAM w h)) win p)
        = (win, p)).
Proof.
  intros Client w h wParam win p Hw Hh Hu. split.
  - intros cb Hcb.
    rewrite (WindowProc_size_registered
               (Win32.mkMSG Win32.WM_SIZE wParam (Win32.MAKELPARAM w h))
               win p cb Hu eq_refl Hcb).
    cbn [Win32.lParam fst snd].
    rewrite (LOWORD_MAKELPARAM w h Hw), (HIWORD_MAKELPARAM w h Hw Hh).
    repeat split; reflexivity.
  - intros Hcb. now apply WindowProc_size_unregistered.
Qed.

Lemma resize_updates_size_under_callback_witness :
  Swindow.Width
    (Swindow.GetWindowDescription
       (fst (snd (Swindow.WindowProc
                    (Win32.mkMSG Win32.WM_SIZE 0 (Win32.MAKELPARAM 1024 768))
                    (Swindow.SetWindowResizeCallback Sample.count_resize Sample.window)
                    Sample.process))))
  = 1024.
Proof.
  apply (proj1 (resize_updates_size_under_callback nat 1024 768 0
                  (Swindow.SetWindowResizeCallback Sample.count_resize Sample.window)
                  Sample.process ltac:(lia) ltac:(lia) eq_refl)
           Sample.count_resize eq_refl).
Defined.

(** C4: when a close request is processed, a registered close callback
    that returns false leaves GetIsRunning() as it was (a running window
    keeps running); a registered callback that returns true, and the absence
    of a callback, make GetIsRunning() false. *)
Theorem close_request_running_flag :
  forall (Client : Type) (m : Win32.MSG)
         (win : Swindow.Window Client) (p : Swindow.Process Client),
    Swindow.user_data (Swindow.system p) = true ->
    Win32.uMsg m = Win32.WM_CLOSE ->
    (forall cb : Client -> bool * Client,
        Swindow.WindowCloseCallback (Swindow.GetWindowCallbacks win) = Some cb ->
        fst (cb (Swindow.client p)) = false ->
        Swindow.GetIsRunning (fst (snd (Swindow.WindowProc m win p)))
        = Swindow.GetIsRunning win)
    /\ (forall cb : Client -> bool * Client,
           Swindow.WindowCloseCallback (Swindow.GetWindowCallbacks win) = Some cb ->
           fst (cb (Swindow.client p)) = true ->
           Swindow.GetIsRunning (fst (snd (Swindow.WindowProc m win p))) = false)
    /\ (Swindow.WindowCloseCallback (Swindow.GetWindowCallbacks win) = None ->
        Swindow.GetIsRunning (fst (snd (Swindow.WindowProc m win p))) = false).
Proof.
  intros Client m win p Hu Hm.
  rewrite (WindowProc_close m win p Hu Hm).
  repeat split.
  - intros cb -> ->. reflexivity.
  - intros cb -> ->. reflexivity.
  - intros ->. reflexivity.
Qed.

Lemma close_request_running_flag_witness :
  Swindow.GetIsRunning
    (fst (snd (Swindow.WindowProc (Win32.mkMSG Win32.WM_CLOSE 0 0)
                 (Swindow.SetWindowCloseCallback Sample.refuse_close Sample.window)
                 Sample.process)))
  = true.
Proof.
  apply (proj1 (close_request_running_flag nat (Win32.mkMSG Win32.WM_CLOSE 0 0)
                  (Swindow.SetWindowCloseCallback Sample.refuse_close Sample.window)
                  Sample.process eq_refl eq_refl)
           Sample.refuse_close eq_refl eq_refl).
Defined.

(** C10: a right-button message, down or up, processed while a mouse
    callback is registered invokes that callback with the right button and
    the action false: the pressed test compares the message with
    WM_LBUTTONDOWN, which a right-button message never is. *)
Theorem right_button_action_is_false :
  forall (Client : Type) (m : Win32.MSG)
         (win : Swindow.Window Client) (p : Swindow.Process Client)
         (cb : Swindow.MouseButton -> bool -> Client -> Client),
    Swindow.user_data (Swindow.system p) = true ->
    Win32.uMsg m = Win32.WM_RBUTTONDOWN \/ Win32.uMsg m = Win32.WM_RBUTTONUP ->
    Swindow.WindowMouseCallback (Swindow.GetWindowCallbacks win) = Some cb ->
    Swindow.invoked (snd (snd (Swindow.WindowProc m win p)))
    = Swindow.invoked p ++ [Swindow.MouseInvoked Swindow.RightMouseButton false]
    /\ Swindow.client (snd (snd (Swindow.WindowProc m win p)))
       = cb Swindow.RightMouseButton false (Swindow.client p).
Proof.
  intros Client m win p cb Hu Hm Hcb.
  rewrite (WindowProc_right_button m win p cb Hu Hm Hcb).
  split; reflexivity.
Qed.

Lemma right_button_action_is_false_witness :
  Swindow.invoked
    (snd (snd (Swindow.WindowProc (Win32.mkMSG Win32.WM_RBUTTONDOWN 2 0)
                 (Swindow.SetWindowMouseCallback Sample.count_mouse Sample.window)
                 Sample.process)))
  = [Swindow.MouseInvoked Swindow.RightMouseButton false].
Proof.
  apply (proj1 (right_button_action_is_false nat (Win32.mkMSG Win32.WM_RBUTTONDOWN 2 0)
                  (Swindow.SetWindowMouseCallback Sample.count_mouse Sample.window)
                  Sample.process Sample.count_mouse eq_refl (or_introl eq_refl) eq_refl)).
Defined.

(** ** The window facade and the application driver *)

Section DriverFacts.
Import Win32 Sengine.
Context {App Client : Type} `{ISengineApp App}.

Lemma Create_returns_pointer (description : WindowDescription) (pf : Swindow.Platform)
      (uninit : Swindow.Win32NativeWindow) (this : Window Client)
      (p : Swindow.Process Client) :
  fst (Create description pf uninit this p) = Some (mkWindow None)
  /\ exists w, fst (snd (Create description pf uninit this p)) = mkWindow (Some w).
Proof. unfold Create. split; [reflexivity | eexists; reflexivity]. Qed.

Lemma Init_return (pf : Swindow.Platform) (uninit : Swindow.Win32NativeWindow)
      (app : App) (a : Application App Client) :
  m_ClientApp a = Some app ->
  init_return (Init pf uninit a)
  = Some (if negb (fst (OnEarlyInit app)) then EarlyInit_false
          else if negb (fst (OnInit (snd (OnEarlyInit app)))) then OnInit_false
               else Init_true).
Proof.
  intros Ha. unfold Init. rewrite Ha. simpl.
  destruct (fst (OnEarlyInit app)); simpl; [| reflexivity].
  destruct (fst (OnInit (snd (OnEarlyInit app)))); reflexivity.
Qed.

Lemma Init_early_false (pf : Swindow.Platform) (uninit : Swindow.Win32NativeWindow)
      (app : App) (p : Swindow.Process Client) :
  fst (OnEarlyInit app) = false ->
  exists a', Init pf uninit (set_ClientApp app (fresh p)) = Done (EarlyInit_false, a')
             /\ history a' = [CalledOnEarlyInit].
Proof.
  intros He. unfold Init. simpl. rewrite He. simpl.
  eexists. split; reflexivity.
Qed.

Lemma Init_oninit_false (pf : Swindow.Platform) (uninit : Swindow.Win32NativeWindow)
      (app : App) (p : Swindow.Process Client) :
  fst (OnEarlyInit app) = true ->
  fst (OnInit (snd (OnEarlyInit app))) = false ->
  exists a', Init pf uninit (set_ClientApp app (fresh p)) = Done (OnInit_false, a')
             /\ history a' = [CalledOnEarlyInit; CalledWindowCreate; CalledOnInit].
Proof.
  intros He Hi. unfold Init. simpl. rewrite He. simpl. rewrite Hi. simpl.
  eexists. split; reflexivity.
Qed.

Lemma Init_success (pf : Swindow.Platform) (uninit : Swindow.Win32NativeWindow)
      (app : App) (p : Swindow.Process Client) :
  fst (OnEarlyInit app) = true ->
  fst (OnInit (snd (OnEarlyInit app))) = true ->
  exists a', Init pf uninit (set_ClientApp app (fresh p)) = Done (Init_true, a')
             /\ ready a'
             /\ history a' = [CalledOnEarlyInit; CalledWindowCreate; CalledOnInit].
Proof.
  intros He Hi. unfold Init. simpl. rewrite He. simpl. rewrite Hi. simpl.
  eexists. split; [reflexivity |]. split; [| reflexivity].
  unfold ready. simpl. eauto.
Qed.

Lemma Tick_body_ready (f : Frame) (a : Application App Client) :
  ready a ->
  exists a', Tick_body f a = Done a'
             /\ ready a'
             /\ history a' = history a ++ [CalledPollEvents; CalledOnTick; CalledSwapBuffers]
             /\ (escape_down f = true -> is_running a' = false).
Proof.
  intros (app & w & Hca & Hw).
  destruct a as [ca mw pr hist]. simpl in Hca, Hw. subst ca mw.
  unfold Tick_body, escape_down. simpl.
  unfold Swindow.GetIsKeyDown, Swindow.IsKeyDown.
  change (Swindow.GetNativeKeyCodes Swindow.Key_Escape) with VK_ESCAPE.
  destruct (negb (key_state f VK_ESCAPE =? 0)); simpl;
    (eexists; split; [reflexivity |]; split; [unfold ready; simpl; eauto |]);
    (split; [simpl; rewrite <- ?app_assoc; reflexivity |]).
  - intros _. reflexivity.
  - discriminate.
Qed.

Lemma Tick_stopped (frames : list Frame) (a : Application App Client) :
  ready a -> is_running a = false -> Tick frames a = Done a.
Proof.
  intros (app & w & Hca & Hw) Hrun.
  unfold is_running in Hrun. rewrite Hw in Hrun.
  destruct frames; simpl; rewrite Hw; simpl;
    unfold Swindow.GetIsRunning in *; rewrite Hrun; reflexivity.
Qed.

Lemma Tick_history (frames : list Frame) :
  forall (a a' : Application App Client),
    ready a -> Tick frames a = Done a' ->
    ready a'
    /\ exists ticks, history a' = history a ++ ticks /\ forallb tick_step ticks = true.
Proof.
  induction frames as [| f rest IH]; intros a a' Hr Ht.
  - destruct Hr as (app & w & Hca & Hw). simpl in Ht. rewrite Hw in Ht. simpl in Ht.
    destruct (Swindow.GetIsRunning w); [discriminate |].
    injection Ht as <-. split; [unfold ready; eauto |].
    exists []. rewrite app_nil_r. split; reflexivity.
  - pose proof Hr as (app & w & Hca & Hw).
    simpl in Ht. rewrite Hw in Ht. simpl in Ht.
    destruct (Swindow.GetIsRunning w).
    + destruct (Tick_body_ready f a Hr) as (a1 & Hb & Hr1 & Hh1 & _).
      rewrite Hb in Ht. simpl in Ht.
      destruct (IH a1 a' Hr1 Ht) as (Hr' & ticks & Hh & Hall).
      split; [exact Hr' |].
      exists ([CalledPollEvents; CalledOnTick; CalledSwapBuffers] ++ ticks).
      split; [rewrite Hh, Hh1, <- app_assoc; reflexivity | exact Hall].
    + injection Ht as <-. split; [exact Hr |].
      exists []. rewrite app_nil_r. split; reflexivity.
Qed.

Lemma Tick_terminates (frames : list Frame) :
  forall a : Application App Client,
    ready a -> existsb escape_down frames = true ->
    exists a', Tick frames a = Done a'.
Proof.
  induction frames as [| f rest IH]; intros a Hr Hex; [discriminate |].
  pose proof Hr as (app & w & Hca & Hw).
  simpl. rewrite Hw. simpl.
  destruct (Swindow.GetIsRunning w); [| eauto].
  destruct (Tick_body_ready f a Hr) as (a1 & Hb & Hr1 & _ & Hesc).
  rewrite Hb. simpl. simpl in Hex.
  destruct (escape_down f).
  - exists a1. apply Tick_stopped; auto.
  - apply IH; assumption.
Qed.

Lemma App_Destroy_ready (a : Application App Client) :
  ready a ->
  exists a', App_Destroy a = Done a'
             /\ history a'
                = history a ++ [CalledOnDestroy; CalledWindowDestroy; CalledOnLateDestroy].
Proof.
  intros (app & w & Hca & Hw).
  destruct a as [ca mw pr hist]. simpl in Hca, Hw. subst ca mw.
  unfold App_Destroy. simpl. eexists. split; [reflexivity |].
  simpl. rewrite <- ?app_assoc. reflexivity.
Qed.

End DriverFacts.

(** C2: for every window description and every result of the platform
    calls, a failed native window or context creation included,
    Sengine::Window::Create returns a non-null pointer to a Window.  Hence
    Application::Init never leaves through the branch guarded by
    [!m_Window->Create(...)], and which [return] it takes is the same for
    any two platform results. *)
Theorem Window_Create_never_returns_null :
  forall (App Client : Type) (hooks : Sengine.ISengineApp App)
         (description : Sengine.WindowDescription)
         (pf pf' : Swindow.Platform) (uninit uninit' : Swindow.Win32NativeWindow)
         (this : Sengine.Window Client) (p : Swindow.Process Client)
         (a : Sengine.Application App Client),
    fst (Sengine.Create description pf uninit this p) = Some (Sengine.mkWindow None)
    /\ Sengine.took_Create_null (Sengine.Init pf uninit a) = false
    /\ Sengine.init_return (Sengine.Init pf uninit a)
       = Sengine.init_return (Sengine.Init pf' uninit' a).
Proof.
  intros App Client hooks description pf pf' uninit uninit' this p a.
  split; [apply Create_returns_pointer |].
  destruct (Sengine.m_ClientApp a) as [app |] eqn:Ha.
  - unfold Sengine.took_Create_null.
    rewrite (Init_return pf uninit app a Ha), (Init_return pf' uninit' app a Ha).
    split; [| reflexivity].
    destruct (negb (fst (Sengine.OnEarlyInit app))); [reflexivity |].
    destruct (negb (fst (Sengine.OnInit (snd (Sengine.OnEarlyInit app))))); reflexivity.
  - unfold Sengine.took_Create_null, Sengine.Init. rewrite Ha. split; reflexivity.
Qed.

(** C8: Window::Destroy leaves the running flag alone.  For the native
    facade and for the engine's wrapper around it, GetIsRunning() gives
    after Destroy the value it gave before, whatever that value is. *)
Theorem Destroy_preserves_running_flag :
  forall (Client : Type) (w : Swindow.Window Client) (p : Swindow.Process Client),
    Swindow.GetIsRunning (fst (Swindow.Destroy w p)) = Swindow.GetIsRunning w
    /\ exists (this' : Sengine.Window Client) (p' : Swindow.Process Client),
         Sengine.Destroy (Sengine.mkWindow (Some w)) p = Sengine.Done (this', p')
         /\ Sengine.GetIsRunning this'
            = Sengine.GetIsRunning (Sengine.mkWindow (Some w))
         /\ Sengine.GetIsRunning this' = Sengine.Done (Swindow.m_IsRunning w).
Proof.
  intros Client w p.
  split; [apply Destroy_keeps_running |].
  exists (Sengine.mkWindow (Some (fst (Swindow.Destroy w p)))),
    (snd (Swindow.Destroy w p)).
  split; [reflexivity |].
  unfold Sengine.GetIsRunning, Sengine.deref, Sengine.bind, Swindow.GetIsRunning.
  cbn [Sengine.m_NativeWindow].
  rewrite Destroy_keeps_running. split; reflexivity.
Qed.

(** ** Concrete runs *)

Example Init_succeeds_without_native_window :
  Sengine.init_return
    (@Sengine.Init nat nat Sample.counting_app Sample.platform_no_window Sample.native
       (Sengine.set_ClientApp 0%nat (Sengine.fresh Sample.boot)))
  = Some Sengine.Init_true.
Proof. reflexivity. Qed.

Example draw_first_aborts_and_logs :
  Renderer2D.run [Renderer2D.CallDrawQuad] (Renderer2D.initial (Assertion.mkDisk "" true))
  = Aborts
      (Renderer2D.mkProcess 0
         (Assertion.mkDisk
            (Assertion.log_text "m_CurrentRenderIndex == 0" "Renderer2D.cpp" 21
               "[Render 2D] Error: Has not called either Begin Render function before draw function")
            true)).
Proof. reflexivity. Qed.

Example close_without_callback_stops :
  Swindow.GetIsRunning
    (fst (Swindow.PollEvents
            [Win32.mkMSG Win32.WM_SIZE 0 (Win32.MAKELPARAM 1024 768);
             Win32.mkMSG Win32.WM_CLOSE 0 0]
            (Swindow.SetWindowResizeCallback Sample.count_resize Sample.window)
            Sample.process))
  = false.
Proof. reflexivity. Qed.

(** * Further properties of the modelled code *)

(** ** Render guard, renderer facade and the editor's tick *)

Section RenderOrderFacts.
Import Assertion Renderer2D.

Lemma call_when_tracked (c : Call) (b : bool) (p : Process) :
  tracks b p ->
  match c, b with
  | CallBeginRender, true | CallDrawQuad, false => aborted (call c p) = true
  | _, _ => exists p', call c p = Returns p' /\ tracks (scan b c) p' /\ disk p' = disk p
  end.
Proof.
  unfold tracks. destruct p as [i d]. simpl. intros ->.
  destruct c, b; simpl; try reflexivity; eexists; (split; [reflexivity |]); split; reflexivity.
Qed.

Lemma run_abort_iff (calls : list Call) :
  forall (b : bool) (p : Process),
    tracks b p -> aborted (run calls p) = negb (Renderer.ordered_from b calls).
Proof.
  induction calls as [| c calls IH]; intros b p Hb; [reflexivity |].
  pose proof (call_when_tracked c b p Hb) as Hc.
  assert (Hgo : forall p', call c p = Returns p' -> tracks (scan b c) p' ->
                  aborted (run (c :: calls) p)
                  = negb (Renderer.ordered_from (scan b c) calls)).
  { intros p' Hret Ht. cbn [run]. rewrite Hret. now apply IH. }
  assert (Hstop : aborted (call c p) = true -> aborted (run (c :: calls) p) = true).
  { intros Ha. cbn [run]. destruct (call c p); [discriminate | reflexivity]. }
  destruct c, b; cbn [Renderer.ordered_from negb andb scan] in *.
  - now apply Hstop.
  - destruct Hc as (p' & Hret & Ht & _). now apply (Hgo p').
  - destruct Hc as (p' & Hret & Ht & _). now apply (Hgo p').
  - now apply Hstop.
  - destruct Hc as (p' & Hret & Ht & _). now apply (Hgo p').
  - destruct Hc as (p' & Hret & Ht & _). now apply (Hgo p').
Qed.

Lemma run_disk (calls : list Call) :
  forall p : Process,
    match run calls p with
    | Returns p' => disk p' = disk p
    | Aborts p' =>
        exists cs m l, disk p' = append_log (log_text cs FILE_Renderer2D_cpp l m) (disk p)
    end.
Proof.
  induction calls as [| c calls IH]; intros p; [reflexivity |].
  simpl.
  assert (Hc : match call c p with
               | Returns p' => disk p' = disk p
               | Aborts p' =>
                   exists cs m l,
                   disk p' = append_log (log_text cs FILE_Renderer2D_cpp l m) (disk p)
               end).
  { destruct c; simpl; unfold BeginRender, DrawQuad, EndRender, SE_Assert, Assert, with_disk.
    - destruct (m_CurrentRenderIndex p =? 1); simpl; [eauto | reflexivity].
    - destruct (m_CurrentRenderIndex p =? 0); simpl; [eauto | reflexivity].
    - reflexivity. }
  destruct (call c p) as [p1 | p1]; [| exact Hc].
  specialize (IH p1). destruct (run calls p1) as [p2 | p2].
  - congruence.
  - rewrite Hc in IH. exact IH.
Qed.

Lemma append_log_extends (text : string) (d : Disk) :
  Renderer.extends (AssertLog_txt d) (AssertLog_txt (append_log text d))
  /\ AssertLog_opens (append_log text d) = AssertLog_opens d.
Proof.
  unfold append_log, Renderer.extends. destruct (AssertLog_opens d) eqn:E; simpl.
  - split; [exists text; reflexivity | reflexivity].
  - split; [exists EmptyString | exact E].
    induction (AssertLog_txt d) as [| ch s IH]; simpl; [reflexivity | now rewrite <- IH].
Qed.

Lemma run_draws_open (k : nat) (d : Disk) :
  run (repeat CallDrawQuad k) (mkProcess 1 d) = Returns (mkProcess 1 d).
Proof. induction k as [| k IH]; [reflexivity | exact IH]. Qed.

Lemma run_bracket_of (k : nat) (d : Disk) :
  run (Renderer.bracket_of k) (initial d) = Returns (initial d).
Proof.
  unfold Renderer.bracket_of. cbn [run call]. rewrite BeginRender_at_0.
  rewrite run_app, run_draws_open. reflexivity.
Qed.

Lemma facade_run (calls : list Renderer.Call) :
  forall p : Process, Renderer.run calls p = run (Renderer.calls_2D calls) p.
Proof.
  induction calls as [| c calls IH]; intros p; [reflexivity |].
  destruct c; simpl;
    unfold Renderer.BeginRender2D, Renderer.EndRender2D, Renderer.Draw2D,
           Renderer.BeginRender3D, Renderer.EndRenderer;
    try (destruct (_ p); [apply IH | reflexivity]); apply IH.
Qed.

Lemma Editor_OnTick_closed (f : SengineEditor.Frame) :
  m_CurrentRenderIndex (SengineEditor.renderer f) = 0 ->
  SengineEditor.OnTick f
  = Returns (SengineEditor.mkFrame
               (SengineEditor.gl f
                  ++ [SengineEditor.glClear 16640;
                      SengineEditor.glClearColor "0.25f" "0.6f" "0.75f" "1.0f"])
               (SengineEditor.renderer f)).
Proof.
  destruct f as [g [i d]]. simpl. intros ->.
  unfold SengineEditor.OnTick. simpl. rewrite <- app_assoc. reflexivity.
Qed.

Lemma Editor_OnTick_open (f : SengineEditor.Frame) :
  m_CurrentRenderIndex (SengineEditor.renderer f) = 1 ->
  aborted (SengineEditor.OnTick f) = true.
Proof.
  destruct f as [g [i d]]. simpl. intros ->. reflexivity.
Qed.

End RenderOrderFacts.

(** X1: a sequence of BeginRender, DrawQuad and EndRender calls made from
    the initial guard state aborts the process exactly when it breaks the
    ordering discipline: some BeginRender is made while a pass is open, or
    some DrawQuad while none is. *)
Theorem render_aborts_iff_out_of_order :
  forall (calls : list Renderer2D.Call) (d : Assertion.Disk),
    aborted (Renderer2D.run calls (Renderer2D.initial d))
    = negb (Renderer.ordered calls).
Proof. intros calls d. now apply run_abort_iff. Qed.

(** X2: the renderer writes AssertLog.txt only when it aborts.  A sequence
    of calls that returns leaves the disk as it found it; one that aborts has
    made exactly one attempt to append one assertion record, which leaves the
    earlier content of the log in place as a prefix. *)
Theorem render_log_written_only_on_abort :
  forall (calls : list Renderer2D.Call) (p : Renderer2D.Process),
    match Renderer2D.run calls p with
    | Returns p' => Renderer2D.disk p' = Renderer2D.disk p
    | Aborts p' =>
        (exists cs m l,
            Renderer2D.disk p'
            = Assertion.append_log
                (Assertion.log_text cs Renderer2D.FILE_Renderer2D_cpp l m)
                (Renderer2D.disk p))
        /\ Renderer.extends (Assertion.AssertLog_txt (Renderer2D.disk p))
             (Assertion.AssertLog_txt (Renderer2D.disk p'))
    end.
Proof.
  intros calls p. pose proof (run_disk calls p) as H.
  destruct (Renderer2D.run calls p) as [p' | p']; [exact H |].
  split; [exact H |].
  destruct H as (cs & m & l & ->). apply append_log_extends.
Qed.

(** X3: a pass may hold any number of draws, none included.  Brackets of
    the form Begin, k draws, End, for any list of k's, run from the initial
    state without an abort and return to it. *)
Theorem brackets_with_any_number_of_draws :
  forall (ks : list nat) (d : Assertion.Disk),
    Renderer2D.run (List.concat (map Renderer.bracket_of ks)) (Renderer2D.initial d)
    = Returns (Renderer2D.initial d).
Proof.
  intros ks d. induction ks as [| k ks IH]; [reflexivity |].
  cbn [List.concat map]. rewrite run_app, run_bracket_of. exact IH.
Qed.

(** X4: the facade adds nothing to the guard.  Any sequence of Renderer
    calls behaves as its BeginRender2D, Draw2D and EndRender2D calls made
    directly on Renderer2D; BeginRender3D and EndRenderer neither open nor
    close a 2D pass. *)
Theorem facade_is_its_2D_calls :
  forall (calls : list Renderer.Call) (p : Renderer2D.Process),
    Renderer.run calls p = Renderer2D.run (Renderer.calls_2D calls) p.
Proof. exact facade_run. Qed.

(** X5: the editor's tick can be repeated.  Started with no pass open,
    any number of Editor::OnTick calls in a row returns, leaves the renderer
    state as it was and sends two GL commands per tick; started with a pass
    left open, the first tick aborts. *)
Theorem Editor_ticks_never_abort :
  forall (n : nat) (f : SengineEditor.Frame),
    (Renderer2D.m_CurrentRenderIndex (SengineEditor.renderer f) = 0 ->
     exists f' : SengineEditor.Frame,
       SengineEditor.ticks n f = Returns f'
       /\ SengineEditor.renderer f' = SengineEditor.renderer f
       /\ List.length (SengineEditor.gl f') = (List.length (SengineEditor.gl f) + 2 * n)%nat)
    /\ (Renderer2D.m_CurrentRenderIndex (SengineEditor.renderer f) = 1 ->
        aborted (SengineEditor.ticks (S n) f) = true).
Proof.
  intros n f. split.
  - revert f. induction n as [| n IH]; intros f H0.
    + exists f. repeat split. simpl. lia.
    + simpl. rewrite (Editor_OnTick_closed f H0). simpl.
      destruct (IH (SengineEditor.mkFrame
                      (SengineEditor.gl f
                         ++ [SengineEditor.glClear 16640;
                             SengineEditor.glClearColor "0.25f" "0.6f" "0.75f" "1.0f"])
                      (SengineEditor.renderer f)) H0) as (f' & Ht & Hr & Hl).
      exists f'. split; [exact Ht |]. split; [exact Hr |].
      rewrite Hl. simpl. rewrite length_app. simpl. lia.
  - intros H1. simpl. pose proof (Editor_OnTick_open f H1) as Ha.
    destruct (SengineEditor.OnTick f); [discriminate | reflexivity].
Qed.

Lemma Editor_ticks_never_abort_witness :
  exists f' : SengineEditor.Frame,
    SengineEditor.ticks 3
      (SengineEditor.mkFrame [] (Renderer2D.initial (Assertion.mkDisk "" true)))
    = Returns f'
    /\ SengineEditor.renderer f' = Renderer2D.initial (Assertion.mkDisk "" true)
    /\ List.length (SengineEditor.gl f') = (0 + 2 * 3)%nat.
Proof.
  apply (proj1 (Editor_ticks_never_abort 3
                  (SengineEditor.mkFrame []
                     (Renderer2D.initial (Assertion.mkDisk "" true))))).
  reflexivity.
Defined.

(** ** Key tables and input events *)

Section MoreKeyFacts.
Import Win32 Swindow.

Lemma find_Some_In {V : Type} (key : Z) (v : V) (m : list (Z * V)) :
  find Z.eqb key m = Some v -> In (key, v) m.
Proof.
  induction m as [| [k x] m IH]; simpl; [discriminate |].
  destruct (Z.eqb_spec k key) as [-> | Hne].
  - intros [= ->]. now left.
  - intros H. right. now apply IH.
Qed.

Lemma Convert_cases (n : Z) :
  ConvertNativeKeyCodes n = Key_Unknown
  \/ In (n, ConvertNativeKeyCodes n) keyMap_Convert.
Proof.
  unfold ConvertNativeKeyCodes.
  destruct (find Z.eqb n keyMap_Convert) as [k |] eqn:E; [| now left].
  right. now apply find_Some_In.
Qed.

Lemma wrap_int_small (z : Z) : - 2 ^ 31 <= z < 2 ^ 31 -> wrap_int z = z.
Proof. intros H. unfold wrap_int. rewrite Z.mod_small; lia. Qed.

Lemma LOWORD_MAKELPARAM_any (lo hi : Z) : LOWORD (MAKELPARAM lo hi) = lo mod 2 ^ 16.
Proof.
  unfold LOWORD, MAKELPARAM.
  change 65535 with (Z.ones 16). rewrite !Z.land_ones by lia.
  apply Z.bits_inj'. intros n Hn.
  destruct (Z.lt_ge_cases n 16) as [Hlt | Hge].
  - rewrite !Z.mod_pow2_bits_low by lia.
    rewrite Z.lor_spec, Z.shiftl_spec_low by lia.
    rewrite Z.mod_pow2_bits_low by lia. apply orb_false_r.
  - rewrite !Z.mod_pow2_bits_high by lia. reflexivity.
Qed.

Lemma HIWORD_MAKELPARAM_any (lo hi : Z) : HIWORD (MAKELPARAM lo hi) = hi mod 2 ^ 16.
Proof.
  unfold HIWORD, MAKELPARAM.
  change 65535 with (Z.ones 16). rewrite !Z.land_ones by lia.
  apply Z.bits_inj'. intros n Hn.
  destruct (Z.lt_ge_cases n 16) as [Hlt | Hge].
  - rewrite !Z.mod_pow2_bits_low by lia.
    rewrite Z.shiftr_spec, Z.lor_spec, Z.shiftl_spec by lia.
    replace (n + 16 - 16) with n by lia.
    rewrite Z.mod_pow2_bits_high by lia.
    rewrite Z.mod_pow2_bits_low by lia. reflexivity.
  - rewrite !Z.mod_pow2_bits_high by lia. reflexivity.
Qed.

End MoreKeyFacts.

(** X6: the two key tables are inverse to each other.  A native code
    converts to a KeyCode other than Unknown exactly when that KeyCode has
    this native code and the code is not -1. *)
Theorem key_tables_are_inverse :
  forall (n : Z) (k : Swindow.KeyCode),
    (Swindow.ConvertNativeKeyCodes n = k /\ k <> Swindow.Key_Unknown)
    <-> (Swindow.GetNativeKeyCodes k = n /\ n <> -1).
Proof.
  intros n k. split.
  - intros [Hc Hk]. subst k.
    destruct (Convert_cases n) as [Hu | Hin]; [contradiction |].
    assert (Hn : In n (map fst Swindow.keyMap_Convert))
      by (apply in_map_iff; exists (n, Swindow.ConvertNativeKeyCodes n); auto).
    split; [now apply native_round_trip |].
    cbv [Swindow.keyMap_Convert map fst In] in Hn.
    repeat (destruct Hn as [<- | Hn]; [vm_compute; discriminate |]).
    contradiction.
  - intros [Hg Hn]. subst n.
    destruct k; vm_compute in Hn; try (exfalso; apply Hn; reflexivity);
      split; try (vm_compute; reflexivity); discriminate.
Qed.

(** X7: the number keys are out of reach.  No native key code converts
    to Num0 .. Num9 or Count, the codes of the digit characters '0' .. '9'
    convert to Unknown, and IsKeyDown asked about a number key, Unknown or
    Count queries the key state of the virtual key -1.  *)
Theorem number_keys_unreachable :
  forall (n : Z) (key_state : Z -> Z) (k : Swindow.KeyCode),
    Keys.unmapped (Swindow.ConvertNativeKeyCodes n)
    = Swindow.KeyCode_eqb (Swindow.ConvertNativeKeyCodes n) Swindow.Key_Unknown
    /\ (48 <= n <= 57 -> Swindow.ConvertNativeKeyCodes n = Swindow.Key_Unknown)
    /\ (Keys.unmapped k = true ->
        Swindow.IsKeyDown key_state k = negb (key_state (-1) =? 0)).
Proof.
  intros n key_state k. split; [| split].
  - destruct (Convert_cases n) as [-> | Hin]; [reflexivity |].
    cbv [Swindow.keyMap_Convert In] in Hin.
    repeat (destruct Hin as [[= <- <-] | Hin]; [reflexivity |]).
    contradiction.
  - intros H.
    assert (Hn : n = 48 \/ n = 49 \/ n = 50 \/ n = 51 \/ n = 52 \/ n = 53
                 \/ n = 54 \/ n = 55 \/ n = 56 \/ n = 57) by lia.
    repeat (destruct Hn as [-> | Hn]; [reflexivity |]). subst n. reflexivity.
  - destruct k; simpl; intros H; try discriminate H; reflexivity.
Qed.

Lemma number_keys_unreachable_witness :
  Swindow.ConvertNativeKeyCodes 53 = Swindow.Key_Unknown
  /\ Swindow.IsKeyDown Sample.escape_held Swindow.Key_Num5 = false.
Proof.
  split.
  - apply (proj1 (proj2 (number_keys_unreachable 53 Sample.escape_held Swindow.Key_Num5))).
    lia.
  - apply (proj2 (proj2 (number_keys_unreachable 53 Sample.escape_held Swindow.Key_Num5))).
    reflexivity.
Defined.

(** ** What the window procedure does and does not touch *)

Section MoreWindowProcFacts.
Import Win32 Swindow.
Context {Client : Type}.

Ltac split_WindowProc :=
  unfold WindowProc;
  repeat match goal with
         | |- context [if ?b then _ else _] => destruct b eqn:?
         | |- context [match ?o with Some _ => _ | None => _ end] => destruct o eqn:?
         end.

Lemma WindowProc_window_frame (m : MSG) (w : Window Client) (p : Process Client) :
  m_WindowCallbacks (fst (snd (WindowProc m w p))) = m_WindowCallbacks w
  /\ m_NativeWindow (fst (snd (WindowProc m w p))) = m_NativeWindow w
  /\ Title (m_WindowDescription (fst (snd (WindowProc m w p))))
     = Title (m_WindowDescription w)
  /\ implb (m_IsRunning (fst (snd (WindowProc m w p)))) (m_IsRunning w) = true.
Proof.
  split_WindowProc; simpl; repeat split; try reflexivity;
    destruct (m_IsRunning w); reflexivity.
Qed.

Lemma WindowProc_system_frame (m : MSG) (w : Window Client) (p : Process Client) :
  live_window (system (snd (snd (WindowProc m w p)))) = live_window (system p)
  /\ current_context (system (snd (snd (WindowProc m w p))))
     = current_context (system p)
  /\ message_boxes (system (snd (snd (WindowProc m w p)))) = message_boxes (system p)
  /\ buffer_swaps (system (snd (snd (WindowProc m w p)))) = buffer_swaps (system p)
  /\ stdout (snd (snd (WindowProc m w p))) = stdout p
  /\ registered (snd (snd (WindowProc m w p))) = registered p
  /\ implb (quit_posted (system p)) (quit_posted (system (snd (snd (WindowProc m w p)))))
     = true.
Proof.
  split_WindowProc; simpl; repeat split; try reflexivity;
    destruct (quit_posted (system p)); reflexivity.
Qed.

Lemma WindowProc_invokes_at_most_one (m : MSG) (w : Window Client) (p : Process Client) :
  exists added : list Invocation,
    invoked (snd (snd (WindowProc m w p))) = invoked p ++ added
    /\ (List.length added <= 1)%nat.
Proof.
  split_WindowProc; simpl;
    first [ exists []; split; [now rewrite app_nil_r | simpl; lia]
          | eexists [_]; split; [reflexivity | simpl; lia] ].
Qed.

Lemma WindowProc_size_only (m : MSG) (w : Window Client) (p : Process Client) :
  uMsg m <> WM_SIZE ->
  m_WindowDescription (fst (snd (WindowProc m w p))) = m_WindowDescription w.
Proof.
  intros Hm. split_WindowProc; try reflexivity.
  match goal with
  | E : (uMsg m =? WM_SIZE) = true |- _ => apply Z.eqb_eq in E; contradiction
  end.
Qed.

Lemma dispatch_cons (m : MSG) (ms : list MSG) (w : Window Client) (p : Process Client) :
  dispatch (m :: ms) w p
  = dispatch ms (fst (snd (WindowProc m w p))) (snd (snd (WindowProc m w p))).
Proof.
  unfold dispatch. simpl. destruct (WindowProc m w p) as [lr [w1 p1]]. reflexivity.
Qed.

Lemma dispatch_frame (ms : list MSG) :
  forall (w : Window Client) (p : Process Client),
    (m_WindowCallbacks (fst (dispatch ms w p)) = m_WindowCallbacks w
     /\ m_NativeWindow (fst (dispatch ms w p)) = m_NativeWindow w
     /\ Title (m_WindowDescription (fst (dispatch ms w p)))
        = Title (m_WindowDescription w)
     /\ implb (m_IsRunning (fst (dispatch ms w p))) (m_IsRunning w) = true)
    /\ (live_window (system (snd (dispatch ms w p))) = live_window (system p)
        /\ user_data (system (snd (dispatch ms w p))) = user_data (system p)
        /\ current_context (system (snd (dispatch ms w p))) = current_context (system p)
        /\ message_boxes (system (snd (dispatch ms w p))) = message_boxes (system p)
        /\ buffer_swaps (system (snd (dispatch ms w p))) = buffer_swaps (system p)
        /\ stdout (snd (dispatch ms w p)) = stdout p
        /\ registered (snd (dispatch ms w p)) = registered p)
    /\ exists added : list Invocation,
         invoked (snd (dispatch ms w p)) = invoked p ++ added
         /\ (List.length added <= List.length ms)%nat.
Proof.
  induction ms as [| m ms IH]; intros w p.
  - cbn. repeat split; try reflexivity.
    + now destruct (m_IsRunning w).
    + exists []. split; [now rewrite app_nil_r | simpl; lia].
  - rewrite dispatch_cons.
    destruct (IH (fst (snd (WindowProc m w p))) (snd (snd (WindowProc m w p))))
      as ((Hc & Hn & Ht & Hr) & (Hl & Hu & Hcc & Hmb & Hbs & Hso & Hrg) & added & Hi & Hlen).
    destruct (WindowProc_window_frame m w p) as (Hc1 & Hn1 & Ht1 & Hr1).
    destruct (WindowProc_system_frame m w p) as (Hl1 & Hcc1 & Hmb1 & Hbs1 & Hso1 & Hrg1 & _).
    destruct (WindowProc_invokes_at_most_one m w p) as (added1 & Hi1 & Hlen1).
    pose proof (WindowProc_keeps_user_data m w p) as Hu1.
    repeat split; try congruence.
    + destruct (m_IsRunning (fst (dispatch ms _ _)));
        destruct (m_IsRunning (fst (snd (WindowProc m w p))));
        destruct (m_IsRunning w); simpl in *; congruence.
    + exists (added1 ++ added). split.
      * rewrite Hi, Hi1, app_assoc. reflexivity.
      * rewrite length_app. simpl. lia.
Qed.

Lemma dispatch_inert_without_user_data (ms : list MSG) :
  forall (w : Window Client) (p : Process Client),
    user_data (system p) = false -> dispatch ms w p = (w, p).
Proof.
  induction ms as [| m ms IH]; intros w p Hu; [reflexivity |].
  rewrite dispatch_cons. unfold WindowProc. rewrite Hu. simpl. now apply IH.
Qed.

Lemma WindowProc_inert_without_callbacks (m : MSG) (w : Window Client)
      (p : Process Client) :
  m_WindowCallbacks w = no_callbacks ->
  uMsg m <> WM_CLOSE -> uMsg m <> WM_DESTROY ->
  snd (WindowProc m w p) = (w, p).
Proof.
  intros Hc Hclose Hdestroy. unfold WindowProc, GetWindowCallbacks. rewrite Hc.
  cbn [no_callbacks WindowResizeCallback WindowCloseCallback WindowKeyCallback
       WindowMouseCallback WindowMouseMoveCallback WindowCharacterCallback].
  repeat match goal with
         | |- context [if ?b then _ else _] => destruct b eqn:?
         end; try reflexivity;
    match goal with
    | E : (uMsg m =? WM_CLOSE) = true |- _ => apply Z.eqb_eq in E; contradiction
    | E : (uMsg m =? WM_DESTROY) = true |- _ => apply Z.eqb_eq in E; contradiction
    end.
Qed.

Lemma WindowProc_key (m : MSG) (w : Window Client) (p : Process Client)
      (cb : KeyCode -> bool -> Client -> Client) (pressed : bool) :
  user_data (system p) = true ->
  uMsg m = (if pressed then WM_KEYDOWN else WM_KEYUP) ->
  WindowKeyCallback (GetWindowCallbacks w) = Some cb ->
  snd (WindowProc m w p)
  = (w, invoke (KeyInvoked (ConvertNativeKeyCodes (wrap_int (wParam m))) pressed)
          (cb (ConvertNativeKeyCodes (wrap_int (wParam m))) pressed) p).
Proof.
  intros Hu Hm Hcb. unfold WindowProc. rewrite Hu, Hm, Hcb.
  destruct pressed; reflexivity.
Qed.

Lemma WindowProc_left_button (m : MSG) (w : Window Client) (p : Process Client)
      (cb : MouseButton -> bool -> Client -> Client) (pressed : bool) :
  user_data (system p) = true ->
  uMsg m = (if pressed then WM_LBUTTONDOWN else WM_LBUTTONUP) ->
  WindowMouseCallback (GetWindowCallbacks w) = Some cb ->
  snd (WindowProc m w p)
  = (w, invoke (MouseInvoked LeftMouseButton pressed) (cb LeftMouseButton pressed) p).
Proof.
  intros Hu Hm Hcb. unfold WindowProc. rewrite Hu, Hm, Hcb.
  destruct pressed; reflexivity.
Qed.

Lemma WindowProc_mouse_move (m : MSG) (w : Window Client) (p : Process Client)
      (cb : Z -> Z -> Client -> Client) :
  user_data (system p) = true ->
  uMsg m = WM_MOUSEMOVE ->
  WindowMouseMoveCallback (GetWindowCallbacks w) = Some cb ->
  snd (WindowProc m w p)
  = (w, invoke (MouseMoveInvoked (LOWORD (lParam m)) (HIWORD (lParam m)))
          (cb (LOWORD (lParam m)) (HIWORD (lParam m))) p).
Proof.
  intros Hu Hm Hcb. unfold WindowProc. rewrite Hu, Hm, Hcb. reflexivity.
Qed.

Lemma WindowProc_char (m : MSG) (w : Window Client) (p : Process Client)
      (cb : Z -> Client -> Client) :
  user_data (system p) = true ->
  uMsg m = WM_CHAR ->
  WindowCharacterCallback (GetWindowCallbacks w) = Some cb ->
  snd (WindowProc m w p)
  = (w, invoke (CharacterInvoked (wParam m mod 256)) (cb (wParam m mod 256)) p).
Proof.
  intros Hu Hm Hcb. unfold WindowProc. rewrite Hu, Hm, Hcb. simpl.
  change 255 with (Z.ones 8). rewrite Z.land_ones by lia.
  change (2 ^ 8) with 256.
  destruct (Z.eqb_spec (wParam m mod 256) 8) as [E | E]; [rewrite E |]; reflexivity.
Qed.

End MoreWindowProcFacts.

(** X8: key and left-button events report press and release correctly.
    While the callback is registered, WM_KEYDOWN and WM_KEYUP invoke the key
    callback with the converted key code and true, respectively false; the
    WPARAM is narrowed to int first, which changes nothing for values in int
    range.  WM_LBUTTONDOWN and WM_LBUTTONUP invoke the mouse callback with
    the left button and true, respectively false.  The window is unchanged. *)
Theorem key_and_left_button_polarity :
  forall (Client : Type) (m : Win32.MSG) (pressed : bool)
         (win : Swindow.Window Client) (p : Swindow.Process Client),
    Swindow.user_data (Swindow.system p) = true ->
    (forall cb : Swindow.KeyCode -> bool -> Client -> Client,
        Swindow.WindowKeyCallback (Swindow.GetWindowCallbacks win) = Some cb ->
        Win32.uMsg m = (if pressed then Win32.WM_KEYDOWN else Win32.WM_KEYUP) ->
        - 2 ^ 31 <= Win32.wParam m < 2 ^ 31 ->
        snd (Swindow.WindowProc m win p)
        = (win,
           Swindow.invoke
             (Swindow.KeyInvoked (Swindow.ConvertNativeKeyCodes (Win32.wParam m)) pressed)
             (cb (Swindow.ConvertNativeKeyCodes (Win32.wParam m)) pressed) p))
    /\ (forall cb : Swindow.MouseButton -> bool -> Client -> Client,
           Swindow.WindowMouseCallback (Swindow.GetWindowCallbacks win) = Some cb ->
           Win32.uMsg m = (if pressed then Win32.WM_LBUTTONDOWN else Win32.WM_LBUTTONUP) ->
           snd (Swindow.WindowProc m win p)
           = (win,
              Swindow.invoke (Swindow.MouseInvoked Swindow.LeftMouseButton pressed)
                (cb Swindow.LeftMouseButton pressed) p)).
Proof.
  intros Client m pressed win p Hu. split.
  - intros cb Hcb Hm Hrange.
    rewrite (WindowProc_key m win p cb pressed Hu Hm Hcb).
    rewrite (wrap_int_small _ Hrange). reflexivity.
  - intros cb Hcb Hm. exact (WindowProc_left_button m win p cb pressed Hu Hm Hcb).
Qed.

Lemma key_and_left_button_polarity_witness :
  snd (Swindow.WindowProc (Win32.mkMSG Win32.WM_LBUTTONDOWN 1 0)
         (Swindow.SetWindowMouseCallback Sample.count_mouse Sample.window)
         Sample.process)
  = (Swindow.SetWindowMouseCallback Sample.count_mouse Sample.window,
     Swindow.invoke (Swindow.MouseInvoked Swindow.LeftMouseButton true)
       (Sample.count_mouse Swindow.LeftMouseButton true) Sample.process).
Proof.
  apply (proj2 (key_and_left_button_polarity nat (Win32.mkMSG Win32.WM_LBUTTONDOWN 1 0)
                  true (Swindow.SetWindowMouseCallback Sample.count_mouse Sample.window)
                  Sample.process eq_refl)
           Sample.count_mouse eq_refl eq_refl).
Defined.

(** X9: mouse coordinates lose their sign.  For a WM_MOUSEMOVE whose
    lParam packs the coordinates x and y, the mouse-move callback receives x
    and y reduced modulo 65536: values from 0 to 65535 arrive as they are, a
    negative coordinate arrives as a large positive one. *)
Theorem mouse_move_coordinates_are_unsigned_words :
  forall (Client : Type) (x y wParam : Z)
         (win : Swindow.Window Client) (p : Swindow.Process Client)
         (cb : Z -> Z -> Client -> Client),
    Swindow.user_data (Swindow.system p) = true ->
    Swindow.WindowMouseMoveCallback (Swindow.GetWindowCallbacks win) = Some cb ->
    snd (Swindow.WindowProc
           (Win32.mkMSG Win32.WM_MOUSEMOVE wParam (Win32.MAKELPARAM x y)) win p)
    = (win,
       Swindow.invoke (Swindow.MouseMoveInvoked (x mod 65536) (y mod 65536))
         (cb (x mod 65536) (y mod 65536)) p)
    /\ 0 <= x mod 65536 < 65536 /\ 0 <= y mod 65536 < 65536.
Proof.
  intros Client x y wParam win p cb Hu Hcb. split.
  - rewrite (WindowProc_mouse_move
               (Win32.mkMSG Win32.WM_MOUSEMOVE wParam (Win32.MAKELPARAM x y))
               win p cb Hu eq_refl Hcb).
    cbn [Win32.lParam].
    rewrite LOWORD_MAKELPARAM_any, HIWORD_MAKELPARAM_any. reflexivity.
  - split; apply Z.mod_pos_bound; lia.
Qed.

Lemma mouse_move_coordinates_are_unsigned_words_witness :
  snd (Swindow.WindowProc
         (Win32.mkMSG Win32.WM_MOUSEMOVE 0 (Win32.MAKELPARAM (-1) 20))
         (Swindow.SetWindowMouseMoveCallback Sample.count_resize Sample.window)
         Sample.process)
  = (Swindow.SetWindowMouseMoveCallback Sample.count_resize Sample.window,
     Swindow.invoke (Swindow.MouseMoveInvoked 65535 20)
       (Sample.count_resize 65535 20) Sample.process).
Proof.
  apply (proj1 (mouse_move_coordinates_are_unsigned_words nat (-1) 20 0
                  (Swindow.SetWindowMouseMoveCallback Sample.count_resize Sample.window)
                  Sample.process Sample.count_resize eq_refl eq_refl)).
Defined.

(** X10: a WM_CHAR event hands the character callback the low byte of
    wParam, whatever the character is: the branch for backspace passes the
    same value as the general branch, and the bits above the eighth are
    dropped. *)
Theorem character_callback_gets_low_byte :
  forall (Client : Type) (m : Win32.MSG)
         (win : Swindow.Window Client) (p : Swindow.Process Client)
         (cb : Z -> Client -> Client),
    Swindow.user_data (Swindow.system p) = true ->
    Win32.uMsg m = Win32.WM_CHAR ->
    Swindow.WindowCharacterCallback (Swindow.GetWindowCallbacks win) = Some cb ->
    snd (Swindow.WindowProc m win p)
    = (win,
       Swindow.invoke (Swindow.CharacterInvoked (Win32.wParam m mod 256))
         (cb (Win32.wParam m mod 256)) p).
Proof. intros Client m win p cb. apply WindowProc_char. Qed.

Lemma character_callback_gets_low_byte_witness :
  snd (Swindow.WindowProc (Win32.mkMSG Win32.WM_CHAR 8 0)
         (Swindow.SetWindowCharacterCallback (fun c n => S n) Sample.window)
         Sample.process)
  = (Swindow.SetWindowCharacterCallback (fun c n => S n) Sample.window,
     Swindow.invoke (Swindow.CharacterInvoked 8) S Sample.process).
Proof.
  apply (character_callback_gets_low_byte nat (Win32.mkMSG Win32.WM_CHAR 8 0)
           (Swindow.SetWindowCharacterCallback (fun c n => S n) Sample.window)
           Sample.process (fun c n => S n) eq_refl eq_refl eq_refl).
Defined.

(** X11: messages that change nothing.  A message handled before the
    native window is stored in the window's user data leaves window and
    process untouched and is answered by DefWindowProc; the same holds, for
    any message other than WM_CLOSE and WM_DESTROY, while no callback is
    registered. *)
Theorem messages_without_effect :
  forall (Client : Type) (m : Win32.MSG)
         (win : Swindow.Window Client) (p : Swindow.Process Client),
    (Swindow.user_data (Swindow.system p) = false ->
     Swindow.WindowProc m win p = (Swindow.LRESULT_DefWindowProc, (win, p)))
    /\ (Swindow.m_WindowCallbacks win = Swindow.no_callbacks ->
        Win32.uMsg m <> Win32.WM_CLOSE -> Win32.uMsg m <> Win32.WM_DESTROY ->
        snd (Swindow.WindowProc m win p) = (win, p)).
Proof.
  intros Client m win p. split.
  - intros Hu. unfold Swindow.WindowProc. rewrite Hu. reflexivity.
  - apply WindowProc_inert_without_callbacks.
Qed.

Lemma messages_without_effect_witness :
  snd (Swindow.WindowProc (Win32.mkMSG Win32.WM_KEYDOWN 65 0) Sample.window Sample.process)
  = (Sample.window, Sample.process).
Proof.
  apply (proj2 (messages_without_effect nat (Win32.mkMSG Win32.WM_KEYDOWN 65 0)
                  Sample.window Sample.process));
    [reflexivity | discriminate | discriminate].
Defined.

(** X12: what event handling never does.  Whatever messages are
    dispatched, the registered callbacks, the native window's handles and the
    title stay as they were, the running flag is never switched on, the
    window system's record of the window, the current context, the dialogs,
    the buffer swaps, the log output and the class registration flag are
    untouched, and at most one callback invocation is added per message. *)
Theorem dispatch_frame_conditions :
  forall (Client : Type) (ms : list Win32.MSG)
         (win : Swindow.Window Client) (p : Swindow.Process Client),
    (Swindow.m_WindowCallbacks (fst (Swindow.dispatch ms win p))
     = Swindow.m_WindowCallbacks win
     /\ Swindow.m_NativeWindow (fst (Swindow.dispatch ms win p))
        = Swindow.m_NativeWindow win
     /\ Swindow.Title (Swindow.m_WindowDescription (fst (Swindow.dispatch ms win p)))
        = Swindow.Title (Swindow.m_WindowDescription win)
     /\ implb (Swindow.m_IsRunning (fst (Swindow.dispatch ms win p)))
          (Swindow.m_IsRunning win) = true)
    /\ (Swindow.live_window (Swindow.system (snd (Swindow.dispatch ms win p)))
        = Swindow.live_window (Swindow.system p)
        /\ Swindow.user_data (Swindow.system (snd (Swindow.dispatch ms win p)))
           = Swindow.user_data (Swindow.system p)
        /\ Swindow.current_context (Swindow.system (snd (Swindow.dispatch ms win p)))
           = Swindow.current_context (Swindow.system p)
        /\ Swindow.message_boxes (Swindow.system (snd (Swindow.dispatch ms win p)))
           = Swindow.message_boxes (Swindow.system p)
        /\ Swindow.buffer_swaps (Swindow.system (snd (Swindow.dispatch ms win p)))
           = Swindow.buffer_swaps (Swindow.system p)
        /\ Swindow.stdout (snd (Swindow.dispatch ms win p)) = Swindow.stdout p
        /\ Swindow.registered (snd (Swindow.dispatch ms win p)) = Swindow.registered p)
    /\ exists added : list Swindow.Invocation,
         Swindow.invoked (snd (Swindow.dispatch ms win p)) = Swindow.invoked p ++ added
         /\ (List.length added <= List.length ms)%nat.
Proof. intros Client ms win p. apply dispatch_frame. Qed.

(** X13: only a resize changes the size.  Dispatching messages none of
    which is WM_SIZE leaves the whole WindowDescription as it was. *)
Theorem description_changes_only_on_resize :
  forall (Client : Type) (ms : list Win32.MSG)
         (win : Swindow.Window Client) (p : Swindow.Process Client),
    forallb (fun m => negb (Win32.uMsg m =? Win32.WM_SIZE)) ms = true ->
    Swindow.GetWindowDescription (fst (Swindow.dispatch ms win p))
    = Swindow.GetWindowDescription win.
Proof.
  intros Client ms. induction ms as [| m ms IH]; intros win p Hall; [reflexivity |].
  simpl in Hall. apply andb_prop in Hall as [Hm Hrest].
  rewrite dispatch_cons, (IH _ _ Hrest).
  apply WindowProc_size_only.
  intros E. rewrite E in Hm. discriminate.
Qed.

Lemma description_changes_only_on_resize_witness :
  Swindow.GetWindowDescription
    (fst (Swindow.dispatch
            [Win32.mkMSG Win32.WM_MOUSEMOVE 0 0; Win32.mkMSG Win32.WM_CLOSE 0 0]
            (Swindow.SetWindowResizeCallback Sample.count_resize Sample.window)
            Sample.process))
  = Swindow.GetWindowDescription
      (Swindow.SetWindowResizeCallback Sample.count_resize Sample.window).
Proof.
  apply (description_changes_only_on_resize nat
           [Win32.mkMSG Win32.WM_MOUSEMOVE 0 0; Win32.mkMSG Win32.WM_CLOSE 0 0]
           (Swindow.SetWindowResizeCallback Sample.count_resize Sample.window)
           Sample.process).
  reflexivity.
Defined.

(** ** Creation, context and destruction of the native window *)

Section LifecycleFacts.
Import Win32 Swindow.
Context {Client : Type}.

Lemma Native_CreateContext_frame (pf : Platform) (major minor : Z) (legacy : bool)
      (n : Win32NativeWindow) (p : Process Client) :
  m_WindowHandle (fst (Native_CreateContext pf major minor legacy n p)) = m_WindowHandle n
  /\ m_DeviceContext (fst (Native_CreateContext pf major minor legacy n p))
     = m_DeviceContext n
  /\ m_Instance (fst (Native_CreateContext pf major minor legacy n p)) = m_Instance n
  /\ live_window (system (snd (Native_CreateContext pf major minor legacy n p)))
     = live_window (system p)
  /\ user_data (system (snd (Native_CreateContext pf major minor legacy n p)))
     = user_data (system p)
  /\ client (snd (Native_CreateContext pf major minor legacy n p)) = client p
  /\ invoked (snd (Native_CreateContext pf major minor legacy n p)) = invoked p
  /\ stdout (snd (Native_CreateContext pf major minor legacy n p)) = stdout p.
Proof.
  unfold Native_CreateContext.
  cbv zeta.
  destruct (GetExternalAddress pf =? 0); [cbn; repeat split; reflexivity |].
  destruct legacy;
    match goal with
    | |- context [if ?b then _ else _] => destruct b
    end; cbn; repeat split; reflexivity.
Qed.

Lemma Destroy_record (w : Window Client) (p : Process Client) :
  fst (Swindow.Destroy w p) = w
  /\ client (snd (Swindow.Destroy w p)) = client p
  /\ invoked (snd (Swindow.Destroy w p)) = invoked p
  /\ stdout (snd (Swindow.Destroy w p)) = stdout p ++ ["Destroyed Window"]
  /\ current_context (system (snd (Swindow.Destroy w p))) = 0
  /\ live_window (system (snd (Swindow.Destroy w p)))
     = live_window (system p) && (m_WindowHandle (m_NativeWindow w) =? 0)
  /\ user_data (system (snd (Swindow.Destroy w p)))
     = user_data (system p)
       && negb (live_window (system p) && negb (m_WindowHandle (m_NativeWindow w) =? 0))
  /\ quit_posted (system (snd (Swindow.Destroy w p)))
     = quit_posted (system p)
       || (live_window (system p) && negb (m_WindowHandle (m_NativeWindow w) =? 0)
           && user_data (system p)).
Proof.
  unfold Swindow.Destroy, Native_Destroy, DestroyWindow.
  destruct p as [c inv [lw ud cc qp mb bs] so rg]. cbn.
  destruct lw, (m_WindowHandle (m_NativeWindow w) =? 0), ud, qp; cbn;
    repeat split; reflexivity.
Qed.

Lemma Destroy_twice (w : Window Client) (p : Process Client) :
  Swindow.Destroy (fst (Swindow.Destroy w p)) (snd (Swindow.Destroy w p))
  = (w, Log "Destroyed Window" (snd (Swindow.Destroy w p))).
Proof.
  unfold Swindow.Destroy, Native_Destroy, DestroyWindow.
  destruct p as [c inv [lw ud cc qp mb bs] so rg]. cbn.
  destruct lw, (m_WindowHandle (m_NativeWindow w) =? 0) eqn:E, ud, qp; cbn;
    rewrite ?E; cbn; reflexivity.
Qed.

Lemma RegisterWindowClass_once (pf pf' : Platform) (p : Process Client) :
  RegisterWindowClass pf' (RegisterWindowClass pf p) = RegisterWindowClass pf p
  /\ registered (RegisterWindowClass pf p) = true.
Proof.
  unfold RegisterWindowClass. destruct (registered p) eqn:E.
  - rewrite E. split; [reflexivity | assumption || reflexivity].
  - destruct (RegisterClassEx_ok pf); simpl; split; reflexivity.
Qed.

Lemma Create_facts (description : WindowDescription) (pf : Platform)
      (uninit : Win32NativeWindow) (p : Process Client) :
  m_WindowDescription (fst (Swindow.Create description pf uninit p)) = description
  /\ m_WindowCallbacks (fst (Swindow.Create description pf uninit p)) = no_callbacks
  /\ m_IsRunning (fst (Swindow.Create description pf uninit p)) = true
  /\ m_WindowHandle (m_NativeWindow (fst (Swindow.Create description pf uninit p)))
     = CreateWindowEx_result pf
  /\ live_window (system (snd (Swindow.Create description pf uninit p)))
     = negb (CreateWindowEx_result pf =? 0) || live_window (system p)
  /\ user_data (system (snd (Swindow.Create description pf uninit p)))
     = negb (CreateWindowEx_result pf =? 0) || user_data (system p).
Proof.
  unfold Swindow.Create, Win32NativeWindow_new, RegisterWindowClass.
  destruct (CreateWindowEx_result pf =? 0) eqn:E; cbn;
    destruct (registered p), (RegisterClassEx_ok pf); cbn; repeat split; try reflexivity;
      try (symmetry; exact E).
Qed.

End LifecycleFacts.

(** X14: what Window::Destroy does.  It invokes no callback and leaves
    the Window object as it is, the stale handles of the native window
    included; afterwards no context is current and "Destroyed Window" has
    been logged.  If a native window existed it is gone, its user data with
    it, and WM_DESTROY has made the window procedure post the quit message;
    if none existed the window system's record is unchanged. *)
Theorem Destroy_effects :
  forall (Client : Type) (w : Swindow.Window Client) (p : Swindow.Process Client),
    fst (Swindow.Destroy w p) = w
    /\ Swindow.client (snd (Swindow.Destroy w p)) = Swindow.client p
    /\ Swindow.invoked (snd (Swindow.Destroy w p)) = Swindow.invoked p
    /\ Swindow.stdout (snd (Swindow.Destroy w p))
       = Swindow.stdout p ++ ["Destroyed Window"]
    /\ Swindow.current_context (Swindow.system (snd (Swindow.Destroy w p))) = 0
    /\ Swindow.live_window (Swindow.system (snd (Swindow.Destroy w p)))
       = Swindow.live_window (Swindow.system p)
         && (Swindow.m_WindowHandle (Swindow.m_NativeWindow w) =? 0)
    /\ Swindow.user_data (Swindow.system (snd (Swindow.Destroy w p)))
       = Swindow.user_data (Swindow.system p)
         && negb (Swindow.live_window (Swindow.system p)
                  && negb (Swindow.m_WindowHandle (Swindow.m_NativeWindow w) =? 0))
    /\ Swindow.quit_posted (Swindow.system (snd (Swindow.Destroy w p)))
       = Swindow.quit_posted (Swindow.system p)
         || (Swindow.live_window (Swindow.system p)
             && negb (Swindow.m_WindowHandle (Swindow.m_NativeWindow w) =? 0)
             && Swindow.user_data (Swindow.system p)).
Proof. intros Client w p. apply Destroy_record. Qed.

(** X15: destroying twice is harmless.  A second Window::Destroy finds
    no window to destroy: it changes neither the Window object nor the
    window system and only writes its log line once more. *)
Theorem Destroy_is_idempotent :
  forall (Client : Type) (w : Swindow.Window Client) (p : Swindow.Process Client),
    Swindow.Destroy (fst (Swindow.Destroy w p)) (snd (Swindow.Destroy w p))
    = (w, Swindow.Log "Destroyed Window" (snd (Swindow.Destroy w p))).
Proof. intros Client w p. apply Destroy_twice. Qed.

(** X16: no event reaches a destroyed window.  Take a process without a
    window, create the window and its context, let it handle any messages,
    and destroy it: whatever messages are dispatched after that, whether or
    not the native creation had succeeded, window and process stay as
    Destroy left them and no callback runs. *)
Theorem no_events_after_Destroy :
  forall (Client : Type) (description : Swindow.WindowDescription)
         (pf : Swindow.Platform) (uninit : Swindow.Win32NativeWindow)
         (major minor : Z) (legacy : bool)
         (during after : list Win32.MSG) (p : Swindow.Process Client),
    Swindow.live_window (Swindow.system p) = false ->
    Swindow.user_data (Swindow.system p) = false ->
    Swindow.dispatch after
      (fst (Engine.window_lifetime description pf uninit major minor legacy during p))
      (snd (Engine.window_lifetime description pf uninit major minor legacy during p))
    = Engine.window_lifetime description pf uninit major minor legacy during p.
Proof.
  intros Client description pf uninit major minor legacy during after p Hl Hu.
  unfold Engine.window_lifetime. cbv zeta.
  set (created := Swindow.Create description pf uninit p).
  set (context := Swindow.CreateContext pf major minor legacy (fst created) (snd created)).
  set (lived := Swindow.dispatch during (fst context) (snd context)).
  set (destroyed := Swindow.Destroy (fst lived) (snd lived)).
  rewrite (surjective_pairing destroyed) at 3.
  apply dispatch_inert_without_user_data.
  destruct (Create_facts description pf uninit p) as (_ & _ & _ & Hh & Hlive & Hud).
  fold created in Hh, Hlive, Hud.
  destruct (Native_CreateContext_frame pf major minor legacy
              (Swindow.m_NativeWindow (fst created)) (snd created))
    as (Hh2 & _ & _ & Hl2 & Hu2 & _).
  assert (Hctx_h : Swindow.m_WindowHandle (Swindow.m_NativeWindow (fst context))
                   = Swindow.CreateWindowEx_result pf)
    by (unfold context, Swindow.CreateContext; cbn [fst Swindow.set_native
          Swindow.m_NativeWindow]; congruence).
  assert (Hctx_l : Swindow.live_window (Swindow.system (snd context))
                   = negb (Swindow.CreateWindowEx_result pf =? 0))
    by (unfold context, Swindow.CreateContext; cbn [snd];
        rewrite Hl2, Hlive, Hl; apply orb_false_r).
  assert (Hctx_u : Swindow.user_data (Swindow.system (snd context))
                   = negb (Swindow.CreateWindowEx_result pf =? 0))
    by (unfold context, Swindow.CreateContext; cbn [snd];
        rewrite Hu2, Hud, Hu; apply orb_false_r).
  destruct (dispatch_frame during (fst context) (snd context))
    as ((_ & Hn3 & _) & (Hl3 & Hu3 & _) & _).
  fold lived in Hn3, Hl3, Hu3.
  destruct (Destroy_record (fst lived) (snd lived)) as (_ & _ & _ & _ & _ & _ & Hu4 & _).
  fold destroyed in Hu4.
  rewrite Hu4, Hu3, Hl3, Hn3, Hctx_h, Hctx_l, Hctx_u.
  destruct (Swindow.CreateWindowEx_result pf =? 0); reflexivity.
Qed.

Lemma no_events_after_Destroy_witness :
  Swindow.dispatch [Win32.mkMSG Win32.WM_CLOSE 0 0]
    (fst (Engine.window_lifetime Sample.description Sample.platform_ok Sample.native
            4 6 false [] Sample.boot))
    (snd (Engine.window_lifetime Sample.description Sample.platform_ok Sample.native
            4 6 false [] Sample.boot))
  = Engine.window_lifetime Sample.description Sample.platform_ok Sample.native
      4 6 false [] Sample.boot.
Proof.
  apply (no_events_after_Destroy nat Sample.description Sample.platform_ok Sample.native
           4 6 false [] [Win32.mkMSG Win32.WM_CLOSE 0 0] Sample.boot eq_refl eq_refl).
Defined.

(** X17: the window class is registered at most once per process.  After
    the first RegisterWindowClass the flag is set, also when RegisterClassEx
    failed, and every later call returns at once: no second attempt, no
    second error dialog. *)
Theorem window_class_registered_once :
  forall (Client : Type) (pf pf' : Swindow.Platform) (p : Swindow.Process Client),
    Swindow.RegisterWindowClass pf' (Swindow.RegisterWindowClass pf p)
    = Swindow.RegisterWindowClass pf p
    /\ Swindow.registered (Swindow.RegisterWindowClass pf p) = true
    /\ Swindow.message_boxes (Swindow.system (Swindow.RegisterWindowClass pf p))
       = Swindow.message_boxes (Swindow.system p)
           ++ (if Swindow.registered p || Swindow.RegisterClassEx_ok pf
               then [] else ["Error"]).
Proof.
  intros Client pf pf' p.
  destruct (RegisterWindowClass_once pf pf' p) as (H1 & H2).
  split; [exact H1 |]. split; [exact H2 |].
  unfold Swindow.RegisterWindowClass.
  destruct (Swindow.registered p), (Swindow.RegisterClassEx_ok pf); simpl;
    rewrite ?app_nil_r; reflexivity.
Qed.

(** X18: the three ways CreateContext ends.  If the address of
    wglCreateContextAttribsARB cannot be resolved, the native window is left
    as it was, one dialog is shown and the temporary context stays current.
    If the address resolves but the context is not created, the native
    window is left as it was, one dialog is shown and no context is current.
    Otherwise the new context is stored and made current and no dialog is
    shown.  Window handle, device context and instance never change.  The
    address is unresolved exactly when wglGetProcAddress fails and either
    opengl32.dll does not load or it lacks the function. *)
Theorem CreateContext_outcomes :
  forall (Client : Type) (pf : Swindow.Platform) (major minor : Z) (legacy : bool)
         (n : Swindow.Win32NativeWindow) (p : Swindow.Process Client),
    (Swindow.GetExternalAddress pf = 0 ->
     Swindow.Native_CreateContext pf major minor legacy n p
     = (n, Swindow.MessageBox "Context Creation Failed"
             (Swindow.wglMakeCurrent (Swindow.wglCreateContext_result pf) p)))
    /\ (Swindow.GetExternalAddress pf <> 0 ->
        (if legacy then Swindow.wglCreateContext_legacy_result pf
         else Swindow.wglCreateContextAttribsARB_result pf) = 0 ->
        fst (Swindow.Native_CreateContext pf major minor legacy n p) = n
        /\ Swindow.current_context
             (Swindow.system (snd (Swindow.Native_CreateContext pf major minor legacy n p)))
           = 0
        /\ Swindow.message_boxes
             (Swindow.system (snd (Swindow.Native_CreateContext pf major minor legacy n p)))
           = Swindow.message_boxes (Swindow.system p) ++ ["Error Creating Context"])
    /\ (Swindow.GetExternalAddress pf <> 0 ->
        (if legacy then Swindow.wglCreateContext_legacy_result pf
         else Swindow.wglCreateContextAttribsARB_result pf) <> 0 ->
        fst (Swindow.Native_CreateContext pf major minor legacy n p)
        = Swindow.mkWin32NativeWindow (Swindow.m_WindowHandle n)
            (Swindow.m_DeviceContext n) (Swindow.m_Instance n)
            (if legacy then Swindow.wglCreateContext_legacy_result pf
             else Swindow.wglCreateContextAttribsARB_result pf)
        /\ Swindow.current_context
             (Swindow.system (snd (Swindow.Native_CreateContext pf major minor legacy n p)))
           = (if legacy then Swindow.wglCreateContext_legacy_result pf
              else Swindow.wglCreateContextAttribsARB_result pf)
        /\ Swindow.message_boxes
             (Swindow.system (snd (Swindow.Native_CreateContext pf major minor legacy n p)))
           = Swindow.message_boxes (Swindow.system p))
    /\ (Swindow.GetExternalAddress pf = 0
        <-> Swindow.wglGetProcAddress_result pf = 0
            /\ (Swindow.LoadLibraryA_result pf = 0 \/ Swindow.GetProcAddress_result pf = 0)).
Proof.
  intros Client pf major minor legacy n p.
  unfold Swindow.Native_CreateContext. cbv zeta.
  set (chosen := if legacy then Swindow.wglCreateContext_legacy_result pf
                 else Swindow.wglCreateContextAttribsARB_result pf).
  split; [| split; [| split]].
  - intros ->. reflexivity.
  - intros Ha Hc. apply Z.eqb_neq in Ha. rewrite Ha, Hc. repeat split; reflexivity.
  - intros Ha Hc. apply Z.eqb_neq in Ha, Hc. rewrite Ha, Hc. repeat split; reflexivity.
  - unfold Swindow.GetExternalAddress. cbv zeta.
    destruct (Z.eqb_spec (Swindow.wglGetProcAddress_result pf) 0) as [Hw | Hw].
    + destruct (Z.eqb_spec (Swindow.LoadLibraryA_result pf) 0) as [Hl | Hl]; simpl.
      * tauto.
      * split; [intros Hg; auto | intros [_ [Hl' | Hg]]; [contradiction | exact Hg]].
    + split; [intros E; contradiction | intros [E _]; contradiction].
Qed.

Lemma CreateContext_outcomes_witness :
  fst (Swindow.Native_CreateContext Sample.platform_ok 4 6 false Sample.native Sample.boot)
  = Swindow.mkWin32NativeWindow 1 2 4 3.
Proof.
  apply (proj1 (proj1 (proj2 (proj2 (@CreateContext_outcomes nat Sample.platform_ok 4 6 false
                  Sample.native Sample.boot))) ltac:(discriminate) ltac:(discriminate))).
Defined.

(** ** The engine's window and the tick loop *)

Section EngineFacts.
Import Win32 Sengine.
Context {App Client : Type} `{ISengineApp App}.

Lemma dispatch_without_callbacks (ms : list MSG) :
  forall (w : Swindow.Window Client) (p : Swindow.Process Client),
    Swindow.m_WindowCallbacks w = Swindow.no_callbacks ->
    Swindow.user_data (Swindow.system p) = true ->
    Swindow.dispatch ms w p
    = (if Engine.has_close ms then Swindow.SetIsRunning false w else w,
       if Engine.has_destroy ms then Swindow.PostQuitMessage p else p).
Proof.
  induction ms as [| m ms IH]; intros w p Hc Hu; [reflexivity |].
  rewrite dispatch_cons. unfold Engine.has_close, Engine.has_destroy. cbn [existsb].
  destruct (Z.eqb_spec (uMsg m) WM_CLOSE) as [Ec | Ec].
  - assert (Hw : Swindow.WindowProc m w p
                 = (Swindow.LRESULT_0, (Swindow.SetIsRunning false w, p))).
    { unfold Swindow.WindowProc, Swindow.GetWindowCallbacks. rewrite Hu, Ec, Hc.
      reflexivity. }
    rewrite Hw. cbn [fst snd]. rewrite (IH (Swindow.SetIsRunning false w) p Hc Hu).
    rewrite Ec. cbn [orb Z.eqb].
    fold (Engine.has_close ms). fold (Engine.has_destroy ms).
    destruct (Engine.has_close ms); reflexivity.
  - destruct (Z.eqb_spec (uMsg m) WM_DESTROY) as [Ed | Ed].
    + assert (Hw : Swindow.WindowProc m w p
                   = (Swindow.LRESULT_0, (w, Swindow.PostQuitMessage p))).
      { unfold Swindow.WindowProc, Swindow.GetWindowCallbacks. rewrite Hu, Ed.
        reflexivity. }
      rewrite Hw. cbn [fst snd].
      rewrite (IH w (Swindow.PostQuitMessage p) Hc Hu). cbn [orb].
      fold (Engine.has_close ms). fold (Engine.has_destroy ms).
      destruct (Engine.has_destroy ms); reflexivity.
    + rewrite (WindowProc_inert_without_callbacks m w p Hc Ec Ed).
      cbn [fst snd orb]. apply (IH _ _ Hc Hu).
Qed.

Lemma Tick_body_value (f : Frame) (app : App) (w : Swindow.Window Client)
      (pr : Swindow.Process Client) (hist : list Step) :
  Tick_body f (mkApplication (Some app) (Some (mkWindow (Some w))) pr hist)
  = Done (mkApplication (Some (OnTick app))
            (Some (mkWindow
                     (Some (if escape_down f
                            then Swindow.SetIsRunning false
                                   (fst (Swindow.dispatch (queue f) w pr))
                            else fst (Swindow.dispatch (queue f) w pr)))))
            (Swindow.SwapBuffers (snd (Swindow.dispatch (queue f) w pr)))
            (hist ++ Engine.pass)).
Proof.
  unfold Tick_body, escape_down. simpl.
  unfold Swindow.GetIsKeyDown, Swindow.IsKeyDown.
  change (Swindow.GetNativeKeyCodes Swindow.Key_Escape) with VK_ESCAPE.
  unfold Swindow.PollEvents, Swindow.Native_PollEvents.
  destruct (negb (key_state f VK_ESCAPE =? 0)); cbn [bind];
    unfold note, set_process, set_ClientApp, set_Window, Engine.pass;
    cbn [history m_ClientApp m_Window process];
    rewrite <- !app_assoc; reflexivity.
Qed.

Lemma Tick_unfold (frames : list Frame) (app : App) (w : Swindow.Window Client)
      (pr : Swindow.Process Client) (hist : list Step) :
  Tick frames (mkApplication (Some app) (Some (mkWindow (Some w))) pr hist)
  = if Swindow.m_IsRunning w then
      match frames with
      | [] => Starved
      | f :: rest =>
          bind (Tick_body f (mkApplication (Some app) (Some (mkWindow (Some w))) pr hist))
               (Tick rest)
      end
    else Done (mkApplication (Some app) (Some (mkWindow (Some w))) pr hist).
Proof. destruct frames; reflexivity. Qed.

Lemma Init_succeeds_with (pf : Swindow.Platform) (uninit : Swindow.Win32NativeWindow)
      (app : App) (p : Swindow.Process Client) :
  fst (OnEarlyInit app) = true ->
  fst (OnInit (snd (OnEarlyInit app))) = true ->
  Init pf uninit (set_ClientApp app (fresh p))
  = Done (Init_true,
          mkApplication (Some (snd (OnInit (snd (OnEarlyInit app)))))
            (Some (fst (snd (Create (GetWindowDescription (snd (OnEarlyInit app)))
                               pf uninit (mkWindow None) p))))
            (snd (snd (Create (GetWindowDescription (snd (OnEarlyInit app)))
                         pf uninit (mkWindow None) p)))
            [CalledOnEarlyInit; CalledWindowCreate; CalledOnInit]).
Proof.
  intros He Hi. unfold Init. simpl. rewrite He. simpl. rewrite Hi. reflexivity.
Qed.

Lemma Init_fails_at_OnInit (pf : Swindow.Platform) (uninit : Swindow.Win32NativeWindow)
      (app : App) (p : Swindow.Process Client) :
  fst (OnEarlyInit app) = true ->
  fst (OnInit (snd (OnEarlyInit app))) = false ->
  Init pf uninit (set_ClientApp app (fresh p))
  = Done (OnInit_false,
          mkApplication (Some (snd (OnInit (snd (OnEarlyInit app)))))
            (Some (fst (snd (Create (GetWindowDescription (snd (OnEarlyInit app)))
                               pf uninit (mkWindow None) p))))
            (snd (snd (Create (GetWindowDescription (snd (OnEarlyInit app)))
                         pf uninit (mkWindow None) p)))
            [CalledOnEarlyInit; CalledWindowCreate; CalledOnInit]).
Proof.
  intros He Hi. unfold Init. simpl. rewrite He. simpl. rewrite Hi. reflexivity.
Qed.

Lemma Create_window (description : WindowDescription) (pf : Swindow.Platform)
      (uninit : Swindow.Win32NativeWindow) (this : Window Client)
      (p : Swindow.Process Client) :
  exists w : Swindow.Window Client,
    fst (snd (Create description pf uninit this p)) = mkWindow (Some w)
    /\ Swindow.m_WindowDescription w = description
    /\ Swindow.m_WindowCallbacks w = Swindow.no_callbacks
    /\ Swindow.m_IsRunning w = true
    /\ Swindow.m_WindowHandle (Swindow.m_NativeWindow w) = Swindow.CreateWindowEx_result pf
    /\ Swindow.live_window (Swindow.system (snd (snd (Create description pf uninit this p))))
       = negb (Swindow.CreateWindowEx_result pf =? 0)
         || Swindow.live_window (Swindow.system p)
    /\ Swindow.user_data (Swindow.system (snd (snd (Create description pf uninit this p))))
       = negb (Swindow.CreateWindowEx_result pf =? 0)
         || Swindow.user_data (Swindow.system p)
    /\ Swindow.stdout (snd (snd (Create description pf uninit this p)))
       = Swindow.stdout p ++ ["Created Window"]
    /\ Swindow.invoked (snd (snd (Create description pf uninit this p)))
       = Swindow.invoked p.
Proof.
  unfold Create. cbn [fst snd]. eexists. split; [reflexivity |].
  destruct (Create_facts description pf uninit p) as (Hd & Hc & Hr & Hh & Hl & Hu).
  destruct (Native_CreateContext_frame pf 4 6 false
              (Swindow.m_NativeWindow (fst (Swindow.Create description pf uninit p)))
              (snd (Swindow.Create description pf uninit p)))
    as (Hh2 & _ & _ & Hl2 & Hu2 & _ & Hi2 & Hs2).
  unfold Swindow.CreateContext. cbn [fst snd Swindow.set_native
    Swindow.m_WindowDescription Swindow.m_WindowCallbacks Swindow.m_IsRunning
    Swindow.m_NativeWindow].
  rewrite Hh2, Hl2, Hu2, Hi2, Hs2.
  repeat split; try assumption.
  - unfold Swindow.Create, Swindow.Win32NativeWindow_new, Swindow.RegisterWindowClass.
    destruct (Swindow.CreateWindowEx_result pf =? 0), (Swindow.registered p),
      (Swindow.RegisterClassEx_ok pf); reflexivity.
  - unfold Swindow.Create, Swindow.Win32NativeWindow_new, Swindow.RegisterWindowClass.
    destruct (Swindow.CreateWindowEx_result pf =? 0), (Swindow.registered p),
      (Swindow.RegisterClassEx_ok pf); reflexivity.
Qed.

Lemma Tick_body_attached (f : Frame) (a : Application App Client) :
  Engine.attached a ->
  exists a', Tick_body f a = Done a'
             /\ Engine.attached a'
             /\ history a' = history a ++ Engine.pass
             /\ is_running a' = is_running a && negb (Engine.stops f)
             /\ Swindow.stdout (process a') = Swindow.stdout (process a)
             /\ Swindow.invoked (process a') = Swindow.invoked (process a).
Proof.
  intros (app & w & Hca & Hw & Hc & Hh & Hl & Hu).
  destruct a as [ca mw pr hist]. simpl in Hca, Hw, Hl, Hu. subst ca mw.
  rewrite Tick_body_value, (dispatch_without_callbacks (queue f) w pr Hc Hu).
  eexists. split; [reflexivity |].
  unfold Engine.stops, Engine.close_requested.
  split; [| split; [reflexivity | split; [| split]]].
  - eexists. eexists. cbn [m_ClientApp m_Window process fst snd].
    split; [reflexivity |]. split; [reflexivity |].
    destruct (Engine.has_close (queue f)), (escape_down f),
      (Engine.has_destroy (queue f)); cbn; auto.
  - unfold is_running, Swindow.GetIsRunning. cbn [m_Window fst].
    destruct (Engine.has_close (queue f)), (escape_down f), (Swindow.m_IsRunning w) eqn:E;
      cbn; rewrite ?E; reflexivity.
  - cbn [process snd]. destruct (Engine.has_destroy (queue f)); reflexivity.
  - cbn [process snd]. destruct (Engine.has_destroy (queue f)); reflexivity.
Qed.

Lemma attached_ready (a : Application App Client) : Engine.attached a -> ready a.
Proof. intros (app & w & Hca & Hw & _). exists app, w. auto. Qed.

Lemma Tick_attached (frames : list Frame) :
  forall a : Application App Client,
    Engine.attached a ->
    (existsb Engine.stops frames = true -> exists a', Tick frames a = Done a')
    /\ (forall a', Tick frames a = Done a' ->
        Engine.attached a' /\ is_running a' = false
        /\ Swindow.stdout (process a') = Swindow.stdout (process a)
        /\ Swindow.invoked (process a') = Swindow.invoked (process a)).
Proof.
  induction frames as [| f rest IH]; intros a Ha.
  - split; [discriminate |].
    pose proof Ha as (app & w & Hca & Hw & _).
    destruct a as [ca mw pr hist]. simpl in Hca, Hw. subst ca mw.
    rewrite Tick_unfold. intros a'.
    destruct (Swindow.m_IsRunning w) eqn:E; [discriminate |].
    intros [= <-]. repeat split; try assumption;
      try (unfold is_running; simpl; exact E).
  - destruct (Tick_body_attached f a Ha) as (a1 & Hb & Ha1 & Hh1 & Hr1 & Hs1 & Hi1).
    destruct (IH a1 Ha1) as (IHlive & IHsafe).
    pose proof Ha as (app & w & Hca & Hw & _).
    destruct a as [ca mw pr hist]. simpl in Hca, Hw. subst ca mw.
    rewrite Tick_unfold.
    destruct (Swindow.m_IsRunning w) eqn:E.
    + rewrite Hb. cbn [bind]. split.
      * cbn [existsb]. intros Hex.
        destruct (Engine.stops f) eqn:Es.
        -- exists a1. apply Tick_stopped; [now apply attached_ready |].
           rewrite Hr1. cbn [negb]. apply andb_false_r.
        -- apply IHlive. exact Hex.
      * intros a' Ht. destruct (IHsafe a' Ht) as (Hat & Hrun & Hs & Hi).
        repeat split; try assumption; congruence.
    + split; [intros _; eauto |].
      intros a' [= <-]. repeat split; try assumption;
        try (unfold is_running; simpl; exact E).
Qed.

Lemma Tick_body_detached (f : Frame) (a : Application App Client) :
  Engine.detached a ->
  exists a', Tick_body f a = Done a'
             /\ Engine.detached a'
             /\ is_running a' = is_running a && negb (escape_down f).
Proof.
  intros (app & w & Hca & Hw & Hu).
  destruct a as [ca mw pr hist]. simpl in Hca, Hw, Hu. subst ca mw.
  rewrite Tick_body_value, (dispatch_inert_without_user_data (queue f) w pr Hu).
  eexists. split; [reflexivity |]. split.
  - eexists. eexists. cbn [m_ClientApp m_Window process fst snd].
    split; [reflexivity |]. split; [reflexivity |]. exact Hu.
  - unfold is_running, Swindow.GetIsRunning. cbn [m_Window fst].
    destruct (escape_down f), (Swindow.m_IsRunning w) eqn:E; cbn; rewrite ?E; reflexivity.
Qed.

Lemma Tick_detached_starves (frames : list Frame) :
  forall a : Application App Client,
    Engine.detached a -> is_running a = true ->
    forallb (fun f => negb (escape_down f)) frames = true ->
    Tick frames a = Starved.
Proof.
  induction frames as [| f rest IH]; intros a Ha Hrun Hall.
  - destruct Ha as (app & w & Hca & Hw & Hu).
    destruct a as [ca mw pr hist]. simpl in Hca, Hw. subst ca mw.
    unfold is_running in Hrun. simpl in Hrun.
    rewrite Tick_unfold. unfold Swindow.GetIsRunning in Hrun. rewrite Hrun. reflexivity.
  - cbn [forallb] in Hall. apply andb_prop in Hall as [Hf Hrest].
    destruct (Tick_body_detached f a Ha) as (a1 & Hb & Ha1 & Hr1).
    rewrite Hrun, Hf in Hr1.
    pose proof Ha as (app & w & Hca & Hw & Hu).
    destruct a as [ca mw pr hist]. simpl in Hca, Hw. subst ca mw.
    unfold is_running in Hrun. simpl in Hrun. unfold Swindow.GetIsRunning in Hrun.
    rewrite Tick_unfold, Hrun, Hb. cbn [bind].
    now apply IH.
Qed.

Lemma Tick_client (frames : list Frame) :
  forall (a a' : Application App Client) (app : App),
    ready a -> m_ClientApp a = Some app -> Tick frames a = Done a' ->
    exists n : nat,
      (n <= List.length frames)%nat
      /\ m_ClientApp a' = Some (Engine.iterate OnTick n app)
      /\ history a' = history a ++ List.concat (repeat Engine.pass n).
Proof.
  induction frames as [| f rest IH]; intros a a' app Hr Happ Ht.
  - destruct Hr as (app0 & w & Hca & Hw).
    destruct a as [ca mw pr hist]. simpl in Hca, Hw, Happ. subst ca mw.
    rewrite Tick_unfold in Ht.
    destruct (Swindow.m_IsRunning w); [discriminate |]. injection Ht as <-.
    exists 0%nat. simpl. rewrite app_nil_r. repeat split; [lia | congruence].
  - destruct Hr as (app0 & w & Hca & Hw).
    destruct a as [ca mw pr hist]. simpl in Hca, Hw, Happ. subst ca mw.
    injection Happ as ->.
    rewrite Tick_unfold in Ht.
    destruct (Swindow.m_IsRunning w).
    + rewrite Tick_body_value in Ht. cbn [bind] in Ht.
      eapply IH in Ht; [| unfold ready; simpl; eauto | reflexivity].
      destruct Ht as (n & Hn & Hc & Hh).
      exists (S n). simpl. repeat split; [lia | exact Hc |].
      rewrite Hh. cbn [history]. rewrite <- !app_assoc. reflexivity.
    + injection Ht as <-. exists 0%nat. simpl. rewrite app_nil_r.
      repeat split; lia.
Qed.

End EngineFacts.

Section EngineRuns.
Import Win32 Sengine.
Context {App Client : Type} `{ISengineApp App}.

Lemma App_Destroy_value (app : App) (w : Swindow.Window Client)
      (pr : Swindow.Process Client) (hist : list Step) :
  App_Destroy (mkApplication (Some app) (Some (mkWindow (Some w))) pr hist)
  = Done (mkApplication (Some (OnLateDestroy (OnDestroy app)))
            (Some (mkWindow (Some (fst (Swindow.Destroy w pr)))))
            (snd (Swindow.Destroy w pr))
            (hist ++ [CalledOnDestroy; CalledWindowDestroy; CalledOnLateDestroy])).
Proof.
  unfold App_Destroy, Destroy, note, set_ClientApp, set_Window, set_process.
  cbn [bind deref m_ClientApp m_Window m_NativeWindow process history fst snd].
  unfold note, set_ClientApp, set_Window, set_process.
  cbn [bind deref m_ClientApp m_Window m_NativeWindow process history fst snd].
  rewrite <- !app_assoc. reflexivity.
Qed.

Lemma Init_attached (pf : Swindow.Platform) (uninit : Swindow.Win32NativeWindow)
      (app : App) (p : Swindow.Process Client) :
  fst (OnEarlyInit app) = true ->
  fst (OnInit (snd (OnEarlyInit app))) = true ->
  Swindow.CreateWindowEx_result pf <> 0 ->
  exists a', Init pf uninit (set_ClientApp app (fresh p)) = Done (Init_true, a')
             /\ Engine.attached a'
             /\ m_ClientApp a' = Some (snd (OnInit (snd (OnEarlyInit app))))
             /\ history a' = [CalledOnEarlyInit; CalledWindowCreate; CalledOnInit]
             /\ Swindow.stdout (process a') = Swindow.stdout p ++ ["Created Window"]
             /\ Swindow.invoked (process a') = Swindow.invoked p.
Proof.
  intros He Hi Hwnd. rewrite (Init_succeeds_with pf uninit app p He Hi).
  eexists. split; [reflexivity |].
  destruct (Create_window (GetWindowDescription (snd (OnEarlyInit app))) pf uninit
              (mkWindow None) p)
    as (w & Hw & _ & Hc & _ & Hh & Hl & Hu & Hs & Hinv).
  apply Z.eqb_neq in Hwnd. rewrite Hwnd in Hl, Hu. cbn [negb orb] in Hl, Hu.
  cbn [m_ClientApp history process].
  split; [| repeat split; assumption].
  eexists. exists w. cbn [m_ClientApp m_Window process].
  split; [reflexivity |]. split; [now rewrite Hw |].
  repeat split; try assumption.
  rewrite Hh. now apply Z.eqb_neq.
Qed.

Lemma Init_detached (pf : Swindow.Platform) (uninit : Swindow.Win32NativeWindow)
      (app : App) (p : Swindow.Process Client) :
  fst (OnEarlyInit app) = true ->
  fst (OnInit (snd (OnEarlyInit app))) = true ->
  Swindow.CreateWindowEx_result pf = 0 ->
  Swindow.user_data (Swindow.system p) = false ->
  exists a', Init pf uninit (set_ClientApp app (fresh p)) = Done (Init_true, a')
             /\ Engine.detached a' /\ is_running a' = true.
Proof.
  intros He Hi Hwnd Hud. rewrite (Init_succeeds_with pf uninit app p He Hi).
  eexists. split; [reflexivity |].
  destruct (Create_window (GetWindowDescription (snd (OnEarlyInit app))) pf uninit
              (mkWindow None) p)
    as (w & Hw & _ & _ & Hr & _ & _ & Hu & _).
  rewrite Hwnd, Hud in Hu. cbn in Hu.
  split.
  - eexists. exists w. cbn [m_ClientApp m_Window process].
    split; [reflexivity |]. split; [now rewrite Hw | exact Hu].
  - unfold is_running. cbn [m_Window]. rewrite Hw. exact Hr.
Qed.

End EngineRuns.

(** X19: the engine's window after Window::Create, for every result of
    the platform calls.  The object Create was called on holds a native
    facade with the description that was passed, no callback registered and
    the running flag set, also when CreateWindowEx returned no window; the
    stored window handle is what CreateWindowEx returned, and "Created
    Window" has been logged. *)
Theorem engine_window_after_Create :
  forall (Client : Type) (description : Sengine.WindowDescription)
         (pf : Swindow.Platform) (uninit : Swindow.Win32NativeWindow)
         (this : Sengine.Window Client) (p : Swindow.Process Client),
    exists w : Swindow.Window Client,
      fst (snd (Sengine.Create description pf uninit this p)) = Sengine.mkWindow (Some w)
      /\ Swindow.GetWindowDescription w = description
      /\ Swindow.GetWindowCallbacks w = Swindow.no_callbacks
      /\ Sengine.GetIsRunning (fst (snd (Sengine.Create description pf uninit this p)))
         = Sengine.Done true
      /\ Swindow.m_WindowHandle (Swindow.m_NativeWindow w)
         = Swindow.CreateWindowEx_result pf
      /\ Swindow.stdout (snd (snd (Sengine.Create description pf uninit this p)))
         = Swindow.stdout p ++ ["Created Window"].
Proof.
  intros Client description pf uninit this p.
  destruct (Create_window description pf uninit this p)
    as (w & Hw & Hd & Hc & Hr & Hh & _ & _ & Hs & _).
  exists w. repeat split; assumption.
Qed.

(** X20: the pointer Window::Create returns is of no use.  It points to
    a default-constructed Window whose native facade is empty, so every
    member function called through it dereferences an empty pointer; the
    window that was made lives in the object Create was called on. *)
Theorem Create_returns_an_empty_window :
  forall (Client : Type) (description : Sengine.WindowDescription)
         (pf : Swindow.Platform) (uninit : Swindow.Win32NativeWindow)
         (this : Sengine.Window Client) (p q : Swindow.Process Client)
         (ms : list Win32.MSG) (value : bool) (key_state : Z -> Z)
         (code : Swindow.KeyCode),
    exists returned : Sengine.Window Client,
      fst (Sengine.Create description pf uninit this p) = Some returned
      /\ Sengine.GetIsRunning returned = Sengine.NullDereference
      /\ Sengine.SetIsRunning value returned = Sengine.NullDereference
      /\ Sengine.PollEvents ms returned q = Sengine.NullDereference
      /\ Sengine.SwapBuffers returned q = Sengine.NullDereference
      /\ Sengine.GetIsKeyDown key_state code returned = Sengine.NullDereference
      /\ Sengine.Destroy returned q = Sengine.NullDereference.
Proof.
  intros. exists (Sengine.mkWindow None). repeat split.
Qed.

(** X21: Escape ends the loop within the pass that sees it.  With the
    window running, a frame that reports Escape down is still handled in
    full, events polled, OnTick called, buffers swapped, and then the loop
    exits without looking at any later frame. *)
Theorem Escape_ends_loop_after_one_pass :
  forall (App Client : Type) (hooks : Sengine.ISengineApp App)
         (f : Sengine.Frame) (rest : list Sengine.Frame)
         (a : Sengine.Application App Client),
    Sengine.ready a ->
    Sengine.is_running a = true ->
    Sengine.escape_down f = true ->
    exists a' : Sengine.Application App Client,
      Sengine.Tick (f :: rest) a = Sengine.Done a'
      /\ Sengine.Tick_body f a = Sengine.Done a'
      /\ Sengine.history a' = Sengine.history a ++ Engine.pass
      /\ Sengine.is_running a' = false.
Proof.
  intros App Client hooks f rest a Hr Hrun Hesc.
  destruct (Tick_body_ready f a Hr) as (a' & Hb & Hr' & Hh & Hstop).
  exists a'. pose proof (Hstop Hesc) as Hoff.
  repeat split; try assumption.
  destruct Hr as (app & w & Hca & Hw).
  destruct a as [ca mw pr hist]. simpl in Hca, Hw. subst ca mw.
  unfold Sengine.is_running in Hrun. simpl in Hrun.
  unfold Swindow.GetIsRunning in Hrun.
  rewrite Tick_unfold, Hrun, Hb. cbn [Sengine.bind].
  apply Tick_stopped; assumption.
Qed.

Lemma Escape_ends_loop_after_one_pass_witness :
  exists a' : Sengine.Application nat nat,
    @Sengine.Tick nat nat Sample.counting_app
      [Sengine.mkFrame [] Sample.escape_held; Sengine.mkFrame [] Sample.no_keys]
      (Sengine.mkApplication (Some 0%nat) (Some (Sengine.mkWindow (Some Sample.window)))
         Sample.process [])
    = Sengine.Done a'
    /\ @Sengine.Tick_body nat nat Sample.counting_app
         (Sengine.mkFrame [] Sample.escape_held)
         (Sengine.mkApplication (Some 0%nat) (Some (Sengine.mkWindow (Some Sample.window)))
            Sample.process [])
       = Sengine.Done a'
    /\ Sengine.history a' = [] ++ Engine.pass
    /\ Sengine.is_running a' = false.
Proof.
  apply (Escape_ends_loop_after_one_pass nat nat Sample.counting_app
           (Sengine.mkFrame [] Sample.escape_held) [Sengine.mkFrame [] Sample.no_keys]
           (Sengine.mkApplication (Some 0%nat)
              (Some (Sengine.mkWindow (Some Sample.window))) Sample.process [])).
  - exists 0%nat, Sample.window. split; reflexivity.
  - reflexivity.
  - reflexivity.
Defined.

Section StoppingFrame.
Import Win32 Sengine.
Context {App Client : Type} `{ISengineApp App}.

Lemma Tick_body_attached_client (f : Frame) (a : Application App Client) (app : App) :
  Engine.attached a ->
  m_ClientApp a = Some app ->
  exists a', Tick_body f a = Done a'
             /\ Engine.attached a'
             /\ history a' = history a ++ Engine.pass
             /\ is_running a' = is_running a && negb (Engine.stops f)
             /\ m_ClientApp a' = Some (OnTick app).
Proof.
  intros Ha Happ.
  destruct (Tick_body_attached f a Ha) as (a' & Hb & Ha' & Hh & Hr & _).
  exists a'. repeat split; try assumption.
  destruct Ha as (app0 & w & Hca & Hw & _).
  destruct a as [ca mw pr hist]. cbn in Hca, Hw, Happ. subst ca mw.
  injection Happ as ->.
  rewrite Tick_body_value in Hb. injection Hb as <-. reflexivity.
Qed.

Lemma Tick_step (f : Frame) (rest : list Frame) (a a1 : Application App Client) :
  ready a -> is_running a = true -> Tick_body f a = Done a1 ->
  Tick (f :: rest) a = Tick rest a1.
Proof.
  intros (app & w & Hca & Hw) Hrun Hb.
  destruct a as [ca mw pr hist]. cbn in Hca, Hw. subst ca mw.
  unfold is_running in Hrun. cbn [m_Window] in Hrun.
  unfold Swindow.GetIsRunning in Hrun.
  rewrite Tick_unfold, Hrun, Hb. reflexivity.
Qed.

Lemma Tick_until_stop (f : Frame) (before : list Frame) :
  forall (a : Application App Client) (app : App),
    Engine.attached a -> is_running a = true -> m_ClientApp a = Some app ->
    forallb (fun g => negb (Engine.stops g)) before = true ->
    Engine.stops f = true ->
    exists a',
      (forall after, Tick (before ++ f :: after) a = Done a')
      /\ Engine.attached a'
      /\ history a'
         = history a ++ List.concat (repeat Engine.pass (S (List.length before)))
      /\ m_ClientApp a' = Some (Engine.iterate OnTick (S (List.length before)) app).
Proof.
  induction before as [| g before IH]; intros a app Ha Hrun Happ Hall Hstop.
  - destruct (Tick_body_attached_client f a app Ha Happ)
      as (a1 & Hb & Ha1 & Hh1 & Hr1 & Hc1).
    rewrite Hrun, Hstop in Hr1. cbn in Hr1.
    exists a1. split; [| split; [exact Ha1 | split]].
    + intros after. cbn [List.app].
      rewrite (Tick_step f after a a1 (attached_ready a Ha) Hrun Hb).
      apply Tick_stopped; [now apply attached_ready | exact Hr1].
    + rewrite Hh1. cbn. rewrite ?app_nil_r. reflexivity.
    + exact Hc1.
  - cbn [forallb] in Hall. apply andb_prop in Hall as [Hg Hrest].
    destruct (Tick_body_attached_client g a app Ha Happ)
      as (a1 & Hb & Ha1 & Hh1 & Hr1 & Hc1).
    rewrite Hrun, Hg in Hr1. cbn in Hr1.
    destruct (IH a1 (OnTick app) Ha1 Hr1 Hc1 Hrest Hstop)
      as (a' & Hrun' & Ha' & Hh' & Hc').
    exists a'. split; [| split; [exact Ha' | split]].
    + intros after. cbn [List.app].
      rewrite (Tick_step g (before ++ f :: after) a a1 (attached_ready a Ha) Hrun Hb).
      apply Hrun'.
    + rewrite Hh', Hh1, <- app_assoc. reflexivity.
    + exact Hc'.
Qed.

End StoppingFrame.

(** X22: a close request ends the run at the frame that carries it.  When
    the hooks succeed and CreateWindowEx returned a window, and the first
    frame that carries WM_CLOSE in its queue or reports Escape down comes
    after k frames that do neither, CreateApplication returns after exactly
    k + 1 passes of the loop, with OnTick applied k + 1 times, whatever
    frames follow: the engine registers no close callback, so the close
    request stops the window in that pass. *)
Theorem close_request_ends_the_run :
  forall (App Client : Type) (hooks : Sengine.ISengineApp App) (app : App)
         (pf : Swindow.Platform) (uninit : Swindow.Win32NativeWindow)
         (before : list Sengine.Frame) (f : Sengine.Frame) (after : list Sengine.Frame)
         (p : Swindow.Process Client),
    fst (Sengine.OnEarlyInit app) = true ->
    fst (Sengine.OnInit (snd (Sengine.OnEarlyInit app))) = true ->
    Swindow.CreateWindowEx_result pf <> 0 ->
    forallb (fun g => negb (Engine.stops g)) before = true ->
    Engine.stops f = true ->
    exists final : Sengine.Application App Client,
      Sengine.CreateApplication app pf uninit (before ++ f :: after) (Sengine.fresh p)
      = Sengine.Done final
      /\ Sengine.CreateApplication app pf uninit (before ++ [f]) (Sengine.fresh p)
         = Sengine.Done final
      /\ Sengine.history final
         = [Sengine.CalledOnEarlyInit; Sengine.CalledWindowCreate; Sengine.CalledOnInit]
             ++ List.concat (repeat Engine.pass (S (List.length before)))
             ++ [Sengine.CalledOnDestroy; Sengine.CalledWindowDestroy;
                 Sengine.CalledOnLateDestroy]
      /\ Sengine.m_ClientApp final
         = Some (Sengine.OnLateDestroy
                   (Sengine.OnDestroy
                      (Engine.iterate Sengine.OnTick (S (List.length before))
                         (snd (Sengine.OnInit (snd (Sengine.OnEarlyInit app))))))).
Proof.
  intros App Client hooks app pf uninit before f after p He Hi Hwnd Hall Hstop.
  unfold Sengine.CreateApplication.
  destruct (Init_attached pf uninit app p He Hi Hwnd)
    as (a0 & Hinit & Hat & Hc0 & Hh0 & _).
  rewrite Hinit. cbn [Sengine.bind fst snd Sengine.Init_value negb].
  assert (Hrun0 : Sengine.is_running a0 = true).
  { rewrite (Init_succeeds_with pf uninit app p He Hi) in Hinit.
    injection Hinit as <-. reflexivity. }
  destruct (Tick_until_stop f before a0 _ Hat Hrun0 Hc0 Hall Hstop)
    as (a1 & Hticks & Hat1 & Hh1 & Hc1).
  rewrite (Hticks after), (Hticks []). cbn [Sengine.bind].
  destruct Hat1 as (app1 & w1 & Hca1 & Hw1 & _).
  destruct a1 as [ca mw pr hist]. cbn in Hca1, Hw1, Hh1, Hc1. subst ca mw.
  rewrite App_Destroy_value.
  eexists. split; [reflexivity |]. split; [reflexivity |].
  cbn [Sengine.history Sengine.m_ClientApp].
  injection Hc1 as ->. split; [| reflexivity].
  rewrite Hh1, Hh0, <- app_assoc. reflexivity.
Qed.

Lemma close_request_ends_the_run_witness :
  exists final : Sengine.Application nat nat,
    @Sengine.CreateApplication nat nat Sample.counting_app 0%nat Sample.platform_ok
      Sample.native
      ([Sengine.mkFrame [] Sample.no_keys]
         ++ Sengine.mkFrame [Win32.mkMSG Win32.WM_CLOSE 0 0] Sample.no_keys
         :: [Sengine.mkFrame [] Sample.no_keys])
      (Sengine.fresh Sample.boot)
    = Sengine.Done final
    /\ Sengine.m_ClientApp final = Some 6%nat.
Proof.
  destruct (close_request_ends_the_run nat nat Sample.counting_app 0%nat Sample.platform_ok
              Sample.native [Sengine.mkFrame [] Sample.no_keys]
              (Sengine.mkFrame [Win32.mkMSG Win32.WM_CLOSE 0 0] Sample.no_keys)
              [Sengine.mkFrame [] Sample.no_keys]
              Sample.boot eq_refl eq_refl ltac:(discriminate) eq_refl eq_refl)
    as (final & Hrun & _ & _ & Hc).
  exists final. split; [exact Hrun | exact Hc].
Defined.

(** X23: without a native window only Escape stops the loop.  When
    CreateWindowEx returned no window, Init still succeeds and the window
    reports running; no message, WM_CLOSE included, is handled, so as long
    as no frame reports Escape down the loop consumes every frame it is given
    and is still running. *)
Theorem loop_without_window_ignores_messages :
  forall (App Client : Type) (hooks : Sengine.ISengineApp App) (app : App)
         (pf : Swindow.Platform) (uninit : Swindow.Win32NativeWindow)
         (frames : list Sengine.Frame) (p : Swindow.Process Client),
    fst (Sengine.OnEarlyInit app) = true ->
    fst (Sengine.OnInit (snd (Sengine.OnEarlyInit app))) = true ->
    Swindow.CreateWindowEx_result pf = 0 ->
    Swindow.user_data (Swindow.system p) = false ->
    forallb (fun f => negb (Sengine.escape_down f)) frames = true ->
    Sengine.CreateApplication app pf uninit frames (Sengine.fresh p) = Sengine.Starved.
Proof.
  intros App Client hooks app pf uninit frames p He Hi Hwnd Hud Hall.
  unfold Sengine.CreateApplication.
  destruct (Init_detached pf uninit app p He Hi Hwnd Hud) as (a' & Hinit & Hdet & Hrun).
  rewrite Hinit. cbn [Sengine.bind fst snd Sengine.Init_value negb].
  rewrite (Tick_detached_starves frames a' Hdet Hrun Hall). reflexivity.
Qed.

Lemma loop_without_window_ignores_messages_witness :
  @Sengine.CreateApplication nat nat Sample.counting_app 0%nat Sample.platform_no_window
    Sample.native
    [Sengine.mkFrame [Win32.mkMSG Win32.WM_CLOSE 0 0] Sample.no_keys;
     Sengine.mkFrame [] Sample.no_keys]
    (Sengine.fresh Sample.boot)
  = Sengine.Starved.
Proof.
  apply (loop_without_window_ignores_messages nat nat Sample.counting_app 0%nat
           Sample.platform_no_window Sample.native
           [Sengine.mkFrame [Win32.mkMSG Win32.WM_CLOSE 0 0] Sample.no_keys;
            Sengine.mkFrame [] Sample.no_keys]
           Sample.boot eq_refl eq_refl eq_refl eq_refl eq_refl).
Defined.

(** X24: a failing OnInit leaves the window behind.  When OnEarlyInit
    succeeds, CreateWindowEx returns a window and OnInit fails,
    CreateApplication returns with the native window still alive and set in
    the driver: Window::Destroy is never called and nothing but "Created
    Window" was logged. *)
Theorem failed_OnInit_leaks_the_window :
  forall (App Client : Type) (hooks : Sengine.ISengineApp App) (app : App)
         (pf : Swindow.Platform) (uninit : Swindow.Win32NativeWindow)
         (frames : list Sengine.Frame) (p : Swindow.Process Client),
    fst (Sengine.OnEarlyInit app) = true ->
    fst (Sengine.OnInit (snd (Sengine.OnEarlyInit app))) = false ->
    Swindow.CreateWindowEx_result pf <> 0 ->
    exists (final : Sengine.Application App Client) (w : Swindow.Window Client),
      Sengine.CreateApplication app pf uninit frames (Sengine.fresh p)
      = Sengine.Done final
      /\ Sengine.m_Window final = Some (Sengine.mkWindow (Some w))
      /\ Swindow.live_window (Swindow.system (Sengine.process final)) = true
      /\ existsb Engine.is_WindowDestroy (Sengine.history final) = false
      /\ Swindow.stdout (Sengine.process final) = Swindow.stdout p ++ ["Created Window"].
Proof.
  intros App Client hooks app pf uninit frames p He Hi Hwnd.
  unfold Sengine.CreateApplication.
  rewrite (Init_fails_at_OnInit pf uninit app p He Hi).
  cbn [Sengine.bind fst snd Sengine.Init_value negb].
  destruct (Create_window (Sengine.GetWindowDescription (snd (Sengine.OnEarlyInit app)))
              pf uninit (Sengine.mkWindow None) p)
    as (w & Hw & _ & _ & _ & _ & Hl & _ & Hs & _).
  apply Z.eqb_neq in Hwnd. rewrite Hwnd in Hl. cbn [negb orb] in Hl.
  eexists. exists w. split; [reflexivity |].
  cbn [Sengine.m_Window Sengine.process Sengine.history].
  rewrite Hw. repeat split; assumption.
Qed.

Lemma failed_OnInit_leaks_the_window_witness :
  exists (final : Sengine.Application nat nat) (w : Swindow.Window nat),
    @Sengine.CreateApplication nat nat Sample.failing_app 0%nat Sample.platform_ok
      Sample.native [] (Sengine.fresh Sample.boot)
    = Sengine.Done final
    /\ Sengine.m_Window final = Some (Sengine.mkWindow (Some w))
    /\ Swindow.live_window (Swindow.system (Sengine.process final)) = true
    /\ existsb Engine.is_WindowDestroy (Sengine.history final) = false
    /\ Swindow.stdout (Sengine.process final)
       = Swindow.stdout Sample.boot ++ ["Created Window"].
Proof.
  apply (failed_OnInit_leaks_the_window nat nat Sample.failing_app 0%nat Sample.platform_ok
           Sample.native [] Sample.boot eq_refl eq_refl ltac:(discriminate)).
Defined.

(** X25: the hooks thread the client state in order.  After a successful
    Init, a completed run has made some number n of passes, at most one per
    frame supplied; the client state at the end is OnLateDestroy applied to
    OnDestroy applied to n applications of OnTick to the state OnInit left,
    and the calls made are exactly Init's three, n passes of PollEvents,
    OnTick, SwapBuffers, and the three of the teardown. *)
Theorem hooks_run_in_order :
  forall (App Client : Type) (hooks : Sengine.ISengineApp App) (app : App)
         (pf : Swindow.Platform) (uninit : Swindow.Win32NativeWindow)
         (frames : list Sengine.Frame) (p : Swindow.Process Client)
         (final : Sengine.Application App Client),
    fst (Sengine.OnEarlyInit app) = true ->
    fst (Sengine.OnInit (snd (Sengine.OnEarlyInit app))) = true ->
    Sengine.CreateApplication app pf uninit frames (Sengine.fresh p)
    = Sengine.Done final ->
    exists n : nat,
      (n <= List.length frames)%nat
      /\ Sengine.m_ClientApp final
         = Some (Sengine.OnLateDestroy
                   (Sengine.OnDestroy
                      (Engine.iterate Sengine.OnTick n
                         (snd (Sengine.OnInit (snd (Sengine.OnEarlyInit app)))))))
      /\ Sengine.history final
         = [Sengine.CalledOnEarlyInit; Sengine.CalledWindowCreate; Sengine.CalledOnInit]
             ++ List.concat (repeat Engine.pass n)
             ++ [Sengine.CalledOnDestroy; Sengine.CalledWindowDestroy;
                 Sengine.CalledOnLateDestroy].
Proof.
  intros App Client hooks app pf uninit frames p final He Hi.
  unfold Sengine.CreateApplication.
  rewrite (Init_succeeds_with pf uninit app p He Hi).
  cbn [Sengine.bind fst snd Sengine.Init_value negb].
  destruct (Create_window (Sengine.GetWindowDescription (snd (Sengine.OnEarlyInit app)))
              pf uninit (Sengine.mkWindow None) p) as (w & Hw & _).
  rewrite Hw.
  destruct (Sengine.Tick frames _) as [a1 | |] eqn:Ht; cbn [Sengine.bind]; try discriminate.
  pose proof Ht as Ht'.
  apply (Tick_client frames _ a1 (snd (Sengine.OnInit (snd (Sengine.OnEarlyInit app)))))
    in Ht'; [| unfold Sengine.ready; cbn; eauto | reflexivity].
  destruct Ht' as (n & Hn & Hc & Hh).
  apply Tick_history in Ht; [| unfold Sengine.ready; cbn; eauto].
  destruct Ht as ((app1 & w1 & Hca1 & Hw1) & _).
  destruct a1 as [ca mw pr hist]. cbn in Hca1, Hw1, Hc, Hh. subst ca mw.
  rewrite App_Destroy_value. intros [= <-].
  exists n. split; [exact Hn |]. cbn [Sengine.m_ClientApp Sengine.history].
  injection Hc as ->. split; [reflexivity |].
  rewrite Hh. cbn [Sengine.history]. rewrite <- ?app_assoc. reflexivity.
Qed.

Lemma hooks_run_in_order_witness :
  exists (final : Sengine.Application nat nat) (n : nat),
    @Sengine.CreateApplication nat nat Sample.counting_app 0%nat Sample.platform_ok
      Sample.native
      [Sengine.mkFrame [] Sample.no_keys; Sengine.mkFrame [] Sample.escape_held]
      (Sengine.fresh Sample.boot)
    = Sengine.Done final
    /\ (n <= 2)%nat
    /\ Sengine.m_ClientApp final = Some (S (S (Engine.iterate S n 2%nat))).
Proof.
  destruct (@Sengine.CreateApplication nat nat Sample.counting_app 0%nat Sample.platform_ok
              Sample.native
              [Sengine.mkFrame [] Sample.no_keys; Sengine.mkFrame [] Sample.escape_held]
              (Sengine.fresh Sample.boot)) as [final | |] eqn:E;
    [| vm_compute in E; discriminate E | vm_compute in E; discriminate E].
  destruct (hooks_run_in_order nat nat Sample.counting_app 0%nat Sample.platform_ok
              Sample.native
              [Sengine.mkFrame [] Sample.no_keys; Sengine.mkFrame [] Sample.escape_held]
              Sample.boot final eq_refl eq_refl E) as (n & Hn & Hc & _).
  exists final, n. split; [reflexivity |]. split; [exact Hn | exact Hc].
Defined.

(** X26: a completed run leaves nothing alive.  When the hooks succeed,
    CreateWindowEx returned a window and the loop exits, CreateApplication
    returns with the native window destroyed, its user data gone, no context
    current and the quit message posted; the window no longer reports
    running, no callback was ever invoked, and the log holds exactly
    "Created Window" and "Destroyed Window" in addition to what it held. *)
Theorem completed_run_tears_everything_down :
  forall (App Client : Type) (hooks : Sengine.ISengineApp App) (app : App)
         (pf : Swindow.Platform) (uninit : Swindow.Win32NativeWindow)
         (frames : list Sengine.Frame) (p : Swindow.Process Client)
         (final : Sengine.Application App Client),
    fst (Sengine.OnEarlyInit app) = true ->
    fst (Sengine.OnInit (snd (Sengine.OnEarlyInit app))) = true ->
    Swindow.CreateWindowEx_result pf <> 0 ->
    Sengine.CreateApplication app pf uninit frames (Sengine.fresh p)
    = Sengine.Done final ->
    Swindow.live_window (Swindow.system (Sengine.process final)) = false
    /\ Swindow.user_data (Swindow.system (Sengine.process final)) = false
    /\ Swindow.current_context (Swindow.system (Sengine.process final)) = 0
    /\ Swindow.quit_posted (Swindow.system (Sengine.process final)) = true
    /\ Sengine.is_running final = false
    /\ Swindow.invoked (Sengine.process final) = Swindow.invoked p
    /\ Swindow.stdout (Sengine.process final)
       = Swindow.stdout p ++ ["Created Window"; "Destroyed Window"].
Proof.
  intros App Client hooks app pf uninit frames p final He Hi Hwnd.
  unfold Sengine.CreateApplication.
  destruct (Init_attached pf uninit app p He Hi Hwnd)
    as (a' & Hinit & Hat & _ & _ & Hs0 & Hi0).
  rewrite Hinit. cbn [Sengine.bind fst snd Sengine.Init_value negb].
  destruct (Sengine.Tick frames a') as [a1 | |] eqn:Ht; cbn [Sengine.bind];
    try discriminate.
  destruct (Tick_attached frames a' Hat) as (_ & Hsafe).
  destruct (Hsafe a1 Ht) as (Hat1 & Hrun1 & Hs1 & Hi1).
  destruct Hat1 as (app1 & w1 & Hca1 & Hw1 & Hc1 & Hh1 & Hl1 & Hu1).
  destruct a1 as [ca mw pr hist].
  cbn in Hca1, Hw1, Hl1, Hu1, Hs1, Hi1, Hrun1. subst ca mw.
  rewrite App_Destroy_value.
  destruct (Destroy_record w1 pr) as (Hw & _ & Hinv & Hso & Hcc & Hlw & Hud & Hqp).
  remember (Swindow.Destroy w1 pr) as d eqn:Ed in *. clear Ed.
  intros [= <-].
  unfold Sengine.is_running. cbn [Sengine.process Sengine.m_Window].
  apply Z.eqb_neq in Hh1.
  rewrite Hlw, Hud, Hqp, Hcc, Hinv, Hso, Hw, Hl1, Hu1, Hh1, Hs1, Hs0, Hi1, Hi0.
  unfold Sengine.is_running in Hrun1. cbn [Sengine.m_Window] in Hrun1.
  repeat split; try reflexivity.
  - apply orb_true_r.
  - exact Hrun1.
  - rewrite <- app_assoc. reflexivity.
Qed.

Lemma completed_run_tears_everything_down_witness :
  exists final : Sengine.Application nat nat,
    @Sengine.CreateApplication nat nat Sample.counting_app 0%nat Sample.platform_ok
      Sample.native [Sengine.mkFrame [Win32.mkMSG Win32.WM_CLOSE 0 0] Sample.no_keys]
      (Sengine.fresh Sample.boot)
    = Sengine.Done final
    /\ Swindow.live_window (Swindow.system (Sengine.process final)) = false
    /\ Swindow.quit_posted (Swindow.system (Sengine.process final)) = true.
Proof.
  destruct (@Sengine.CreateApplication nat nat Sample.counting_app 0%nat Sample.platform_ok
              Sample.native
              [Sengine.mkFrame [Win32.mkMSG Win32.WM_CLOSE 0 0] Sample.no_keys]
              (Sengine.fresh Sample.boot)) as [final | |] eqn:E;
    [| vm_compute in E; discriminate E | vm_compute in E; discriminate E].
  destruct (completed_run_tears_everything_down nat nat Sample.counting_app 0%nat
              Sample.platform_ok Sample.native
              [Sengine.mkFrame [Win32.mkMSG Win32.WM_CLOSE 0 0] Sample.no_keys]
              Sample.boot final eq_refl eq_refl ltac:(discriminate) E)
    as (Hl & _ & _ & Hq & _).
  exists final. split; [reflexivity |]. split; [exact Hl | exact Hq].
Defined.

Section NullFacts.
Import Win32 Sengine.
Context {App Client : Type} `{ISengineApp App}.

Lemma Tick_never_null (frames : list Frame) :
  forall a : Application App Client,
    ready a -> Engine.null_dereferenced (Tick frames a) = false.
Proof.
  induction frames as [| f rest IH]; intros a Hr.
  - destruct Hr as (app & w & Hca & Hw).
    destruct a as [ca mw pr hist]. simpl in Hca, Hw. subst ca mw.
    rewrite Tick_unfold. destruct (Swindow.m_IsRunning w); reflexivity.
  - destruct (Tick_body_ready f a Hr) as (a1 & Hb & Hr1 & _).
    destruct Hr as (app & w & Hca & Hw).
    destruct a as [ca mw pr hist]. simpl in Hca, Hw. subst ca mw.
    rewrite Tick_unfold. destruct (Swindow.m_IsRunning w); [| reflexivity].
    rewrite Hb. cbn [bind]. now apply IH.
Qed.

End NullFacts.

Lemma driver_with_client_app_never_null :
  forall (App Client : Type) (hooks : Sengine.ISengineApp App) (app : App)
         (pf : Swindow.Platform) (uninit : Swindow.Win32NativeWindow)
         (frames : list Sengine.Frame) (p : Swindow.Process Client),
    Engine.null_dereferenced
      (Sengine.CreateApplication app pf uninit frames (Sengine.fresh p))
    = false.
Proof.
  intros App Client hooks app pf uninit frames p.
  unfold Sengine.CreateApplication.
  destruct (fst (Sengine.OnEarlyInit app)) eqn:He.
  - destruct (fst (Sengine.OnInit (snd (Sengine.OnEarlyInit app)))) eqn:Hi.
    + destruct (Init_success pf uninit app p He Hi) as (a' & Hinit & Hr & _).
      rewrite Hinit. cbn [Sengine.bind fst snd Sengine.Init_value negb].
      pose proof (Tick_never_null frames a' Hr) as Hn.
      destruct (Sengine.Tick frames a') as [a1 | |] eqn:Ht; cbn [Sengine.bind];
        try reflexivity; try discriminate Hn.
      destruct (Tick_history frames a' a1 Hr Ht) as (Hr1 & _).
      destruct (App_Destroy_ready a1 Hr1) as (a2 & Hd & _).
      rewrite Hd. reflexivity.
    + destruct (Init_oninit_false pf uninit app p He Hi) as (a' & Hinit & _).
      rewrite Hinit. reflexivity.
  - destruct (Init_early_false pf uninit app p He) as (a' & Hinit & _).
    rewrite Hinit. reflexivity.
Qed.

(** X29: the only empty pointer the driver can go through is the client
    application it is handed.  Called on a fresh Application with a pointer
    that holds a client application, CreateApplication either returns or is
    still in its loop when the supplied frames run out, and no [->] is
    applied to an empty m_ClientApp, m_Window or m_NativeWindow, whatever the
    hooks answer and the platform returns.  Called with an empty pointer, it
    stores it and dereferences it at the first hook call of Init. *)
Theorem CreateApplication_never_dereferences_null :
  forall (App Client : Type) (hooks : Sengine.ISengineApp App) (app : option App)
         (pf : Swindow.Platform) (uninit : Swindow.Win32NativeWindow)
         (frames : list Sengine.Frame) (p : Swindow.Process Client),
    Engine.null_dereferenced
      (Sengine.CreateApplication_shared_ptr app pf uninit frames (Sengine.fresh p))
    = match app with
      | Some _ => false
      | None => true
      end.
Proof.
  intros App Client hooks [app |] pf uninit frames p.
  - change (Sengine.CreateApplication_shared_ptr (Some app) pf uninit frames
              (Sengine.fresh p))
      with (Sengine.CreateApplication app pf uninit frames (Sengine.fresh p)).
    apply driver_with_client_app_never_null.
  - reflexivity.
Qed.

(** ** The ImGui backend's callbacks behind the window procedure *)

Section ImGuiFacts.
Import Win32 Swindow SwindowImGui.

Variable KeysDown_size : Z.

Lemma install_callbacks_are (w0 : Window ImGuiIO) :
  m_WindowCallbacks (install KeysDown_size true w0)
  = mkWindowCallbacks (WindowResizeCallback (m_WindowCallbacks w0))
      (WindowCloseCallback (m_WindowCallbacks w0))
      (Some (on_key KeysDown_size)) (Some on_mouse_button) (Some on_mouse_move)
      (Some on_character).
Proof. reflexivity. Qed.

Lemma KeyCode_value_range (k : KeyCode) : 0 <= KeyCode_value k <= 61.
Proof. destruct k; simpl; lia. Qed.

Lemma WindowProc_keeps_right_button_up (m : MSG) (w : Window ImGuiIO)
      (p : Process ImGuiIO) :
  WindowKeyCallback (m_WindowCallbacks w) = Some (on_key KeysDown_size) ->
  WindowMouseCallback (m_WindowCallbacks w) = Some on_mouse_button ->
  WindowMouseMoveCallback (m_WindowCallbacks w) = Some on_mouse_move ->
  WindowCharacterCallback (m_WindowCallbacks w) = Some on_character ->
  WindowResizeCallback (m_WindowCallbacks w) = None ->
  WindowCloseCallback (m_WindowCallbacks w) = None ->
  MouseDown (client p) 1 = false ->
  MouseDown (client (snd (snd (WindowProc m w p)))) 1 = false.
Proof.
  intros Hk Hm Hmm Hch Hr Hc Hup.
  unfold WindowProc, GetWindowCallbacks. rewrite Hk, Hm, Hmm, Hch, Hr, Hc.
  repeat match goal with
         | |- context [if ?b then _ else _] => destruct b eqn:?
         end;
    cbn [snd client invoke PostQuitMessage set_system];
    unfold on_key, on_character, on_mouse_move, on_mouse_button, store, MouseButton_eqb;
    repeat match goal with
           | E : (_ =? WM_LBUTTONDOWN) || _ = false |- _ =>
               apply orb_false_elim in E; destruct E as [E _]; rewrite ?E
           end;
    cbn; try exact Hup;
    repeat match goal with
           | |- context [if ?b then _ else _] => destruct b
           end; cbn; first [exact Hup | reflexivity].
Qed.

End ImGuiFacts.

(** X27: through the ImGui backend the right mouse button is never down.
    With the backend's callbacks installed on a window that has no resize and
    no close callback, and io.MouseDown[1] false to begin with, it is false
    after any sequence of messages: a right-button press is handed to the
    callback as a release. *)
Theorem imgui_right_button_never_down :
  forall (KeysDown_size : Z) (ms : list Win32.MSG)
         (w0 : Swindow.Window SwindowImGui.ImGuiIO)
         (p : Swindow.Process SwindowImGui.ImGuiIO),
    Swindow.WindowResizeCallback (Swindow.GetWindowCallbacks w0) = None ->
    Swindow.WindowCloseCallback (Swindow.GetWindowCallbacks w0) = None ->
    SwindowImGui.MouseDown (Swindow.client p) 1 = false ->
    SwindowImGui.MouseDown
      (Swindow.client
         (snd (Swindow.dispatch ms (SwindowImGui.install KeysDown_size true w0) p))) 1
    = false.
Proof.
  intros size ms w0 p Hr Hc.
  assert (Hgen : forall (w : Swindow.Window SwindowImGui.ImGuiIO)
                        (q : Swindow.Process SwindowImGui.ImGuiIO),
             Swindow.m_WindowCallbacks w
             = Swindow.m_WindowCallbacks (SwindowImGui.install size true w0) ->
             SwindowImGui.MouseDown (Swindow.client q) 1 = false ->
             SwindowImGui.MouseDown
               (Swindow.client (snd (Swindow.dispatch ms w q))) 1 = false).
  { induction ms as [| m ms IH]; intros w q Hw Hup; [exact Hup |].
    rewrite dispatch_cons. apply IH.
    - destruct (WindowProc_window_frame m w q) as (Hcb & _). now rewrite Hcb.
    - rewrite install_callbacks_are in Hw.
      unfold Swindow.GetWindowCallbacks in Hr, Hc. rewrite Hr, Hc in Hw.
      apply (WindowProc_keeps_right_button_up size); try (rewrite Hw; reflexivity).
      exact Hup. }
  apply Hgen. reflexivity.
Qed.

Lemma imgui_right_button_never_down_witness :
  SwindowImGui.MouseDown
    (Swindow.client
       (snd (Swindow.dispatch
               [Win32.mkMSG Win32.WM_RBUTTONDOWN 2 0]
               (SwindowImGui.install 512 true (Swindow.mkWindow Sample.description Swindow.no_callbacks Sample.native true)) (Swindow.mkProcess SampleImGui.io [] Sample.running_system [] true))))
    1
  = false.
Proof.
  apply (imgui_right_button_never_down 512 [Win32.mkMSG Win32.WM_RBUTTONDOWN 2 0]
           (Swindow.mkWindow Sample.description Swindow.no_callbacks Sample.native true) (Swindow.mkProcess SampleImGui.io [] Sample.running_system [] true) eq_refl eq_refl eq_refl).
Defined.

(** X28: what the installed callbacks record.  With the backend's
    callbacks installed, a left-button message sets io.MouseDown[0] to
    pressed or released as the message says; a key message stores the same at
    the index of the converted key code in io.KeysDown, which the bounds
    check admits for every KeyCode once the array has more than 61 entries; a
    WM_CHAR calls AddInputCharacter with the low byte b of wParam converted
    from char to unsigned int, which is b below 128 and b - 256 + 2^32 from
    128 on (the char is negative there); and a WM_MOUSEMOVE stores the two
    words of lParam as the mouse position. *)
Theorem imgui_callbacks_record_input :
  forall (KeysDown_size : Z) (m : Win32.MSG) (pressed : bool)
         (w0 : Swindow.Window SwindowImGui.ImGuiIO)
         (p : Swindow.Process SwindowImGui.ImGuiIO),
    Swindow.user_data (Swindow.system p) = true ->
    61 < KeysDown_size ->
    (Win32.uMsg m = (if pressed then Win32.WM_LBUTTONDOWN else Win32.WM_LBUTTONUP) ->
     SwindowImGui.MouseDown
       (Swindow.client
          (snd (snd (Swindow.WindowProc m (SwindowImGui.install KeysDown_size true w0) p))))
       0
     = pressed)
    /\ (Win32.uMsg m = (if pressed then Win32.WM_KEYDOWN else Win32.WM_KEYUP) ->
        SwindowImGui.KeysDown
          (Swindow.client
             (snd (snd (Swindow.WindowProc m (SwindowImGui.install KeysDown_size true w0) p))))
          (Swindow.KeyCode_value (Swindow.ConvertNativeKeyCodes (wrap_int (Win32.wParam m))))
        = pressed)
    /\ (Win32.uMsg m = Win32.WM_CHAR ->
        SwindowImGui.InputCharacters
          (Swindow.client
             (snd (snd (Swindow.WindowProc m (SwindowImGui.install KeysDown_size true w0) p))))
        = SwindowImGui.InputCharacters (Swindow.client p)
            ++ [if Win32.wParam m mod 256 <? 128 then Win32.wParam m mod 256
                else Win32.wParam m mod 256 + 4294967040])
    /\ (Win32.uMsg m = Win32.WM_MOUSEMOVE ->
        SwindowImGui.MousePos
          (Swindow.client
             (snd (snd (Swindow.WindowProc m (SwindowImGui.install KeysDown_size true w0) p))))
        = (Win32.LOWORD (Win32.lParam m), Win32.HIWORD (Win32.lParam m))).
Proof.
  intros size m pressed w0 p Hu Hsize.
  split; [| split; [| split]].
  - intros Hm.
    rewrite (WindowProc_left_button m (SwindowImGui.install size true w0) p SwindowImGui.on_mouse_button pressed Hu Hm
               eq_refl).
    cbn. unfold SwindowImGui.store. cbn. reflexivity.
  - intros Hm.
    rewrite (WindowProc_key m (SwindowImGui.install size true w0) p (SwindowImGui.on_key size) pressed Hu Hm eq_refl).
    cbn [snd Swindow.client Swindow.invoke]. unfold SwindowImGui.on_key.
    pose proof (KeyCode_value_range
                  (Swindow.ConvertNativeKeyCodes (wrap_int (Win32.wParam m)))) as Hrange.
    unfold SwindowImGui.ConvertKeyCode.
    destruct (Z.leb_spec 0 (Swindow.KeyCode_value
                              (Swindow.ConvertNativeKeyCodes (wrap_int (Win32.wParam m)))));
      [| lia].
    destruct (Z.ltb_spec (Swindow.KeyCode_value
                            (Swindow.ConvertNativeKeyCodes (wrap_int (Win32.wParam m))))
                size); [| lia].
    cbn [andb SwindowImGui.KeysDown]. unfold SwindowImGui.store.
    now rewrite Z.eqb_refl.
  - intros Hm.
    rewrite (WindowProc_char m (SwindowImGui.install size true w0) p SwindowImGui.on_character Hu Hm eq_refl).
    cbn [snd Swindow.client Swindow.invoke SwindowImGui.on_character
         SwindowImGui.InputCharacters].
    unfold SwindowImGui.char_to_unsigned_int.
    destruct (Win32.wParam m mod 256 <? 128); [reflexivity |].
    f_equal. f_equal. change (2 ^ 32) with 4294967296. lia.
  - intros Hm.
    rewrite (WindowProc_mouse_move m (SwindowImGui.install size true w0) p SwindowImGui.on_mouse_move Hu Hm eq_refl).
    reflexivity.
Qed.

Lemma imgui_callbacks_record_input_witness :
  SwindowImGui.MouseDown
    (Swindow.client
       (snd (snd (Swindow.WindowProc (Win32.mkMSG Win32.WM_LBUTTONDOWN 1 0)
                    (SwindowImGui.install 512 true (Swindow.mkWindow Sample.description Swindow.no_callbacks Sample.native true))
                    (Swindow.mkProcess SampleImGui.io [] Sample.running_system [] true)))))
    0
  = true.
Proof.
  apply (proj1 (imgui_callbacks_record_input 512 (Win32.mkMSG Win32.WM_LBUTTONDOWN 1 0) true
                  (Swindow.mkWindow Sample.description Swindow.no_callbacks Sample.native true) (Swindow.mkProcess SampleImGui.io [] Sample.running_system [] true) eq_refl ltac:(lia))).
  reflexivity.
Defined.

(** * The life cycle of a run, with its effects *)

Section LifeCycle.
Import Win32 Sengine.
Context {App Client : Type} `{ISengineApp App}.

Lemma Tick_done_stopped (frames : list Frame) :
  forall (a a' : Application App Client),
    ready a -> Tick frames a = Done a' -> is_running a' = false.
Proof.
  induction frames as [| f rest IH]; intros a a' Hr Ht.
  - destruct Hr as (app & w & Hca & Hw).
    destruct a as [ca mw pr hist]. cbn in Hca, Hw. subst ca mw.
    rewrite Tick_unfold in Ht.
    destruct (Swindow.m_IsRunning w) eqn:E; [discriminate |].
    injection Ht as <-. exact E.
  - pose proof Hr as (app & w & Hca & Hw).
    destruct (Tick_body_ready f a Hr) as (a1 & Hb & Hr1 & _).
    destruct a as [ca mw pr hist]. cbn in Hca, Hw. subst ca mw.
    rewrite Tick_unfold in Ht.
    destruct (Swindow.m_IsRunning w) eqn:E.
    + rewrite Hb in Ht. cbn [bind] in Ht. exact (IH a1 a' Hr1 Ht).
    + injection Ht as <-. exact E.
Qed.

Lemma Init_ready (pf : Swindow.Platform) (uninit : Swindow.Win32NativeWindow)
      (description : Swindow.WindowDescription) (app : App)
      (p : Swindow.Process Client) :
  ready (mkApplication (Some app)
           (Some (fst (snd (Create description pf uninit (mkWindow None) p))))
           (snd (snd (Create description pf uninit (mkWindow None) p)))
           [CalledOnEarlyInit; CalledWindowCreate; CalledOnInit]).
Proof.
  destruct (Create_window description pf uninit (mkWindow None) p) as (w & Hw & _).
  exists app, w. cbn [m_ClientApp m_Window]. now rewrite Hw.
Qed.

End LifeCycle.

(** C5: every run of Application::CreateApplication on a fresh Application,
    with the state it leaves behind.

    - When OnEarlyInit returns false the function returns at once: the
      client application is the one OnEarlyInit left, no window object
      exists, the process is untouched, and OnEarlyInit is the only call
      made.
    - When OnEarlyInit returns true and OnInit returns false the function
      returns after Init: the client application is the one OnInit left,
      the window is the one Window::Create made (it is never destroyed),
      and the calls made are OnEarlyInit, Window::Create, OnInit.
    - So in both cases OnTick, OnDestroy and OnLateDestroy are never invoked.
    - When both hooks return true and the function returns, the tick loop
      made some number n of passes, at most one per supplied frame,
      applying OnTick n times, and left a window that is no longer running;
      then OnDestroy ran on the client application, Swindow's Destroy ran on
      the window and process the loop left, and OnLateDestroy ran on the
      client application OnDestroy left, in this order and with nothing
      after.
    - When both hooks return true the function does return once a frame
      reports the Escape key down. *)
Theorem CreateApplication_lifecycle :
  forall (App Client : Type) (hooks : Sengine.ISengineApp App) (app : App)
         (pf : Swindow.Platform) (uninit : Swindow.Win32NativeWindow)
         (frames : list Sengine.Frame) (p : Swindow.Process Client),
    let early := Sengine.OnEarlyInit app in
    let oninit := Sengine.OnInit (snd early) in
    let created :=
      Sengine.Create (Sengine.GetWindowDescription (snd early)) pf uninit
        (Sengine.mkWindow None) p in
    let init_calls :=
      [Sengine.CalledOnEarlyInit; Sengine.CalledWindowCreate; Sengine.CalledOnInit] in
    let teardown_calls :=
      [Sengine.CalledOnDestroy; Sengine.CalledWindowDestroy;
       Sengine.CalledOnLateDestroy] in
    let after_init :=
      Sengine.mkApplication (Some (snd oninit)) (Some (fst (snd created)))
        (snd (snd created)) init_calls in
    (fst early = false ->
     Sengine.CreateApplication app pf uninit frames (Sengine.fresh p)
     = Sengine.Done
         (Sengine.mkApplication (Some (snd early)) None p [Sengine.CalledOnEarlyInit]))
    /\ (fst early = true -> fst oninit = false ->
        Sengine.CreateApplication app pf uninit frames (Sengine.fresh p)
        = Sengine.Done after_init)
    /\ (fst early = false \/ fst oninit = false ->
        exists final : Sengine.Application App Client,
          Sengine.CreateApplication app pf uninit frames (Sengine.fresh p)
          = Sengine.Done final
          /\ ~ In Sengine.CalledOnTick (Sengine.history final)
          /\ ~ In Sengine.CalledOnDestroy (Sengine.history final)
          /\ ~ In Sengine.CalledOnLateDestroy (Sengine.history final))
    /\ (fst early = true -> fst oninit = true ->
        forall final : Sengine.Application App Client,
          Sengine.CreateApplication app pf uninit frames (Sengine.fresh p)
          = Sengine.Done final ->
          exists (n : nat) (w1 : Swindow.Window Client) (pr1 : Swindow.Process Client),
            (n <= List.length frames)%nat
            /\ Sengine.Tick frames after_init
               = Sengine.Done
                   (Sengine.mkApplication
                      (Some (Engine.iterate Sengine.OnTick n (snd oninit)))
                      (Some (Sengine.mkWindow (Some w1))) pr1
                      (init_calls ++ List.concat (repeat Engine.pass n)))
            /\ Swindow.GetIsRunning w1 = false
            /\ final
               = Sengine.mkApplication
                   (Some (Sengine.OnLateDestroy
                            (Sengine.OnDestroy
                               (Engine.iterate Sengine.OnTick n (snd oninit)))))
                   (Some (Sengine.mkWindow (Some (fst (Swindow.Destroy w1 pr1)))))
                   (snd (Swindow.Destroy w1 pr1))
                   ((init_calls ++ List.concat (repeat Engine.pass n))
                      ++ teardown_calls))
    /\ (fst early = true -> fst oninit = true ->
        existsb Sengine.escape_down frames = true ->
        exists final : Sengine.Application App Client,
          Sengine.CreateApplication app pf uninit frames (Sengine.fresh p)
          = Sengine.Done final).
Proof.
  intros App Client hooks app pf uninit frames p early oninit created init_calls
         teardown_calls after_init.
  assert (Hearly : fst early = false ->
                   Sengine.CreateApplication app pf uninit frames (Sengine.fresh p)
                   = Sengine.Done
                       (Sengine.mkApplication (Some (snd early)) None p
                          [Sengine.CalledOnEarlyInit])).
  { intros He. subst early. unfold Sengine.CreateApplication, Sengine.Init. simpl.
    rewrite He. reflexivity. }
  assert (Hlate : fst early = true -> fst oninit = false ->
                  Sengine.CreateApplication app pf uninit frames (Sengine.fresh p)
                  = Sengine.Done after_init).
  { intros He Hi. subst early oninit. unfold Sengine.CreateApplication.
    rewrite (Init_fails_at_OnInit pf uninit app p He Hi). reflexivity. }
  assert (Hready : Sengine.ready after_init).
  { apply Init_ready. }
  split; [exact Hearly |]. split; [exact Hlate |]. split; [| split].
  - intros Hfail.
    destruct (fst early) eqn:He.
    + destruct Hfail as [Hf | Hf]; [discriminate |].
      exists after_init. split; [exact (Hlate eq_refl Hf) |].
      cbn. intuition discriminate.
    + eexists. split; [exact (Hearly eq_refl) |].
      cbn. intuition discriminate.
  - intros He Hi final. subst early oninit. unfold Sengine.CreateApplication.
    rewrite (Init_succeeds_with pf uninit app p He Hi).
    cbn [Sengine.bind fst snd Sengine.Init_value negb].
    fold created. fold init_calls. fold after_init.
    destruct (Sengine.Tick frames after_init) as [a1 | |] eqn:Ht;
      cbn [Sengine.bind]; try discriminate.
    destruct (Tick_history frames after_init a1 Hready Ht) as (Hr1 & _).
    destruct (Tick_client frames after_init a1 _ Hready eq_refl Ht)
      as (n & Hn & Hc & Hh).
    pose proof (Tick_done_stopped frames after_init a1 Hready Ht) as Hstop.
    destruct Hr1 as (app1 & w1 & Hca1 & Hw1).
    destruct a1 as [ca mw pr1 h1]. cbn in Hca1, Hw1, Hc, Hh, Hstop. subst ca mw.
    injection Hc as ->. subst h1.
    rewrite App_Destroy_value. intros [= <-].
    exists n, w1, pr1. repeat split; [exact Hn | exact Hstop].
  - intros He Hi Hesc. subst early oninit. unfold Sengine.CreateApplication.
    rewrite (Init_succeeds_with pf uninit app p He Hi).
    cbn [Sengine.bind fst snd Sengine.Init_value negb].
    fold created. fold init_calls. fold after_init.
    destruct (Tick_terminates frames after_init Hready Hesc) as (a1 & Ht).
    rewrite Ht. cbn [Sengine.bind].
    destruct (Tick_history frames after_init a1 Hready Ht) as (Hr1 & _).
    destruct (App_Destroy_ready a1 Hr1) as (a2 & Hd & _).
    exists a2. exact Hd.
Qed.

Lemma CreateApplication_lifecycle_witness :
  exists final : Sengine.Application nat nat,
    @Sengine.CreateApplication nat nat Sample.counting_app 0%nat Sample.platform_ok
      Sample.native
      [Sengine.mkFrame [] Sample.no_keys; Sengine.mkFrame [] Sample.escape_held]
      (Sengine.fresh Sample.boot)
    = Sengine.Done final.
Proof.
  apply (proj2 (proj2 (proj2 (proj2
           (CreateApplication_lifecycle nat nat Sample.counting_app 0%nat
              Sample.platform_ok Sample.native
              [Sengine.mkFrame [] Sample.no_keys;
               Sengine.mkFrame [] Sample.escape_held]
              Sample.boot)))));
    reflexivity.
Defined.
